(** * conditioned_main.py: the training driver, embedded and verified

    The driver is a straight-line Python script: it parses the command line
    into the namespace [opt], seeds the two global random generators, splits
    the landscape and the portrait dataset 80/20, selects a model and a loss
    by chained conditionals, and runs the epoch loop (train, log, checkpoint,
    evaluate, visualise), ending with one final save.

    The script is embedded as a state-and-exception monad over a [World]
    holding everything the script reads and writes: the namespace, the two
    generator states, the gradient mode, the model and optimizer state, the
    set of existing directories and the trace of observable effects.  What
    the script delegates to PyTorch, torchvision and tensorboardX is an
    interface ([Framework]) with the contracts the libraries document.
    Calls into these libraries are taken to return (no out-of-memory, no
    missing device, no unreadable image, a file system that lets the process
    write where a directory exists), except where they reject a value the
    command line can supply: a seed outside torch's range (line 47), a device
    index (line 53), a learning rate (line 108), a path whose parent
    directory is missing (lines 131 and 155).  What the script itself can
    raise is modelled, with the line that raises it. *)

From Stdlib Require Import ZArith List String Ascii Bool Lia Permutation RelationClasses.
From Stdlib Require Import DecimalString DecimalPos DecimalZ FinFun.
Import ListNotations.

Local Open Scope Z_scope.

(* ===================================================================== *)
(** ** Python floats, as far as line 69 and 73 need them

    [int(0.8 * len(ds))] multiplies two binary64 numbers.  A non-negative
    finite binary64 value is kept as [fnum * 2 ^ fexp]; every operation
    rounds its exact result to 53 significant bits, ties to even. *)

Module PyFloat.

Record t : Type := mk { fnum : Z; fexp : Z }.

(** Round a non-negative integer significand to 53 significant bits,
    to nearest, ties to even.  The result is the rounded value itself
    (a multiple of [2 ^ sh]), not the shifted significand. *)
Definition round53 (x : Z) : Z :=
  let bits := Z.log2 x + 1 in
  if bits <=? 53 then x
  else
    let sh := bits - 53 in
    let q := Z.shiftr x sh in
    let r := x mod 2 ^ sh in
    let half := 2 ^ (sh - 1) in
    let q' := if (half <? r) || ((r =? half) && Z.odd q) then q + 1 else q in
    Z.shiftl q' sh.

(** [float(n)] for a non-negative Python int. *)
Definition of_int (n : Z) : t := mk (round53 n) 0.

(** The literal [0.8]: 0x1.999999999999ap-1. *)
Definition lit_0_8 : t := mk 7205759403792794 (-53).

(** [a * b] on floats. *)
Definition mul (a b : t) : t := mk (round53 (fnum a * fnum b)) (fexp a + fexp b).

(** [int(x)]: truncation toward zero. *)
Definition to_int (x : t) : Z :=
  if 0 <=? fexp x then fnum x * 2 ^ fexp x
  else Z.quot (fnum x) (2 ^ (- fexp x)).

(** [math.floor(x)]. *)
Definition floor (x : t) : Z :=
  if 0 <=? fexp x then fnum x * 2 ^ fexp x
  else fnum x / 2 ^ (- fexp x).

End PyFloat.

(** Line 69 / 73: [train_size = int(0.8 * len(dataset))]. *)
Definition train_size (len : nat) : Z :=
  PyFloat.to_int (PyFloat.mul PyFloat.lit_0_8 (PyFloat.of_int (Z.of_nat len))).

(** Line 70 / 74: [test_size = len(dataset) - train_size]. *)
Definition test_size (len : nat) : Z := Z.of_nat len - train_size len.

(* ===================================================================== *)
(** ** Values, exceptions and the framework interface *)

Local Open Scope string_scope.

(** The Python exceptions the script can run into. *)
Inductive exn : Type :=
| TypeError | NameError | ValueError | ZeroDivisionError
| IndexError | FileNotFoundError | RuntimeError | SystemExit.

(** A statement either completes or raises at a source line. *)
Inductive outcome (A : Type) : Type :=
| Ok (a : A)
| Raise (e : exn) (line : nat).

Arguments Ok {A} a.
Arguments Raise {A} e line.

(** [opt.checkpoint_every] is an int when the default is used and a str when
    it comes from the command line: line 26 declares no [type=]. *)
Inductive pyval : Type :=
| PyInt (z : Z)
| PyStr (s : string).

Inductive orientation : Type := Landscape | Portrait.

(** Line 53: [torch.device("cuda:"+str(opt.cuda_idx) if opt.cuda else "cpu")]. *)
Inductive device : Type := Cpu | Cuda (idx : Z).

Inductive arch : Type := CAN32 | UNet.

(** The loss objects of lines 93-104, as the constructor calls that build
    them; [R] is the type of Python floats. *)
Inductive criterion_of (R : Type) : Type :=
| MSELoss
| L1Loss
| NimaLoss (d : device) (gamma : R) (base : criterion_of R)
| ColorSSIM (d : device) (variant : option string).

Arguments MSELoss {R}.
Arguments L1Loss {R}.
Arguments NimaLoss {R} d gamma base.
Arguments ColorSSIM {R} d variant.

(** A map-style dataset: [__len__] and [__getitem__]. *)
Record dataset (S : Type) : Type := mkDataset {
  ds_len : nat;
  ds_get : nat -> S
}.

Arguments mkDataset {S} _ _.
Arguments ds_len {S} _.
Arguments ds_get {S} _ _.

(** [str(n)] for a Python int. *)
Definition str_of_Z (z : Z) : string := NilZero.string_of_int (Z.to_int z).

Definition str_of_nat (n : nat) : string := NilZero.string_of_uint (Nat.to_uint n).

Fixpoint ends_with_slash (s : string) : bool :=
  match s with
  | EmptyString => false
  | String c EmptyString => Ascii.eqb c "/"
  | String _ s' => ends_with_slash s'
  end.

Definition starts_with_slash (s : string) : bool :=
  match s with
  | String c _ => Ascii.eqb c "/"
  | EmptyString => false
  end.

(** [os.path.join(a, b)] (posixpath, two components). *)
Definition path_join (a b : string) : string :=
  if starts_with_slash b then b
  else if (a =? "") || ends_with_slash a then a ++ b
  else a ++ "/" ++ b.

Fixpoint has_slash (s : string) : bool :=
  match s with
  | EmptyString => false
  | String c s' => Ascii.eqb c "/" || has_slash s'
  end.

(** A name that [os.path.join] puts directly inside the directory it is
    joined to, and that names neither that directory nor its parent. *)
Definition is_file_name (f : string) : bool :=
  negb (has_slash f) && negb (f =? "") && negb (f =? ".") && negb (f =? "..").

(** What the script takes from [random], [torch], [torchvision],
    [tensorboardX], the operating system and the repository's modules
    [datasets], [models] and [loss], none of which it defines.  The fields
    after the comment [contracts] are what those libraries document.

    Where a library call rejects an argument the command line can supply,
    the interface says so: [torch.device] rejects some device indices
    ([torch_device_rejects]; every negative one), [optim.Adam] a learning
    rate [lr] unless [0.0 <= lr] ([scalar_nonneg]), and [torch.save] cannot
    write where the operating system finds no parent directory
    ([file_creatable], judged on the joined path so that the operating
    system's own reading of the path decides, not a comparison of
    strings). *)
Class Framework : Type := {
  (* Python floats carried through the losses *)
  Scalar : Type;
  scalar_lit : string -> Scalar;
  scalar_zero : Scalar;
  scalar_add : Scalar -> Scalar -> Scalar;
  scalar_div : Scalar -> Z -> Scalar;
  scalar_nonneg : Scalar -> bool;  (* 0.0 <= x *)
  (* module random *)
  PyRng : Type;
  random_seed : Z -> PyRng;
  random_randint : Z -> Z -> PyRng -> Z * PyRng;
  random_sample : nat -> nat -> PyRng -> list nat * PyRng;
  (* torch's default generator *)
  TorchRng : Type;
  torch_manual_seed : Z -> TorchRng;
  torch_randperm : nat -> TorchRng -> list nat * TorchRng;
  sampler_order : nat -> TorchRng -> list nat * TorchRng;
  sampler_rejects_empty : bool;
  (* tensors and modules *)
  Sample : Type;
  Params : Type;
  OptState : Type;
  Grads : Type;
  Output : Type;
  Grid : Type;
  FivekDataset_new : string -> Z -> Z * Z -> orientation -> bool -> dataset Sample;
  ConditionalCAN_new : PyRng * TorchRng -> Params * (PyRng * TorchRng);
  ConditionalUNet_new : PyRng * TorchRng -> Params * (PyRng * TorchRng);
  loss_module_new : PyRng * TorchRng -> PyRng * TorchRng;
  net_forward : arch -> Params -> bool -> list Sample -> Output;
  loss_item : criterion_of Scalar -> Output -> list Sample -> Scalar;
  grads_zero : Grads;
  loss_backward : criterion_of Scalar -> arch -> Params -> list Sample -> Grads -> Grads;
  Adam_new : Scalar -> Params -> OptState;
  Adam_step : OptState -> Params -> Grads -> Params * OptState;
  make_grid : Sample -> Output -> Grid;
  (* torch.device("cuda:" + str(idx)) raises *)
  torch_device_rejects : Z -> bool;
  (* open(path, 'wb') succeeds, given directories known to exist *)
  file_creatable : list string -> string -> bool;
  (* what torch.save raises when it does not: FileNotFoundError from open()
     in the releases that pickle into a plain file, RuntimeError from the zip
     writer in the later ones *)
  torch_save_error : exn;
  (* contracts *)
  randint_range : forall a b g, a <= b -> a <= fst (random_randint a b g) <= b;
  sample_length : forall n k g, (k <= n)%nat -> List.length (fst (random_sample n k g)) = k;
  sample_range : forall n k g i,
    (k <= n)%nat -> In i (fst (random_sample n k g)) -> (i < n)%nat;
  randperm_perm : forall n g, Permutation (fst (torch_randperm n g)) (seq 0 n);
  sampler_perm : forall n g, Permutation (fst (sampler_order n g)) (seq 0 n);
  device_rejects_negative : forall idx, idx < 0 -> torch_device_rejects idx = true;
  file_creatable_inside : forall ds d f,
    d = "" \/ In d ds -> is_file_name f = true ->
    file_creatable ds (path_join d f) = true
}.

(* ===================================================================== *)
(** ** The state of a run *)

Section Driver.

Context {F : Framework}.

Definition criterion_obj : Type := criterion_of Scalar.

(** The namespace [opt] of line 33, one field per [add_argument]. *)
Record Namespace : Type := mkNamespace {
  batch_size : Z;
  epochs : Z;
  lr : Scalar;
  cuda : bool;
  cuda_idx : Z;
  manual_seed : option Z;
  logdir : string;
  run_tag : string;
  checkpoint_every : pyval;
  checkpoint_dir : string;
  final_dir : string;
  model_type : string;
  loss : string;
  gamma : Scalar;
  data_path : string
}.

(** The command line after argparse has split it and applied the declared
    [type=] conversions: [None] is an option that was not given.  An option
    declared without [type=] keeps its text. *)
Record CommandLine : Type := mkCommandLine {
  arg_batch_size : option Z;
  arg_epochs : option Z;
  arg_lr : option Scalar;
  arg_cuda : bool;
  arg_cuda_idx : option Z;
  arg_manual_seed : option Z;
  arg_logdir : option string;
  arg_run_tag : option string;
  arg_checkpoint_every : option string;
  arg_checkpoint_dir : option string;
  arg_final_dir : option string;
  arg_model_type : option string;
  arg_loss : option string;
  arg_gamma : option Scalar;
  arg_data_path : option string
}.

Definition model_type_choices : list string := ["can32"; "unet"].

Definition loss_choices : list string :=
  ["mse"; "mae"; "l1nima"; "l2nima"; "l1ssim"; "colorssim"].

Definition mem_string (s : string) (l : list string) : bool :=
  existsb (String.eqb s) l.

Definition default {A : Type} (d : A) (o : option A) : A :=
  match o with Some a => a | None => d end.

Definition choice_ok (choices : list string) (o : option string) : bool :=
  match o with Some v => mem_string v choices | None => true end.

(** Lines 17-33: [opt = parser.parse_args()].  A value outside [choices]
    makes argparse exit. *)
Definition parse_args (c : CommandLine) : outcome Namespace :=
  if negb (choice_ok model_type_choices (arg_model_type c)) then Raise SystemExit 33
  else if negb (choice_ok loss_choices (arg_loss c)) then Raise SystemExit 33
  else Ok {|
    batch_size := default 8 (arg_batch_size c);
    epochs := default 100 (arg_epochs c);
    lr := default (scalar_lit "2e-4") (arg_lr c);
    cuda := arg_cuda c;
    cuda_idx := default 1 (arg_cuda_idx c);
    manual_seed := arg_manual_seed c;
    logdir := default "log" (arg_logdir c);
    run_tag := default "" (arg_run_tag c);
    checkpoint_every :=
      match arg_checkpoint_every c with Some s => PyStr s | None => PyInt 10 end;
    checkpoint_dir := default "checkpoints" (arg_checkpoint_dir c);
    final_dir := default "final_models" (arg_final_dir c);
    model_type := default "can32" (arg_model_type c);
    loss := default "mse" (arg_loss c);
    gamma := default (scalar_lit "0.001") (arg_gamma c);
    data_path := default "/home/iacv3_1/fivek" (arg_data_path c)
  |}.

(** An [nn.Module] holding a network: its parameters, the [training] flag
    that [train()] and [eval()] set, the accumulated [.grad] and the device. *)
Record module : Type := mkModule {
  m_arch : arch;
  m_params : Params;
  m_training : bool;
  m_grads : Grads;
  m_device : device
}.

Inductive printed : Type :=
| PrOpt (o : Namespace)
| PrSeed (s : option Z)
| PrCudaHint
| PrProgress (epoch batch : Z) (avg : Scalar)
| PrFinished.

(** What a run leaves behind, in order. *)
Inductive Event : Type :=
| EvAddText (tag : string) (o : Namespace) (step : Z)
| EvAddScalar (tag : string) (v : Scalar) (step : Z)
| EvAddImage (tag : string) (g : Grid) (step : Z)
| EvSave (dir file : string) (state : Params)
| EvForward (grad training : bool)
| EvPrint (p : printed).

Record World : Type := mkWorld {
  opt : Namespace;
  py_rng : PyRng;
  torch_rng : TorchRng;
  grad_enabled : bool;
  model : option module;
  criterion : option criterion_obj;
  optimizer : option OptState;
  dirs : list string;
  trace : list Event
}.

Definition set_opt (o : Namespace) (w : World) : World :=
  mkWorld o (py_rng w) (torch_rng w) (grad_enabled w) (model w) (criterion w)
          (optimizer w) (dirs w) (trace w).

Definition set_rngs (g : PyRng * TorchRng) (w : World) : World :=
  mkWorld (opt w) (fst g) (snd g) (grad_enabled w) (model w) (criterion w)
          (optimizer w) (dirs w) (trace w).

Definition set_grad_enabled (b : bool) (w : World) : World :=
  mkWorld (opt w) (py_rng w) (torch_rng w) b (model w) (criterion w)
          (optimizer w) (dirs w) (trace w).

Definition set_model (m : option module) (w : World) : World :=
  mkWorld (opt w) (py_rng w) (torch_rng w) (grad_enabled w) m (criterion w)
          (optimizer w) (dirs w) (trace w).

Definition set_criterion (c : option criterion_obj) (w : World) : World :=
  mkWorld (opt w) (py_rng w) (torch_rng w) (grad_enabled w) (model w) c
          (optimizer w) (dirs w) (trace w).

Definition set_optimizer (s : option OptState) (w : World) : World :=
  mkWorld (opt w) (py_rng w) (torch_rng w) (grad_enabled w) (model w) (criterion w)
          s (dirs w) (trace w).

Definition set_dirs (d : list string) (w : World) : World :=
  mkWorld (opt w) (py_rng w) (torch_rng w) (grad_enabled w) (model w) (criterion w)
          (optimizer w) d (trace w).

Definition set_trace (t : list Event) (w : World) : World :=
  mkWorld (opt w) (py_rng w) (torch_rng w) (grad_enabled w) (model w) (criterion w)
          (optimizer w) (dirs w) t.

(** *** The monad: state, and exceptions that keep the state reached *)

Definition M (A : Type) : Type := World -> outcome A * World.

Definition ret {A : Type} (a : A) : M A := fun w => (Ok a, w).

Definition bind {A B : Type} (m : M A) (k : A -> M B) : M B :=
  fun w =>
    match m w with
    | (Ok a, w') => k a w'
    | (Raise e l, w') => (Raise e l, w')
    end.

Definition raise {A : Type} (e : exn) (line : nat) : M A :=
  fun w => (Raise e line, w).

Definition gets {A : Type} (f : World -> A) : M A := fun w => (Ok (f w), w).

Definition modify (f : World -> World) : M unit := fun w => (Ok tt, f w).

Definition emit (e : Event) : M unit :=
  modify (fun w => set_trace (trace w ++ [e]) w).

End Driver.

Declare Scope py_scope.
Delimit Scope py_scope with py.

Notation "x <- m ;; k" := (bind m (fun x => k))
  (at level 61, m at next level, right associativity) : py_scope.
Notation "m ;;; k" := (bind m (fun _ => k))
  (at level 61, right associativity) : py_scope.

(* ===================================================================== *)
(** ** Data: subsets, loaders, the joined loader *)

Section Data.

Context {F : Framework}.

Local Open Scope list_scope.
Local Open Scope Z_scope.
Local Open Scope py_scope.

(** [torch.utils.data.Subset]: a dataset seen through a list of indices. *)
Record subset : Type := mkSubset {
  sub_dataset : dataset Sample;
  indices : list nat
}.

Definition subset_len (s : subset) : nat := List.length (indices s).

(** [indices[i:j]] for [0 <= i <= j]. *)
Definition slice {A : Type} (l : list A) (i j : Z) : list A :=
  firstn (Z.to_nat (j - i)) (skipn (Z.to_nat i) l).

(** Draw from torch's default generator. *)
Definition torch_draw {A : Type} (f : TorchRng -> A * TorchRng) : M A :=
  fun w =>
    let (a, g) := f (torch_rng w) in
    (Ok a, set_rngs (py_rng w, g) w).

(** Draw from the generator of module [random]. *)
Definition random_draw {A : Type} (f : PyRng -> A * PyRng) : M A :=
  fun w =>
    let (a, g) := f (py_rng w) in
    (Ok a, set_rngs (g, torch_rng w) w).

(** [torch.utils.data.random_split(dataset, [a, b])]: the lengths must add
    up to the dataset; one permutation is drawn and cut at [a]. *)
Definition random_split (ds : dataset Sample) (lengths : Z * Z) (line : nat)
  : M (subset * subset) :=
  let (a, b) := lengths in
  if negb (a + b =? Z.of_nat (ds_len ds)) then raise ValueError line
  else
    perm <- torch_draw (torch_randperm (Z.to_nat (a + b))) ;;
    ret (mkSubset ds (slice perm 0 a), mkSubset ds (slice perm a (a + b))).

(** [DataLoader(ds, batch_size=b, shuffle=True, num_workers=2)]. *)
Record data_loader : Type := mkDataLoader {
  dl_dataset : subset;
  dl_batch_size : nat
}.

Definition DataLoader (ds : subset) (b : Z) (line : nat) : M data_loader :=
  if sampler_rejects_empty && (subset_len ds =? 0)%nat then raise ValueError line
  else if b <=? 0 then raise ValueError line
  else ret (mkDataLoader ds (Z.to_nat b)).

(** [BatchSampler.__iter__] with [drop_last=False]: fill a batch, yield it
    when it holds [b] indices, yield what is left at the end. *)
Fixpoint batch_sampler (b : nat) (batch : list nat) (sampler : list nat)
  : list (list nat) :=
  match sampler with
  | [] => match batch with [] => [] | _ => [batch] end
  | idx :: rest =>
      let batch' := batch ++ [idx] in
      if (List.length batch' =? b)%nat then batch' :: batch_sampler b [] rest
      else batch_sampler b batch' rest
  end.

(** [len(loader)]: [(len(sampler) + batch_size - 1) // batch_size]. *)
Definition loader_len (dl : data_loader) : Z :=
  (Z.of_nat (subset_len (dl_dataset dl)) + Z.of_nat (dl_batch_size dl) - 1)
  / Z.of_nat (dl_batch_size dl).

Definition subset_get (s : subset) (i : nat) : Sample :=
  ds_get (sub_dataset s) (nth i (indices s) 0%nat).

(** One pass over a loader: a fresh order from the sampler, cut into
    batches, each batch collated from the samples it names. *)
Definition loader_iter (dl : data_loader) : M (list (list Sample)) :=
  order <- torch_draw (sampler_order (subset_len (dl_dataset dl))) ;;
  ret (map (map (subset_get (dl_dataset dl)))
           (batch_sampler (dl_batch_size dl) [] order)).

(** Modelled from the spec: [torch_utils.JoinedDataLoader] is imported on
    line 14 and is not among the sources.  The spec (4.1) has it advance both
    underlying loaders on each step and yield one combined batch, the shorter
    loader bounding the iteration, and has the length it exposes equal the
    number of combined batches produced. *)
Record JoinedDataLoader : Type := mkJoined {
  loaderA : data_loader;
  loaderB : data_loader
}.

(** Modelled from the spec: one combined batch per step of both loaders. *)
Definition joined_iter (j : JoinedDataLoader) : M (list (list Sample)) :=
  a <- loader_iter (loaderA j) ;;
  b <- loader_iter (loaderB j) ;;
  ret (map (fun p => fst p ++ snd p) (combine a b)).

(** Modelled from the spec: the exposed length, the shorter loader's. *)
Definition joined_len (j : JoinedDataLoader) : Z :=
  Z.min (loader_len (loaderA j)) (loader_len (loaderB j)).

End Data.

(* ===================================================================== *)
(** ** The script, top to bottom *)

Section Script.

Context {F : Framework}.

Local Open Scope list_scope.
Local Open Scope Z_scope.
Local Open Scope py_scope.

(** Run [m] for each element in turn; an exception ends the loop. *)
Fixpoint for_each {A : Type} (l : list A) (body : A -> M unit) : M unit :=
  match l with
  | [] => ret tt
  | x :: rest => body x ;;; for_each rest body
  end.

(** A loop that carries a value from one iteration to the next. *)
Fixpoint for_fold {A S : Type} (l : list A) (s : S) (body : A -> S -> M S) : M S :=
  match l with
  | [] => ret s
  | x :: rest => s' <- body x s ;; for_fold rest s' body
  end.

(** [enumerate(l)]. *)
Definition enumerate {A : Type} (l : list A) : list (Z * A) :=
  combine (map Z.of_nat (seq 0 (List.length l))) l.

(** [range(n)] for a Python int [n]. *)
Definition range (n : Z) : list Z := map Z.of_nat (seq 0 (Z.to_nat n)).

(** Reading the global [model]: a [NameError] while it is unbound. *)
Definition read_model (line : nat) : M module :=
  v <- gets model ;;
  match v with Some m => ret m | None => raise NameError line end.

Definition read_criterion (line : nat) : M criterion_obj :=
  v <- gets criterion ;;
  match v with Some c => ret c | None => raise NameError line end.

Definition read_optimizer (line : nat) : M OptState :=
  v <- gets optimizer ;;
  match v with Some s => ret s | None => raise NameError line end.

Definition write_model (m : module) : M unit := modify (set_model (Some m)).

(** [os.makedirs(d, exist_ok=True)]. *)
Definition makedirs (d : string) (line : nat) : M unit :=
  if (d =? "")%string then raise FileNotFoundError line
  else modify (fun w => set_dirs (d :: dirs w) w).

(** [torch.save(model.state_dict(), os.path.join(dir, file))]: the file is
    created at the joined path.  [dirs] holds the directories known to exist,
    under the names the script or the environment gave them. *)
Definition torch_save (dir file : string) (line : nat) : M unit :=
  m <- read_model line ;;
  ok <- gets (fun w => file_creatable (dirs w) (path_join dir file)) ;;
  if ok then emit (EvSave dir file (m_params m))
  else raise torch_save_error line.

(** [with torch.no_grad(): body]: gradient mode off inside, restored on the
    way out, also when [body] raises. *)
Definition with_no_grad {A : Type} (body : M A) : M A :=
  fun w =>
    let prev := grad_enabled w in
    let (r, w') := body (set_grad_enabled false w) in
    (r, set_grad_enabled prev w').

(** [model(im, feats)]: a forward pass in the current gradient mode. *)
Definition model_call (batch : list Sample) (line : nat) : M Output :=
  m <- read_model line ;;
  g <- gets grad_enabled ;;
  emit (EvForward g (m_training m)) ;;;
  ret (net_forward (m_arch m) (m_params m) (m_training m) batch).

(** Lines 35-41: the tensorboard writer; it creates its log directory. *)
Definition open_writer (date : string) : M unit :=
  o <- gets opt ;;
  let run_name :=
    if negb (run_tag o =? "")%string then (run_tag o ++ "_" ++ date)%string
    else date in
  let log_dir_name := path_join (logdir o) run_name in
  modify (fun w => set_dirs (log_dir_name :: dirs w) w) ;;;
  emit (EvAddText "Options" o 0) ;;;
  emit (EvPrint (PrOpt o)).

Definition set_manual_seed (v : option Z) (o : Namespace) : Namespace :=
  mkNamespace (batch_size o) (epochs o) (lr o) (cuda o) (cuda_idx o) v
              (logdir o) (run_tag o) (checkpoint_every o) (checkpoint_dir o)
              (final_dir o) (model_type o) (loss o) (gamma o) (data_path o).

(** [torch.manual_seed] takes a seed in [-0x8000_0000_0000_0000,
    0xffff_ffff_ffff_ffff] and raises [RuntimeError] on any other;
    [random.seed] takes every int. *)
Definition torch_seed_in_range (s : Z) : bool :=
  (- 2 ^ 63 <=? s) && (s <=? 2 ^ 64 - 1).

(** Lines 43-47: fix the seed, print it, seed both generators. *)
Definition seeding : M unit :=
  o <- gets opt ;;
  (match manual_seed o with
   | None =>
       r <- random_draw (random_randint 1 10000) ;;
       modify (fun w => set_opt (set_manual_seed (Some r) (opt w)) w)
   | Some _ => ret tt
   end) ;;;
  o <- gets opt ;;
  emit (EvPrint (PrSeed (manual_seed o))) ;;;
  match manual_seed o with
  | Some s =>
      modify (fun w => set_rngs (random_seed s, torch_rng w) w) ;;;
      if torch_seed_in_range s
      then modify (fun w => set_rngs (py_rng w, torch_manual_seed s) w)
      else raise RuntimeError 47
  | None => raise TypeError 47
  end.

(** Lines 49-53: the checkpoint directory, the CUDA hint, the device. *)
Definition pick_device (cuda_available : bool) : M device :=
  o <- gets opt ;;
  makedirs (checkpoint_dir o) 49 ;;;
  (if cuda_available && negb (cuda o) then emit (EvPrint PrCudaHint) else ret tt) ;;;
  if cuda o
  then if torch_device_rejects (cuda_idx o) then raise RuntimeError 53
       else ret (Cuda (cuda_idx o))
  else ret Cpu.

Definition landscape_transform : Z * Z := (332, 500).

Definition portrait_transform : Z * Z := (500, 332).

(** What lines 65-83 bind. *)
Record loaders : Type := mkLoaders {
  train_landscape_dataset : subset;
  test_landscape_dataset : subset;
  train_portrait_dataset : subset;
  test_portrait_dataset : subset;
  train_loader : JoinedDataLoader;
  test_loader : JoinedDataLoader
}.

(** Lines 65-83. *)
Definition build_data : M loaders :=
  o <- gets opt ;;
  let landscape_dataset :=
    FivekDataset_new (data_path o) 2 landscape_transform Landscape true in
  let portrait_dataset :=
    FivekDataset_new (data_path o) 2 portrait_transform Portrait true in
  l <- random_split landscape_dataset
         (train_size (ds_len landscape_dataset),
          test_size (ds_len landscape_dataset)) 71 ;;
  p <- random_split portrait_dataset
         (train_size (ds_len portrait_dataset),
          test_size (ds_len portrait_dataset)) 75 ;;
  train_landscape_loader <- DataLoader (fst l) (batch_size o) 77 ;;
  train_portrait_loader <- DataLoader (fst p) (batch_size o) 78 ;;
  test_landscape_loader <- DataLoader (snd l) (batch_size o) 81 ;;
  test_portrait_loader <- DataLoader (snd p) (batch_size o) 82 ;;
  ret (mkLoaders (fst l) (snd l) (fst p) (snd p)
         (mkJoined train_landscape_loader train_portrait_loader)
         (mkJoined test_landscape_loader test_portrait_loader)).

(** Building a network or a loss of the repository draws on the generators. *)
Definition construct {A : Type} (new : PyRng * TorchRng -> A * (PyRng * TorchRng))
  : M A :=
  fun w => let (a, g) := new (py_rng w, torch_rng w) in (Ok a, set_rngs g w).

Definition fresh_module (a : arch) (p : Params) : module :=
  mkModule a p true grads_zero Cpu.

(** Lines 86-91: two separate [if]s, then [assert model].  A module is an
    object without [__bool__] or [__len__], so the assertion holds whenever
    the name is bound; unbound, evaluating it raises [NameError]. *)
Definition select_model (dev : device) : M unit :=
  o <- gets opt ;;
  (if (model_type o =? "can32")%string
   then p <- construct ConditionalCAN_new ;; write_model (fresh_module CAN32 p)
   else ret tt) ;;;
  (if (model_type o =? "unet")%string
   then p <- construct ConditionalUNet_new ;; write_model (fresh_module UNet p)
   else ret tt) ;;;
  m <- read_model 90 ;;
  write_model (mkModule (m_arch m) (m_params m) (m_training m) (m_grads m) dev).

Definition bind_criterion (c : criterion_obj) : M unit :=
  modify (set_criterion (Some c)).

Definition construct_loss (c : criterion_obj) : M unit :=
  construct (fun g => (tt, loss_module_new g)) ;;; bind_criterion c.

(** Lines 93-106: six separate [if]s, then [assert criterion]. *)
Definition select_criterion (dev : device) : M unit :=
  o <- gets opt ;;
  (if (loss o =? "mse")%string then bind_criterion MSELoss else ret tt) ;;;
  (if (loss o =? "mae")%string then bind_criterion L1Loss else ret tt) ;;;
  (if (loss o =? "l1nima")%string
   then construct_loss (NimaLoss dev (gamma o) L1Loss) else ret tt) ;;;
  (if (loss o =? "l2nima")%string
   then construct_loss (NimaLoss dev (gamma o) MSELoss) else ret tt) ;;;
  (if (loss o =? "l1ssim")%string
   then construct_loss (ColorSSIM dev (Some "l1"%string)) else ret tt) ;;;
  (if (loss o =? "colorssim")%string
   then construct_loss (ColorSSIM dev None) else ret tt) ;;;
  c <- read_criterion 105 ;;
  bind_criterion c.

(** Line 108: [optimizer = optim.Adam(model.parameters(), lr=opt.lr)];
    [Adam] raises [ValueError] unless [0.0 <= lr]. *)
Definition make_optimizer : M unit :=
  o <- gets opt ;;
  m <- read_model 108 ;;
  if scalar_nonneg (lr o)
  then modify (set_optimizer (Some (Adam_new (lr o) (m_params m))))
  else raise ValueError 108.

(** Line 111: [random.sample(range(len(test_landscape_dataset)), 3)]; a
    sample larger than the population is a [ValueError]. *)
Definition sample_test_idxs (test_landscape : subset) : M (list nat) :=
  if (subset_len test_landscape <? 3)%nat then raise ValueError 111
  else random_draw (random_sample (subset_len test_landscape) 3).

(** [model.train()] and [model.eval()]. *)
Definition set_training (b : bool) (line : nat) : M unit :=
  m <- read_model line ;;
  write_model (mkModule (m_arch m) (m_params m) b (m_grads m) (m_device m)).

(** Lines 116-123: one optimisation step on one combined batch; the value
    is [loss.item()]. *)
Definition optimize_batch (batch : list Sample) : M Scalar :=
  (* 118: optimizer.zero_grad() *)
  m <- read_model 118 ;;
  write_model (mkModule (m_arch m) (m_params m) (m_training m) grads_zero (m_device m)) ;;;
  (* 120-121: forward and loss *)
  output <- model_call batch 120 ;;
  c <- read_criterion 121 ;;
  let loss := loss_item c output batch in
  (* 122: loss.backward() needs a graph, so gradient mode on at the forward *)
  g <- gets grad_enabled ;;
  (if g then ret tt else raise RuntimeError 122) ;;;
  m <- read_model 122 ;;
  let grads := loss_backward c (m_arch m) (m_params m) batch (m_grads m) in
  (* 123: optimizer.step() *)
  s <- read_optimizer 123 ;;
  let (params', s') := Adam_step s (m_params m) grads in
  write_model (mkModule (m_arch m) params' (m_training m) grads (m_device m)) ;;;
  modify (set_optimizer (Some s')) ;;;
  ret loss.

(** Lines 116-126: the body of the batch loop.  The running sum
    [cumulative_loss] goes in and comes out. *)
Definition train_step (epoch : Z) (ib : Z * list Sample) (cumulative_loss : Scalar)
  : M Scalar :=
  let (i, batch) := ib in
  loss <- optimize_batch batch ;;
  (* 124-126 *)
  let cumulative_loss := scalar_add cumulative_loss loss in
  emit (EvPrint (PrProgress (epoch + 1) (i + 1) (scalar_div cumulative_loss (i + 1)))) ;;;
  ret cumulative_loss.

(** Lines 113-126: the training half of an epoch; returns [cumulative_loss]. *)
Definition train_epoch (train_loader : JoinedDataLoader) (epoch : Z) : M Scalar :=
  set_training true 113 ;;;
  batches <- joined_iter train_loader ;;
  for_fold (enumerate batches) scalar_zero (train_step epoch).

(** Line 128: [writer.add_scalar('Train Error', cumulative_loss / len(train_loader), epoch)]. *)
Definition log_train_error (train_loader : JoinedDataLoader) (cumulative_loss : Scalar)
  (epoch : Z) : M unit :=
  let n := joined_len train_loader in
  if n =? 0 then raise ZeroDivisionError 128
  else emit (EvAddScalar "Train Error" (scalar_div cumulative_loss n) epoch).

Definition checkpoint_name (tag : string) (n : Z) : string :=
  (tag ++ "_epoch" ++ str_of_Z n ++ ".pt")%string.

(** Lines 130-131: [if (epoch+1) % opt.checkpoint_every == 0: torch.save(...)].
    [%] of an int by a str is a [TypeError], by the int 0 a
    [ZeroDivisionError]; otherwise Python's [%] is [Z.modulo]. *)
Definition checkpointing (epoch : Z) : M unit :=
  o <- gets opt ;;
  match checkpoint_every o with
  | PyStr _ => raise TypeError 130
  | PyInt c =>
      if c =? 0 then raise ZeroDivisionError 130
      else if (epoch + 1) mod c =? 0
           then torch_save (checkpoint_dir o) (checkpoint_name (run_tag o) (epoch + 1)) 131
           else ret tt
  end.

(** Lines 139-141: one test batch, forward pass and loss under [no_grad]. *)
Definition test_step (test_loss : list Scalar) (batch : list Sample) : M (list Scalar) :=
  with_no_grad
    (output <- model_call batch 140 ;;
     c <- read_criterion 141 ;;
     ret (test_loss ++ [loss_item c output batch])).

(** [sum(test_loss)]. *)
Definition scalar_sum (l : list Scalar) : Scalar := fold_left scalar_add l scalar_zero.

(** Lines 134-143: evaluation on the test loader. *)
Definition evaluate (test_loader : JoinedDataLoader) (epoch : Z) : M unit :=
  set_training false 134 ;;;
  batches <- joined_iter test_loader ;;
  test_loss <- for_fold batches [] (fun b acc => test_step acc b) ;;
  if (List.length test_loss =? 0)%nat then raise ZeroDivisionError 142
  else
    let avg_loss := scalar_div (scalar_sum test_loss) (Z.of_nat (List.length test_loss)) in
    emit (EvAddScalar "Test Error" avg_loss epoch).

Definition image_tag (idx : nat) : string :=
  (str_of_nat idx ++ ":Original|Estimated|Actual")%string.

(** [test_landscape_dataset[idx]]. *)
Definition subset_getitem (s : subset) (idx : nat) (line : nat) : M Sample :=
  match nth_error (indices s) idx with
  | Some i => ret (ds_get (sub_dataset s) i)
  | None => raise IndexError line
  end.

(** Lines 145-152: the three sample images of the epoch. *)
Definition visualize (test_landscape : subset) (test_idxs : list nat) (epoch : Z)
  : M unit :=
  for_each test_idxs (fun idx =>
    sample <- subset_getitem test_landscape idx 146 ;;
    estimated <- model_call [sample] 149 ;;
    emit (EvAddImage (image_tag idx) (make_grid sample estimated) epoch)).

(** Lines 113-152: the body of the epoch loop. *)
Definition epoch_body (d : loaders) (test_idxs : list nat) (epoch : Z) : M unit :=
  cumulative_loss <- train_epoch (train_loader d) epoch ;;
  log_train_error (train_loader d) cumulative_loss epoch ;;;
  checkpointing epoch ;;;
  evaluate (test_loader d) epoch ;;;
  visualize (test_landscape_dataset d) test_idxs epoch.

(** Lines 112-152. *)
Definition training (d : loaders) (test_idxs : list nat) : M unit :=
  o <- gets opt ;;
  for_each (range (epochs o)) (epoch_body d test_idxs).

(** Lines 154-155. *)
Definition finish : M unit :=
  emit (EvPrint PrFinished) ;;;
  o <- gets opt ;;
  torch_save (final_dir o) (run_tag o ++ "_final.pt")%string 155.

(** Lines 49-111: from the checkpoint directory to the sampled indices. *)
Definition assemble (cuda_available : bool) : M (loaders * list nat) :=
  dev <- pick_device cuda_available ;;
  d <- build_data ;;
  select_model dev ;;;
  select_criterion dev ;;;
  make_optimizer ;;;
  test_idxs <- sample_test_idxs (test_landscape_dataset d) ;;
  ret (d, test_idxs).

(** Lines 35-111: everything before the epoch loop. *)
Definition prepare (date : string) (cuda_available : bool) : M (loaders * list nat) :=
  open_writer date ;;;
  seeding ;;;
  assemble cuda_available.

(** The script after [parse_args]. *)
Definition main (date : string) (cuda_available : bool) : M unit :=
  p <- prepare date cuda_available ;;
  training (fst p) (snd p) ;;;
  finish.

(** What a process starts from: the generators as Python and torch
    initialise them from system entropy, the clock, the file system. *)
Record environment : Type := mkEnvironment {
  env_py_rng : PyRng;
  env_torch_rng : TorchRng;
  env_date : string;
  env_cuda_available : bool;
  env_dirs : list string
}.

Definition boot (env : environment) (o : Namespace) : World :=
  mkWorld o (env_py_rng env) (env_torch_rng env) true None None None (env_dirs env) [].

(** A whole process: parse, then run. *)
Definition script (c : CommandLine) (env : environment) : outcome unit * option World :=
  match parse_args c with
  | Raise e l => (Raise e l, None)
  | Ok o =>
      let (r, w) := main (env_date env) (env_cuda_available env) (boot env o) in
      (r, Some w)
  end.

End Script.

(* ===================================================================== *)
(** ** A small framework to run the script on

    Scalars are integers, both generators are counters, permutations are the
    identity, a sample is its index, the parameters count the optimizer
    steps, and a dataset under path [p] holds as many samples as [p] has
    characters. *)

Module Toy.

Local Open Scope Z_scope.

Definition sample_first (n k : nat) (g : Z) : list nat * Z := (seq 0 k, g + 1).

Definition identity_perm (n : nat) (g : Z) : list nat * Z := (seq 0 n, g + 1).

Lemma sample_first_range n k g i :
  (k <= n)%nat -> In i (fst (sample_first n k g)) -> (i < n)%nat.
Proof. simpl. rewrite in_seq. lia. Qed.

(** A file system that knows the directories by the names given and
    nothing else: no links, no [.] or [..], no repeated separators. *)
Fixpoint strip_prefix (p s : string) : option string :=
  match p, s with
  | EmptyString, _ => Some s
  | String a p', String b s' => if Ascii.eqb a b then strip_prefix p' s' else None
  | String _ _, EmptyString => None
  end.

Definition with_sep (d : string) : string :=
  if ((d =? "") || ends_with_slash d)%string then d else (d ++ "/")%string.

Definition inside (p d : string) : bool :=
  match strip_prefix (with_sep d) p with
  | Some f => is_file_name f
  | None => false
  end.

Definition creatable (ds : list string) (p : string) : bool :=
  existsb (inside p) (""%string :: ds).

Lemma strip_prefix_app p f : strip_prefix p (p ++ f) = Some f.
Proof.
  induction p as [|a p IH]; simpl; [reflexivity|].
  rewrite Ascii.eqb_refl. exact IH.
Qed.

Lemma no_slash_start f : has_slash f = false -> starts_with_slash f = false.
Proof.
  destruct f as [|c f]; simpl; [reflexivity|].
  intros H. apply orb_false_iff in H. apply H.
Qed.

Lemma creatable_inside ds d f :
  d = ""%string \/ In d ds -> is_file_name f = true ->
  creatable ds (path_join d f) = true.
Proof.
  intros Hd Hf. unfold creatable. apply existsb_exists. exists d. split.
  - destruct Hd as [->|Hd]; [left; reflexivity|right; exact Hd].
  - unfold is_file_name in Hf.
    assert (Hs : has_slash f = false).
    { destruct (has_slash f); [discriminate Hf|reflexivity]. }
    unfold inside, path_join, with_sep. rewrite (no_slash_start f Hs).
    destruct ((d =? "")%string || ends_with_slash d).
    + rewrite strip_prefix_app. unfold is_file_name. exact Hf.
    + replace (d ++ "/" ++ f)%string with ((d ++ "/") ++ f)%string.
      * rewrite strip_prefix_app. unfold is_file_name. exact Hf.
      * clear. induction d as [|c d IH]; simpl; [reflexivity|]. rewrite IH. reflexivity.
Qed.

#[export] Instance framework : Framework := {|
  Scalar := Z;
  scalar_lit := fun _ => 0;
  scalar_zero := 0;
  scalar_add := Z.add;
  scalar_div := Z.div;
  scalar_nonneg := fun x => 0 <=? x;
  PyRng := Z;
  random_seed := fun s => s;
  random_randint := fun a b g => (a, g + 1);
  random_sample := sample_first;
  TorchRng := Z;
  torch_manual_seed := fun s => s;
  torch_randperm := identity_perm;
  sampler_order := identity_perm;
  sampler_rejects_empty := false;
  Sample := nat;
  Params := Z;
  OptState := Z;
  Grads := Z;
  Output := Z;
  Grid := Z;
  FivekDataset_new := fun p _ _ _ _ => mkDataset (String.length p) (fun i => i);
  ConditionalCAN_new := fun g => (0, g);
  ConditionalUNet_new := fun g => (1, g);
  loss_module_new := fun g => g;
  net_forward := fun _ p _ b => p + Z.of_nat (List.length b);
  loss_item := fun _ o _ => o;
  grads_zero := 0;
  loss_backward := fun _ _ _ _ g => g + 1;
  Adam_new := fun _ _ => 0;
  Adam_step := fun s p g => (p + g, s + 1);
  make_grid := fun s o => o;
  torch_device_rejects := fun idx => idx <? 0;
  file_creatable := creatable;
  torch_save_error := RuntimeError;
  randint_range := fun a b g H => conj (Z.le_refl a) H;
  sample_length := fun n k g _ => length_seq k 0;
  sample_range := sample_first_range;
  randperm_perm := fun n g => Permutation_refl (seq 0 n);
  sampler_perm := fun n g => Permutation_refl (seq 0 n);
  device_rejects_negative := fun idx H => proj2 (Z.ltb_lt idx 0) H;
  file_creatable_inside := creatable_inside
|}.

Definition env : environment := mkEnvironment 7 9 "03-11-26_10:00" false [].

(** No option given: every default. *)
Definition no_args : CommandLine :=
  mkCommandLine None None None false None None None None None None None None None None None.

Definition with_seed (s : Z) (c : CommandLine) : CommandLine :=
  mkCommandLine (arg_batch_size c) (arg_epochs c) (arg_lr c) (arg_cuda c)
    (arg_cuda_idx c) (Some s) (arg_logdir c) (arg_run_tag c)
    (arg_checkpoint_every c) (arg_checkpoint_dir c) (arg_final_dir c)
    (arg_model_type c) (arg_loss c) (arg_gamma c) (arg_data_path c).

Definition with_epochs (n : Z) (c : CommandLine) : CommandLine :=
  mkCommandLine (arg_batch_size c) (Some n) (arg_lr c) (arg_cuda c)
    (arg_cuda_idx c) (arg_manual_seed c) (arg_logdir c) (arg_run_tag c)
    (arg_checkpoint_every c) (arg_checkpoint_dir c) (arg_final_dir c)
    (arg_model_type c) (arg_loss c) (arg_gamma c) (arg_data_path c).

Definition with_checkpoint_every (s : string) (c : CommandLine) : CommandLine :=
  mkCommandLine (arg_batch_size c) (arg_epochs c) (arg_lr c) (arg_cuda c)
    (arg_cuda_idx c) (arg_manual_seed c) (arg_logdir c) (arg_run_tag c)
    (Some s) (arg_checkpoint_dir c) (arg_final_dir c)
    (arg_model_type c) (arg_loss c) (arg_gamma c) (arg_data_path c).

Definition set_epochs (n : Z) (o : Namespace) : Namespace :=
  mkNamespace (batch_size o) n (lr o) (cuda o) (cuda_idx o) (manual_seed o)
              (logdir o) (run_tag o) (checkpoint_every o) (checkpoint_dir o)
              (final_dir o) (model_type o) (loss o) (gamma o) (data_path o).

Definition set_final_dir (d : string) (o : Namespace) : Namespace :=
  mkNamespace (batch_size o) (epochs o) (lr o) (cuda o) (cuda_idx o) (manual_seed o)
              (logdir o) (run_tag o) (checkpoint_every o) (checkpoint_dir o)
              d (model_type o) (loss o) (gamma o) (data_path o).

Definition with_final_dir (s : string) (c : CommandLine) : CommandLine :=
  mkCommandLine (arg_batch_size c) (arg_epochs c) (arg_lr c) (arg_cuda c)
    (arg_cuda_idx c) (arg_manual_seed c) (arg_logdir c) (arg_run_tag c)
    (arg_checkpoint_every c) (arg_checkpoint_dir c) (Some s)
    (arg_model_type c) (arg_loss c) (arg_gamma c) (arg_data_path c).

Definition with_data_path (s : string) (c : CommandLine) : CommandLine :=
  mkCommandLine (arg_batch_size c) (arg_epochs c) (arg_lr c) (arg_cuda c)
    (arg_cuda_idx c) (arg_manual_seed c) (arg_logdir c) (arg_run_tag c)
    (arg_checkpoint_every c) (arg_checkpoint_dir c) (arg_final_dir c)
    (arg_model_type c) (arg_loss c) (arg_gamma c) (Some s).

(** The namespace of a command line without options. *)
Definition default_opt : Namespace :=
  mkNamespace 8 100 0 false 1 None "log" "" (PyInt 10) "checkpoints" "final_models"
              "can32" "mse" 0 "/home/iacv3_1/fivek".

(** A namespace argparse would not produce: neither selector is a choice. *)
Definition unmatched_opt : Namespace :=
  mkNamespace 8 100 0 false 1 None "log" "" (PyInt 10) "checkpoints" "final_models"
              "vgg" "huber" 0 "/home/iacv3_1/fivek".

(** Another machine: other generator states, clock, directories, CUDA. *)
Definition env2 : environment :=
  mkEnvironment 1234 77 "04-11-26_09:30" true ["final_models"%string].

Definition with_batch_size (n : Z) (c : CommandLine) : CommandLine :=
  mkCommandLine (Some n) (arg_epochs c) (arg_lr c) (arg_cuda c)
    (arg_cuda_idx c) (arg_manual_seed c) (arg_logdir c) (arg_run_tag c)
    (arg_checkpoint_every c) (arg_checkpoint_dir c) (arg_final_dir c)
    (arg_model_type c) (arg_loss c) (arg_gamma c) (arg_data_path c).

(** Eleven samples per orientation, batches of four, two epochs, the final
    model next to the checkpoints. *)
Definition short_run : CommandLine :=
  with_batch_size 4
    (with_data_path "0123456789A" (with_final_dir "checkpoints" (with_epochs 2 no_args))).

Definition short_opt : Namespace :=
  mkNamespace 4 2 0 false 1 None "log" "" (PyInt 10) "checkpoints" "checkpoints"
              "can32" "mse" 0 "0123456789A".

(** The short run with the directory options at their defaults. *)
Definition short_run_default_dirs : CommandLine :=
  with_batch_size 4 (with_data_path "0123456789A" no_args).

Definition is_ok {A : Type} (r : outcome A) : bool :=
  match r with
  | Ok _ => true
  | Raise _ _ => false
  end.

Definition start (c : CommandLine) : World :=
  match parse_args c with
  | Ok o => boot env o
  | Raise _ _ => boot env default_opt
  end.

Definition no_subset : subset := mkSubset (mkDataset 0 (fun i => i)) [].

(** A joined loader over two empty test sets. *)
Definition empty_loader : JoinedDataLoader :=
  mkJoined (mkDataLoader no_subset 8) (mkDataLoader no_subset 8).

Definition no_loaders : loaders :=
  mkLoaders no_subset no_subset no_subset no_subset empty_loader empty_loader.

(** The state and the bindings at line 112. *)
Definition at_loop (c : CommandLine) : (loaders * list nat) * World :=
  let (r, w) := prepare (env_date env) (env_cuda_available env) (start c) in
  match r with
  | Ok p => (p, w)
  | Raise _ _ => ((no_loaders, []), w)
  end.

End Toy.

(* ===================================================================== *)
(** ** The vocabulary of the statements *)

Section Vocabulary.

Context {F : Framework}.

Local Open Scope list_scope.
Local Open Scope Z_scope.
Local Open Scope py_scope.

(** [m] takes every world to an [R]-related one, whatever its outcome. *)
Definition preserves (R : World -> World -> Prop) {A : Type} (m : M A) : Prop :=
  forall w, R w (snd (m w)).

(** The namespace is the same. *)
Definition same_opt (w w' : World) : Prop := opt w' = opt w.

(** The parameters of the bound model, if one is bound. *)
Definition params_of (w : World) : option Params := option_map m_params (model w).

(** The parameters of the model and the optimizer state are the same. *)
Definition same_params (w w' : World) : Prop :=
  params_of w' = params_of w /\ optimizer w' = optimizer w.

(** The gradient mode is the same. *)
Definition same_grad (w w' : World) : Prop := grad_enabled w' = grad_enabled w.

(** The trace grows, by events that all satisfy [P]. *)
Definition extends (P : Event -> Prop) (w w' : World) : Prop :=
  exists t, trace w' = trace w ++ t /\ Forall P t.

(** The one change the script makes to [opt]: an absent seed is filled in,
    once, with an integer between 1 and 10000. *)
Definition seed_filled (w w' : World) : Prop :=
  opt w' = opt w \/
  (manual_seed (opt w) = None /\
   exists s, 1 <= s <= 10000 /\ opt w' = set_manual_seed (Some s) (opt w)).

(** A forward pass that builds no graph. *)
Definition untracked (e : Event) : Prop :=
  match e with
  | EvForward g _ => g = false
  | _ => True
  end.

(** The global [model] is the very same object. *)
Definition same_model (w w' : World) : Prop := model w' = model w.

(** Lines 134-152 as one block. *)
Definition evaluating_phase (d : loaders) (test_idxs : list nat) (epoch : Z) : M unit :=
  evaluate (test_loader d) epoch ;;;
  visualize (test_landscape_dataset d) test_idxs epoch.

(** Lines 65-66: the two datasets the script builds from [opt.data_path]. *)
Definition landscape_dataset (o : Namespace) : dataset Sample :=
  FivekDataset_new (data_path o) 2 landscape_transform Landscape true.

Definition portrait_dataset (o : Namespace) : dataset Sample :=
  FivekDataset_new (data_path o) 2 portrait_transform Portrait true.

(** No batch has been fed to the model. *)
Definition no_forward (e : Event) : Prop :=
  match e with
  | EvForward _ _ => False
  | _ => True
  end.

(** Two worlds that differ at most in what the process found on its
    machine: the directories and, so far, the trace. *)
Definition agree (w1 w2 : World) : Prop :=
  opt w1 = opt w2 /\ py_rng w1 = py_rng w2 /\ torch_rng w1 = torch_rng w2 /\
  grad_enabled w1 = grad_enabled w2 /\ model w1 = model w2 /\
  criterion w1 = criterion w2 /\ optimizer w1 = optimizer w2.

(** The same, before the generators have been seeded. *)
Definition agree_unseeded (w1 w2 : World) : Prop :=
  opt w1 = opt w2 /\ grad_enabled w1 = grad_enabled w2 /\ model w1 = model w2 /\
  criterion w1 = criterion w2 /\ optimizer w1 = optimizer w2.

(** From agreeing worlds, [m1] and [m2] reach the same outcome and
    agreeing worlds. *)
Definition related {A : Type} (m1 m2 : M A) : Prop :=
  forall w1 w2, agree w1 w2 ->
    fst (m1 w1) = fst (m2 w2) /\ agree (snd (m1 w1)) (snd (m2 w2)).

(** The combined batches one pass over [j] yields from world [w]. *)
Definition yielded (j : JoinedDataLoader) (w : World) : list (list Sample) :=
  match fst (joined_iter j w) with
  | Ok l => l
  | Raise _ _ => []
  end.

(** Everything but torch's generator is the same. *)
Definition same_but_torch_rng (w w' : World) : Prop :=
  opt w' = opt w /\ py_rng w' = py_rng w /\ grad_enabled w' = grad_enabled w /\
  model w' = model w /\ criterion w' = criterion w /\ optimizer w' = optimizer w /\
  dirs w' = dirs w /\ trace w' = trace w.

(** The loss of line 141 for one batch, under model [m] and loss [c]. *)
Definition test_loss_of (m : module) (c : criterion_obj) (batch : list Sample) : Scalar :=
  loss_item c (net_forward (m_arch m) (m_params m) (m_training m) batch) batch.




(** The writes of a run that outlive it, without their payloads. *)
Inductive entry : Type :=
| ScalarLogged (tag : string) (step : Z)
| ImageLogged (tag : string) (step : Z)
| FileSaved (dir file : string).

(** The entry an event leaves, if any. *)
Definition entry_of (e : Event) : list entry :=
  match e with
  | EvAddScalar tag _ step => [ScalarLogged tag step]
  | EvAddImage tag _ step => [ImageLogged tag step]
  | EvSave dir file _ => [FileSaved dir file]
  | _ => []
  end.

(** The entries of a trace, in order. *)
Definition journal (t : list Event) : list entry := flat_map entry_of t.

(** An event that writes none of the three. *)
Definition quiet (e : Event) : Prop :=
  match e with
  | EvForward _ _ | EvPrint _ | EvAddText _ _ _ => True
  | _ => False
  end.

(** The checkpoint of lines 130-131 for 0-based [epoch], if one is due. *)
Definition checkpoint_entry (o : Namespace) (epoch : Z) : list entry :=
  match checkpoint_every o with
  | PyInt c =>
      if (epoch + 1) mod c =? 0
      then [FileSaved (checkpoint_dir o) (checkpoint_name (run_tag o) (epoch + 1))]
      else []
  | PyStr _ => []
  end.

(** What one completed epoch writes, in order. *)
Definition epoch_journal (o : Namespace) (test_idxs : list nat) (epoch : Z) : list entry :=
  [ScalarLogged "Train Error" epoch]
  ++ checkpoint_entry o epoch
  ++ [ScalarLogged "Test Error" epoch]
  ++ map (fun idx => ImageLogged (image_tag idx) epoch) test_idxs.

(** The file of line 155. *)
Definition final_entry (o : Namespace) : entry :=
  FileSaved (final_dir o) (run_tag o ++ "_final.pt")%string.

(** Nothing is saved. *)
Definition no_save (e : Event) : Prop :=
  match e with
  | EvSave _ _ _ => False
  | _ => True
  end.

End Vocabulary.

(* ===================================================================== *)
(** ** More vocabulary: directories, files, modes, readiness *)

Section RunVocabulary.

Context {F : Framework}.

Local Open Scope list_scope.
Local Open Scope Z_scope.
Local Open Scope py_scope.

(** The directories are the same. *)
Definition same_dirs (w w' : World) : Prop := dirs w' = dirs w.

(** Line 38: [log_dir_name], from the namespace and the clock. *)
Definition log_dir_name (o : Namespace) (date : string) : string :=
  path_join (logdir o)
    (if negb (run_tag o =? "")%string then (run_tag o ++ "_" ++ date)%string else date).

(** The files among the entries, as (directory, name). *)
Definition files_of (j : list entry) : list (string * string) :=
  flat_map (fun e => match e with FileSaved d f => [(d, f)] | _ => [] end) j.

(** A forward pass in training mode that builds a graph. *)
Definition training_pass (e : Event) : Prop :=
  match e with
  | EvForward g t => g = true /\ t = true
  | _ => True
  end.

(** A forward pass in eval mode that builds no graph. *)
Definition eval_pass (e : Event) : Prop :=
  match e with
  | EvForward g t => g = false /\ t = false
  | _ => True
  end.

(** The model, if bound, is in mode [b]. *)
Definition in_mode (b : bool) (w : World) : Prop :=
  forall m, model w = Some m -> m_training m = b.

(** A seed line 47 gets past: none given (line 44 then draws one between
    1 and 10000), or one in the range [torch.manual_seed] takes. *)
Definition seed_accepted (o : Namespace) : Prop :=
  match manual_seed o with
  | Some s => torch_seed_in_range s = true
  | None => True
  end.

(** A device line 53 gets past: the CPU, or a CUDA index [torch.device]
    takes. *)
Definition device_accepted (o : Namespace) : Prop :=
  cuda o = true -> torch_device_rejects (cuda_idx o) = false.

(** The world line 49 starts from, once lines 35-47 have completed. *)
Definition seeded (date : string) (w : World) : World :=
  snd (seeding (snd (open_writer date w))).

(** The numbers of the epochs whose checkpoint is due, 1-based. *)
Definition due (c : Z) (n_epochs : Z) : list Z :=
  filter (fun n => n mod c =? 0) (map (fun e => e + 1) (range n_epochs)).

(** What the epoch loop relies on and no part of it loses: the namespace,
    the directories, the gradient mode, and a model, loss or optimizer once
    bound. *)
Definition steady (w w' : World) : Prop :=
  opt w' = opt w /\ dirs w' = dirs w /\ grad_enabled w' = grad_enabled w /\
  (model w <> None -> model w' <> None) /\
  (criterion w <> None -> criterion w' <> None) /\
  (optimizer w <> None -> optimizer w' <> None).



(** The state dicts written to disk by a stretch of trace, in order. *)
Definition saved (t : list Event) : list Params :=
  flat_map (fun e => match e with EvSave _ _ p => [p] | _ => [] end) t.

End RunVocabulary.

(* ===================================================================== *)
(** ** Facts about the rounding *)

Section Rounding.

Import PyFloat.

Local Open Scope Z_scope.

Lemma round53_small x : 0 <= x < 2 ^ 53 -> round53 x = x.
Proof.
  intros [H0 H1]. unfold round53.
  destruct (Z.eq_dec x 0) as [->|Hx]; [reflexivity|].
  assert (Z.log2 x < 53) by (apply Z.log2_lt_pow2; lia).
  destruct (Z.leb_spec (Z.log2 x + 1) 53); [reflexivity|lia].
Qed.

(** The shape of a rounded value: a multiple of [2 ^ sh] within half a
    unit in the last place of [x]. *)
Lemma round53_large x :
  2 ^ 53 <= x ->
  exists sh k,
    0 < sh /\ 2 ^ (sh + 52) <= x < 2 ^ (sh + 53) /\
    round53 x = k * 2 ^ sh /\
    x / 2 ^ sh <= k <= x / 2 ^ sh + 1 /\
    2 * (k * 2 ^ sh - x) <= 2 ^ sh /\ 2 * (x - k * 2 ^ sh) <= 2 ^ sh.
Proof.
  intros Hx.
  assert (Hpos : 0 < x) by (pose proof (Z.pow_pos_nonneg 2 53); lia).
  pose proof (Z.log2_spec x Hpos) as [Hlo Hhi].
  assert (Hl : 53 <= Z.log2 x) by (apply Z.log2_le_pow2; lia).
  unfold round53.
  destruct (Z.leb_spec (Z.log2 x + 1) 53) as [Hc|Hc]; [lia|].
  set (sh := Z.log2 x + 1 - 53).
  assert (Hsh : 0 < sh) by (unfold sh; lia).
  assert (Hp : 0 < 2 ^ sh) by (apply Z.pow_pos_nonneg; lia).
  assert (Hhalf : 2 ^ sh = 2 * 2 ^ (sh - 1)).
  { replace sh with (Z.succ (sh - 1)) at 1 by lia. apply Z.pow_succ_r. lia. }
  pose proof (Z.div_mod x (2 ^ sh) ltac:(lia)) as Hdm.
  pose proof (Z.mod_pos_bound x (2 ^ sh) Hp) as Hmb.
  rewrite Z.shiftr_div_pow2 by lia.
  exists sh.
  destruct ((2 ^ (sh - 1) <? x mod 2 ^ sh)
            || ((x mod 2 ^ sh =? 2 ^ (sh - 1)) && Z.odd (x / 2 ^ sh)))%bool eqn:E.
  - exists (x / 2 ^ sh + 1). rewrite Z.shiftl_mul_pow2 by lia.
    assert (2 ^ (sh - 1) <= x mod 2 ^ sh).
    { apply orb_true_iff in E as [E|E].
      - apply Z.ltb_lt in E. lia.
      - apply andb_true_iff in E as [E _]. apply Z.eqb_eq in E. lia. }
    repeat split; try lia.
    + replace (sh + 52) with (Z.log2 x) by (unfold sh; lia). exact Hlo.
    + replace (sh + 53) with (Z.succ (Z.log2 x)) by (unfold sh; lia). exact Hhi.
  - exists (x / 2 ^ sh). rewrite Z.shiftl_mul_pow2 by lia.
    assert (x mod 2 ^ sh <= 2 ^ (sh - 1)).
    { apply orb_false_iff in E as [E _]. apply Z.ltb_ge in E. exact E. }
    repeat split; try lia.
    + replace (sh + 52) with (Z.log2 x) by (unfold sh; lia). exact Hlo.
    + replace (sh + 53) with (Z.succ (Z.log2 x)) by (unfold sh; lia). exact Hhi.
Qed.

(** Rounding moves a value by at most one part in [2 ^ 53]. *)
Lemma round53_rel x :
  0 <= x ->
  2 ^ 53 * round53 x <= (2 ^ 53 + 1) * x /\ (2 ^ 53 - 1) * x <= 2 ^ 53 * round53 x.
Proof.
  intros Hx. destruct (Z_lt_le_dec x (2 ^ 53)) as [Hs|Hl].
  - rewrite round53_small by lia. lia.
  - destruct (round53_large x Hl) as (sh & k & Hsh & [Hlo Hhi] & -> & _ & Hup & Hdn).
    assert (E : 2 ^ (sh + 52) = 2 ^ sh * 2 ^ 52) by (apply Z.pow_add_r; lia).
    change (2 ^ 53) with (2 * 2 ^ 52) in *. lia.
Qed.

Lemma round53_nonneg x : 0 <= x -> 0 <= round53 x.
Proof. intros Hx. pose proof (round53_rel x Hx). lia. Qed.

(** On non-negative floats [int] and [math.floor] agree. *)
Lemma to_int_floor x : 0 <= fnum x -> to_int x = floor x.
Proof.
  intros Hx. unfold to_int, floor.
  destruct (Z.leb_spec 0 (fexp x)) as [He|He]; [reflexivity|].
  apply Z.quot_div_nonneg; [exact Hx|]. apply Z.pow_pos_nonneg; lia.
Qed.

(** [int(0.8 * n)] written out: the doubly rounded product, shifted. *)
Lemma train_size_unfold len :
  train_size len
  = round53 (7205759403792794 * round53 (Z.of_nat len)) / 2 ^ 53.
Proof.
  unfold train_size. rewrite to_int_floor.
  - reflexivity.
  - cbn [mul fnum lit_0_8 of_int]. apply round53_nonneg.
    pose proof (round53_nonneg (Z.of_nat len)). lia.
Qed.

(** Below [2 ^ 50] the float product truncates to the exact [4 n / 5]. *)
Lemma train_size_exact len :
  Z.of_nat len < 2 ^ 50 -> train_size len = 4 * Z.of_nat len / 5.
Proof.
  intros Hb. rewrite train_size_unfold.
  set (n := Z.of_nat len) in *. assert (Hn : 0 <= n) by (unfold n; lia).
  rewrite (round53_small n) by (change (2 ^ 50) with 1125899906842624 in Hb;
                                change (2 ^ 53) with 9007199254740992; lia).
  set (q := 4 * n / 5).
  assert (Hq : 5 * q <= 4 * n < 5 * q + 5).
  { unfold q. pose proof (Z.div_mod (4 * n) 5 ltac:(lia)).
    pose proof (Z.mod_pos_bound (4 * n) 5 ltac:(lia)). lia. }
  set (x := 7205759403792794 * n).
  assert (Hx : 5 * x = 4 * n * 2 ^ 53 + 2 * n)
    by (unfold x; change (2 ^ 53) with 9007199254740992; lia).
  symmetry. apply Z.div_unique_pos with (r := round53 x - q * 2 ^ 53); [|lia].
  destruct (Z_lt_le_dec x (2 ^ 53)) as [Hs|Hl].
  - rewrite round53_small by (unfold x in *; lia).
    change (2 ^ 50) with 1125899906842624 in Hb.
    change (2 ^ 53) with 9007199254740992 in *. lia.
  - destruct (round53_large x Hl) as (sh & k & Hsh & [Hlo Hhi] & -> & [Hk _] & Hup & _).
    assert (Hsh50 : sh <= 50).
    { assert (2 ^ (sh + 52) < 2 ^ 103).
      { eapply Z.le_lt_trans; [exact Hlo|]. unfold x.
        change (2 ^ 50) with 1125899906842624 in Hb.
        change (2 ^ 103) with (9007199254740992 * 1125899906842624). nia. }
      apply Z.pow_lt_mono_r_iff in H; lia. }
    assert (Hp : 0 < 2 ^ sh) by (apply Z.pow_pos_nonneg; lia).
    assert (Hsplit : 2 ^ 53 = 2 ^ (53 - sh) * 2 ^ sh).
    { rewrite <- Z.pow_add_r by lia. f_equal. lia. }
    assert (Hle : 2 ^ sh <= 2 ^ 50) by (apply Z.pow_le_mono_r; lia).
    assert (Hp' : 0 < 2 ^ (53 - sh)) by (apply Z.pow_pos_nonneg; lia).
    split.
    + (* q * 2^53 is a multiple of 2^sh below x, hence below the quotient *)
      assert (q * 2 ^ (53 - sh) <= x / 2 ^ sh).
      { apply Z.div_le_lower_bound; [lia|].
        replace (2 ^ sh * (q * 2 ^ (53 - sh))) with (q * 2 ^ 53) by (rewrite Hsplit; ring).
        nia. }
      rewrite Hsplit. nia.
    + change (2 ^ 50) with 1125899906842624 in *.
      change (2 ^ 53) with 9007199254740992 in *. lia.
Qed.

(** For every length, also beyond [2 ^ 53] where [float(len)] itself rounds,
    the train size stays within the dataset and leaves a fifth for the test
    side, up to rounding. *)
Lemma train_size_range len :
  0 <= train_size len /\
  2 ^ 53 * train_size len <= 7205759403792797 * Z.of_nat len.
Proof.
  rewrite train_size_unfold.
  set (n := Z.of_nat len). assert (Hn : 0 <= n) by (unfold n; lia).
  pose proof (round53_nonneg n Hn) as HR0.
  pose proof (round53_rel n Hn) as [HR _].
  set (R := PyFloat.round53 n) in *.
  assert (Hx : 0 <= 7205759403792794 * R) by lia.
  pose proof (round53_rel _ Hx) as [HA _].
  pose proof (round53_nonneg _ Hx) as HA0.
  set (A := PyFloat.round53 (7205759403792794 * R)) in *.
  pose proof (Z.div_mod A (2 ^ 53) ltac:(discriminate)) as Hd.
  pose proof (Z.mod_pos_bound A (2 ^ 53) ltac:(reflexivity)) as Hm.
  set (T := A / 2 ^ 53) in *.
  change (2 ^ 53) with 9007199254740992 in *. lia.
Qed.

Lemma test_size_nonneg len : 0 <= test_size len.
Proof.
  unfold test_size. pose proof (train_size_range len) as [_ H].
  change (2 ^ 53) with 9007199254740992 in H. lia.
Qed.

(** The test side holds three samples exactly from eleven samples on. *)
Lemma test_size_ge_3 len : 3 <= test_size len <-> (11 <= len)%nat.
Proof.
  unfold test_size.
  destruct (Z_lt_le_dec (Z.of_nat len) (2 ^ 50)) as [Hs|Hl].
  - rewrite train_size_exact by exact Hs.
    pose proof (Z.div_mod (4 * Z.of_nat len) 5 ltac:(discriminate)).
    pose proof (Z.mod_pos_bound (4 * Z.of_nat len) 5 ltac:(reflexivity)). lia.
  - pose proof (train_size_range len) as [_ H].
    change (2 ^ 50) with 1125899906842624 in Hl.
    change (2 ^ 53) with 9007199254740992 in H. lia.
Qed.

End Rounding.

(* ===================================================================== *)
(** ** Reasoning about runs *)

Section Logic.

Context {F : Framework}.

Local Open Scope list_scope.
Local Open Scope Z_scope.
Local Open Scope py_scope.

Lemma bind_ok {A B : Type} (m : M A) (k : A -> M B) w b w' :
  bind m k w = (Ok b, w') ->
  exists a w1, m w = (Ok a, w1) /\ k a w1 = (Ok b, w').
Proof.
  unfold bind. destruct (m w) as [[a|e l] w1]; [eauto|discriminate].
Qed.

Lemma bind_run {A B : Type} (m : M A) (k : A -> M B) w a w1 :
  m w = (Ok a, w1) -> bind m k w = k a w1.
Proof. unfold bind. intros ->. reflexivity. Qed.

Lemma bind_raise {A B : Type} (m : M A) (k : A -> M B) w e l w1 :
  m w = (Raise e l, w1) -> bind m k w = (Raise e l, w1).
Proof. unfold bind. intros ->. reflexivity. Qed.

Section Preserves.

Context (R : World -> World -> Prop) `{!PreOrder R}.

Lemma preserves_ret {A : Type} (a : A) : preserves R (ret a).
Proof. intros w. reflexivity. Qed.

Lemma preserves_raise {A : Type} e l : preserves R (@raise F A e l).
Proof. intros w. reflexivity. Qed.

Lemma preserves_gets {A : Type} (f : World -> A) : preserves R (gets f).
Proof. intros w. reflexivity. Qed.

Lemma preserves_modify f : (forall w, R w (f w)) -> preserves R (modify f).
Proof. intros H w. apply H. Qed.

Lemma preserves_bind {A B : Type} (m : M A) (k : A -> M B) :
  preserves R m -> (forall a, preserves R (k a)) -> preserves R (bind m k).
Proof.
  intros Hm Hk w. unfold bind. specialize (Hm w).
  destruct (m w) as [[a|e l] w1]; simpl in *.
  - etransitivity; [exact Hm|apply Hk].
  - exact Hm.
Qed.

Lemma preserves_for_each {A : Type} (l : list A) body :
  (forall x, preserves R (body x)) -> preserves R (for_each l body).
Proof.
  intros H. induction l as [|x l IH]; simpl.
  - apply preserves_ret.
  - apply preserves_bind; auto.
Qed.

Lemma preserves_for_fold {A S : Type} (l : list A) (s : S) body :
  (forall x s, preserves R (body x s)) -> preserves R (for_fold l s body).
Proof.
  intros H. revert s. induction l as [|x l IH]; intros s; simpl.
  - apply preserves_ret.
  - apply preserves_bind; auto.
Qed.

Lemma preserves_torch_draw {A : Type} (f : TorchRng -> A * TorchRng) :
  (forall g w, R w (set_rngs g w)) -> preserves R (torch_draw f).
Proof. intros H w. unfold torch_draw. destruct (f (torch_rng w)). apply H. Qed.

Lemma preserves_random_draw {A : Type} (f : PyRng -> A * PyRng) :
  (forall g w, R w (set_rngs g w)) -> preserves R (random_draw f).
Proof. intros H w. unfold random_draw. destruct (f (py_rng w)). apply H. Qed.

Lemma preserves_construct {A : Type} (new : PyRng * TorchRng -> A * (PyRng * TorchRng)) :
  (forall g w, R w (set_rngs g w)) -> preserves R (construct new).
Proof. intros H w. unfold construct. destruct (new _). apply H. Qed.

Lemma preserves_with_no_grad {A : Type} (body : M A) :
  (forall b w, R w (set_grad_enabled b w)) ->
  preserves R body -> preserves R (with_no_grad body).
Proof.
  intros H Hb w. unfold with_no_grad. specialize (Hb (set_grad_enabled false w)).
  destruct (body _) as [r w1]; simpl in *.
  etransitivity; [apply (H false)|]. etransitivity; [exact Hb|apply H].
Qed.

End Preserves.

(** *** The relations are preorders *)

#[export] Instance same_opt_preorder : PreOrder same_opt.
Proof. split; unfold same_opt; [intros w|intros a b c]; congruence. Qed.

#[export] Instance same_params_preorder : PreOrder same_params.
Proof.
  split; unfold same_params; [intros w; auto|intros a b c [] []]; split; congruence.
Qed.

#[export] Instance same_grad_preorder : PreOrder same_grad.
Proof. split; unfold same_grad; [intros w|intros a b c]; congruence. Qed.

#[export] Instance extends_preorder P : PreOrder (extends P).
Proof.
  split.
  - intros w. exists []. split; [symmetry; apply app_nil_r|constructor].
  - intros a b c (t1 & E1 & H1) (t2 & E2 & H2). exists (t1 ++ t2). split.
    + rewrite E2, E1. symmetry. apply app_assoc.
    + apply Forall_app. split; assumption.
Qed.

Lemma extends_emit P e : P e -> preserves (extends P) (emit e).
Proof.
  intros H. apply preserves_modify. intros w. exists [e].
  split; [reflexivity|repeat constructor; exact H].
Qed.

Lemma extends_quiet P (w w' : World) : trace w' = trace w -> extends P w w'.
Proof. intros E. exists []. split; [rewrite E; symmetry; apply app_nil_r|constructor]. Qed.

Lemma extends_weaken (P Q : Event -> Prop) w w' :
  (forall e, P e -> Q e) -> extends P w w' -> extends Q w w'.
Proof.
  intros H (t & E & Ht). exists t. split; [exact E|].
  eapply Forall_impl; [exact H|exact Ht].
Qed.

End Logic.

(* ===================================================================== *)
(** ** What each part of the script leaves alone *)

Ltac unfold_relations :=
  unfold same_opt, same_params, params_of, same_grad.

Ltac frame_side :=
  intros;
  first [ reflexivity
        | solve [unfold_relations; simpl; auto; congruence]
        | solve [apply extends_quiet; reflexivity] ].

Ltac solve_preorder :=
  match goal with |- PreOrder _ => typeclasses eauto end.

Ltac use L := apply L; try solve_preorder.

Ltac head_of t :=
  match t with
  | ?f _ => head_of f
  | _ => t
  end.

(** Lemmas already proved about a part of the script go here. *)
Ltac frame_hook := fail.

Ltac event_side := try solve [intros; simpl; auto; try discriminate; congruence].

Ltac frame_step :=
  first
    [ frame_hook
    | use preserves_ret
    | use preserves_raise
    | use preserves_gets
    | match goal with
      | |- preserves (extends _) (emit _) => apply extends_emit; event_side
      | |- preserves _ (emit _) => unfold emit
      | |- preserves _ (bind _ _) => use preserves_bind; [|intros ?]
      | |- preserves _ (for_each _ _) => use preserves_for_each; intros ?
      | |- preserves _ (for_fold _ _ _) => use preserves_for_fold; intros ? ?
      | |- preserves _ (modify _) => use preserves_modify; frame_side
      | |- preserves _ (torch_draw _) => use preserves_torch_draw; frame_side
      | |- preserves _ (random_draw _) => use preserves_random_draw; frame_side
      | |- preserves _ (construct _) => use preserves_construct; frame_side
      | |- preserves _ (with_no_grad _) => use preserves_with_no_grad; [frame_side|]
      | |- preserves _ (match ?x with _ => _ end) => destruct x
      | |- preserves _ ?m => let h := head_of m in progress unfold h
      end ].

Ltac frame := repeat frame_step.

Section Frames.

Context {F : Framework}.

(** Only line 44 assigns to a field of [opt]. *)
Lemma open_writer_same_opt date : preserves same_opt (open_writer date).
Proof. frame. Qed.

Lemma assemble_same_opt cuda_available : preserves same_opt (assemble cuda_available).
Proof. frame. Qed.

Lemma training_same_opt d idxs : preserves same_opt (training d idxs).
Proof. frame. Qed.

Lemma finish_same_opt : preserves same_opt finish.
Proof. frame. Qed.

End Frames.

(* ===================================================================== *)
(** ** The namespace during a run *)

Section Config.

Context {F : Framework}.

Local Open Scope Z_scope.

#[export] Instance seed_filled_preorder : PreOrder seed_filled.
Proof.
  split.
  - intros w. left. reflexivity.
  - intros a b c [E1|(N1 & s1 & R1 & E1)] [E2|(N2 & s2 & R2 & E2)].
    + left. congruence.
    + right. rewrite E1 in N2, E2. eauto.
    + right. rewrite E2. eauto.
    + rewrite E1 in N2. discriminate.
Qed.

Lemma preserves_weaken (R R' : World -> World -> Prop) {A : Type} (m : M A) :
  (forall w w', R w w' -> R' w w') -> preserves R m -> preserves R' m.
Proof. intros H Hm w. apply H, Hm. Qed.

Lemma same_opt_seed_filled w w' : same_opt w w' -> seed_filled w w'.
Proof. intros E. left. exact E. Qed.

(** Lines 43-47 under [seed_filled]. *)
Lemma seeding_seed_filled : preserves seed_filled seeding.
Proof.
  intros w. unfold seeding, bind, gets, emit, modify, random_draw, raise, ret. simpl.
  destruct (manual_seed (opt w)) as [s|] eqn:E; simpl.
  - rewrite E. simpl. destruct (torch_seed_in_range s); left; reflexivity.
  - pose proof (randint_range 1 10000 (py_rng w) ltac:(lia)) as Hr.
    destruct (random_randint 1 10000 (py_rng w)) as [r g]. simpl in *.
    right. split; [exact E|]. exists r. split; [exact Hr|].
    destruct (torch_seed_in_range r); reflexivity.
Qed.

(** The whole script under [seed_filled]. *)
Lemma main_seed_filled date cuda_available :
  preserves seed_filled (main date cuda_available).
Proof.
  unfold main, prepare.
  assert (W : forall A (m : M A), preserves same_opt m -> preserves seed_filled m)
    by (intros A m; apply preserves_weaken; exact same_opt_seed_filled).
  use preserves_bind; [use preserves_bind; [|intros _; use preserves_bind; [|intros _]]
                      |intros p; use preserves_bind; [|intros _]].
  - apply W, open_writer_same_opt.
  - exact seeding_seed_filled.
  - apply W, assemble_same_opt.
  - apply W, training_same_opt.
  - apply W, finish_same_opt.
Qed.

(** With a seed on the command line the namespace never changes. *)
Lemma main_same_opt_seeded date cuda_available w :
  manual_seed (opt w) <> None ->
  opt (snd (main date cuda_available w)) = opt w.
Proof.
  intros H. destruct (main_seed_filled date cuda_available w) as [E|(N & _)].
  - exact E.
  - contradiction.
Qed.

Lemma open_writer_ok date w : fst (open_writer date w) = Ok tt.
Proof. reflexivity. Qed.

(** Whatever the seed option, line 44-47 leave a seed in [opt]. *)
Lemma seeding_fills w :
  match manual_seed (opt w) with
  | Some _ => opt (snd (seeding w)) = opt w
  | None =>
      exists s, 1 <= s <= 10000 /\
                opt (snd (seeding w)) = set_manual_seed (Some s) (opt w)
  end.
Proof.
  unfold seeding, bind, gets, emit, modify, random_draw, raise, ret. simpl.
  destruct (manual_seed (opt w)) as [s|] eqn:E; simpl.
  - rewrite E. simpl. destruct (torch_seed_in_range s); reflexivity.
  - pose proof (randint_range 1 10000 (py_rng w) ltac:(lia)) as Hr.
    destruct (random_randint 1 10000 (py_rng w)) as [r g]. simpl in *.
    exists r. split; [exact Hr|]. destruct (torch_seed_in_range r); reflexivity.
Qed.

(** From the end of line 47 on, nothing assigns to [opt]. *)
Lemma main_after_seeding date cuda_available w :
  same_opt (snd (seeding (snd (open_writer date w))))
           (snd (main date cuda_available w)).
Proof.
  unfold main, prepare.
  pose proof (open_writer_ok date w) as Ho.
  unfold bind at 1 2.
  destruct (open_writer date w) as [[[]|e l] w1]; [clear Ho|discriminate Ho].
  unfold bind at 1. simpl snd at 1.
  destruct (seeding w1) as [[[]|e l] w2]; [|reflexivity]. simpl snd at 1.
  pose proof (assemble_same_opt cuda_available w2) as Ha.
  destruct (assemble cuda_available w2) as [[p|e l] w3]; [|exact Ha].
  simpl in Ha.
  assert (Hrest : preserves same_opt (training (fst p) (snd p) ;;; finish)%py).
  { use preserves_bind; [apply training_same_opt|intros _; apply finish_same_opt]. }
  specialize (Hrest w3). unfold same_opt in *. congruence.
Qed.

End Config.

(* ===================================================================== *)
(** ** The evaluation half of an epoch (lines 134-152) *)

Section Evaluation.

Context {F : Framework}.

Local Open Scope list_scope.
Local Open Scope Z_scope.
Local Open Scope py_scope.

(** [model.train()] and [model.eval()] flip a flag and nothing else. *)
Lemma set_training_same_params b line : preserves same_params (set_training b line).
Proof.
  intros w. unfold set_training, read_model, write_model, bind, gets, modify, raise, ret.
  simpl. destruct (model w) as [m|] eqn:E; simpl.
  - unfold same_params, params_of. simpl. rewrite E. auto.
  - reflexivity.
Qed.

(** A [with] block puts the gradient mode back. *)
Lemma with_no_grad_same_grad {A : Type} (body : M A) :
  preserves same_grad (with_no_grad body).
Proof.
  intros w. unfold with_no_grad. destruct (body _) as [r w1]. reflexivity.
Qed.

Ltac frame_hook ::=
  first [ apply set_training_same_params
        | apply with_no_grad_same_grad ].

(** Lines 134-143 and 145-152 change neither parameters nor optimizer. *)
Lemma evaluate_same_params tl epoch : preserves same_params (evaluate tl epoch).
Proof. frame. Qed.

Lemma visualize_same_params sub idxs epoch :
  preserves same_params (visualize sub idxs epoch).
Proof. frame. Qed.

(** The gradient mode at the end of each part is the one at its start. *)
Lemma train_epoch_same_grad tl epoch : preserves same_grad (train_epoch tl epoch).
Proof. frame. Qed.

Lemma log_train_error_same_grad tl c epoch :
  preserves same_grad (log_train_error tl c epoch).
Proof. frame. Qed.

Lemma checkpointing_same_grad epoch : preserves same_grad (checkpointing epoch).
Proof. frame. Qed.

Lemma evaluate_same_grad tl epoch : preserves same_grad (evaluate tl epoch).
Proof. frame. Qed.

Lemma visualize_same_grad sub idxs epoch :
  preserves same_grad (visualize sub idxs epoch).
Proof. frame. Qed.

Lemma test_step_untracked acc batch : preserves (extends untracked) (test_step acc batch).
Proof.
  intros w. unfold test_step, with_no_grad, model_call, read_model, read_criterion,
    bind, gets, emit, modify, raise, ret. simpl.
  destruct (model w) as [m|]; simpl.
  - exists [EvForward false (m_training m)]. split.
    + destruct (criterion w); reflexivity.
    + repeat constructor.
  - apply extends_quiet. reflexivity.
Qed.

(** Every forward pass of the test loop runs with gradient tracking off. *)
Lemma evaluate_untracked tl epoch : preserves (extends untracked) (evaluate tl epoch).
Proof.
  unfold evaluate.
  use preserves_bind; [frame|intros _].
  use preserves_bind; [frame|intros batches].
  use preserves_bind; [|intros test_loss; frame].
  use preserves_for_fold. intros b acc. apply test_step_untracked.
Qed.

#[export] Instance same_model_preorder : PreOrder same_model.
Proof. split; unfold same_model; [intros w|intros a b c]; congruence. Qed.

Lemma extends_any_in (w w' : World) e :
  extends (fun _ => True) w w' -> In e (trace w) -> In e (trace w').
Proof. intros (t & E & _) H. rewrite E. apply in_or_app. left. exact H. Qed.

(** After a completed evaluation the model is in eval mode. *)
Lemma evaluate_ok_eval_mode tl epoch w w' :
  evaluate tl epoch w = (Ok tt, w') ->
  exists m, model w' = Some m /\ m_training m = false.
Proof.
  unfold evaluate. intros H.
  apply bind_ok in H as ([] & w1 & H1 & H2).
  assert (Hm : exists m, model w1 = Some m /\ m_training m = false).
  { revert H1. unfold set_training, read_model, write_model, bind, gets, modify, raise, ret.
    simpl. destruct (model w) as [m|]; simpl; intros H1; inversion H1; subst.
    eexists. split; reflexivity. }
  match type of H2 with ?k ?w = _ => assert (Hk : preserves same_model k) end.
  { unfold same_model. frame; unfold same_model; reflexivity. }
  specialize (Hk w1). rewrite H2 in Hk. unfold same_model in Hk. simpl in Hk.
  rewrite Hk. exact Hm.
Qed.

(** The first visualization forward pass runs in the gradient mode the
    loop is in: line 149 is outside any [no_grad] block. *)
Lemma visualize_forward_mode sub idx rest epoch w w' m :
  model w = Some m ->
  visualize sub (idx :: rest) epoch w = (Ok tt, w') ->
  In (EvForward (grad_enabled w) (m_training m)) (trace w').
Proof.
  intros Hm H. unfold visualize in H. simpl in H.
  apply bind_ok in H as ([] & w1 & H1 & H2).
  assert (Hin : In (EvForward (grad_enabled w) (m_training m)) (trace w1)).
  { revert H1. unfold subset_getitem, model_call, read_model, bind, gets, emit, modify,
      raise, ret. simpl.
    destruct (nth_error (indices sub) idx); simpl; [|discriminate].
    rewrite Hm. simpl. intros H1. inversion H1; subst. simpl.
    apply in_or_app. left. apply in_or_app. right. left. reflexivity. }
  match type of H2 with ?k ?w = _ => assert (Hk : preserves (extends (fun _ => True)) k) end.
  { frame. }
  specialize (Hk w1). rewrite H2 in Hk. simpl in Hk.
  eapply extends_any_in; eassumption.
Qed.

End Evaluation.

(* ===================================================================== *)
(** ** Gradient tracking in the evaluation phase *)

Section GradientMode.

Context {F : Framework}.

Local Open Scope Z_scope.
Local Open Scope py_scope.

(** The evaluation phase modifies neither the parameters of the model nor
    the state of the optimizer, whether it completes or raises. *)
Lemma evaluating_phase_same_params d test_idxs epoch w :
  params_of (snd (evaluating_phase d test_idxs epoch w)) = params_of w /\
  optimizer (snd (evaluating_phase d test_idxs epoch w)) = optimizer w.
Proof.
  assert (H : preserves same_params (evaluating_phase d test_idxs epoch)).
  { unfold evaluating_phase. use preserves_bind.
    - apply evaluate_same_params.
    - intros _. apply visualize_same_params. }
  exact (H w).
Qed.

(** C8: in a completed epoch with at least one visualization index, a
    forward pass of the evaluation phase runs in eval mode with gradient
    tracking enabled (line 149: the visualization forward pass is outside
    the [no_grad] block of lines 139-141).  The claim has every forward pass
    of the phase run with tracking disabled. *)
Theorem C8_visualization_forward_tracks_gradients :
  forall (d : loaders) (idx : nat) (rest : list nat) (epoch : Z) (w w' : World),
    grad_enabled w = true ->
    epoch_body d (idx :: rest) epoch w = (Ok tt, w') ->
    In (EvForward true false) (trace w').
Proof.
  intros d idx rest epoch w w' Hg H. unfold epoch_body in H.
  apply bind_ok in H as (cum & w1 & H1 & H).
  apply bind_ok in H as ([] & w2 & H2 & H).
  apply bind_ok in H as ([] & w3 & H3 & H).
  apply bind_ok in H as ([] & w4 & H4 & H5).
  pose proof (train_epoch_same_grad (train_loader d) epoch w) as G1.
  pose proof (log_train_error_same_grad (train_loader d) cum epoch w1) as G2.
  pose proof (checkpointing_same_grad epoch w2) as G3.
  pose proof (evaluate_same_grad (test_loader d) epoch w3) as G4.
  rewrite H1 in G1. rewrite H2 in G2. rewrite H3 in G3. rewrite H4 in G4.
  unfold same_grad in *. simpl in *.
  destruct (evaluate_ok_eval_mode _ _ _ _ H4) as (m & Hm & Ht).
  pose proof (visualize_forward_mode _ _ _ _ _ _ _ Hm H5) as Hin.
  rewrite Ht in Hin. replace (grad_enabled w4) with true in Hin by congruence.
  exact Hin.
Qed.

End GradientMode.

(* ===================================================================== *)
(** ** Model and loss selection (lines 86-106) *)

Section Selection.

Context {F : Framework}.

Local Open Scope string_scope.
Local Open Scope py_scope.

Lemma mem_string_In s l : mem_string s l = true <-> In s l.
Proof.
  unfold mem_string. rewrite existsb_exists. split.
  - intros (x & Hx & E). apply String.eqb_eq in E. subst. exact Hx.
  - intros H. exists s. split; [exact H|apply String.eqb_refl].
Qed.

(** What argparse lets through is one of the declared choices. *)
Lemma parse_args_choices c o :
  parse_args c = Ok o ->
  In (model_type o) model_type_choices /\ In (loss o) loss_choices.
Proof.
  unfold parse_args. intros H.
  destruct (choice_ok model_type_choices (arg_model_type c)) eqn:E1;
    cbn [negb] in H; [|discriminate].
  destruct (choice_ok loss_choices (arg_loss c)) eqn:E2;
    cbn [negb] in H; [|discriminate].
  inversion H; subst; clear H. cbn [model_type loss].
  unfold choice_ok in E1, E2. split.
  - destruct (arg_model_type c); [apply mem_string_In; exact E1|simpl; auto].
  - destruct (arg_loss c); [apply mem_string_In; exact E2|simpl; auto].
Qed.

(** No branch taken: [model] stays unbound and line 90 raises. *)
Lemma select_model_unmatched dev w :
  model w = None ->
  ~ In (model_type (opt w)) model_type_choices ->
  select_model dev w = (Raise NameError 90, w).
Proof.
  intros Hm Hn. unfold select_model, read_model, bind, gets, raise, ret. simpl.
  destruct (String.eqb_spec (model_type (opt w)) "can32") as [E|_].
  { exfalso. apply Hn. rewrite E. simpl. auto. }
  destruct (String.eqb_spec (model_type (opt w)) "unet") as [E|_].
  { exfalso. apply Hn. rewrite E. simpl. auto. }
  simpl. rewrite Hm. reflexivity.
Qed.

(** A declared choice: line 90 passes and [model] is bound, on the device. *)
Lemma select_model_admitted dev w :
  In (model_type (opt w)) model_type_choices ->
  fst (select_model dev w) = Ok tt /\
  exists m, model (snd (select_model dev w)) = Some m /\ m_device m = dev.
Proof.
  intros Hin. unfold select_model, read_model, write_model, construct, bind, gets,
    modify, raise, ret. simpl.
  simpl in Hin. destruct Hin as [E|[E|[]]]; rewrite <- E; simpl.
  - destruct (ConditionalCAN_new _) as [p g]. simpl.
    split; [reflexivity|]. eexists. split; reflexivity.
  - destruct (ConditionalUNet_new _) as [p g]. simpl.
    split; [reflexivity|]. eexists. split; reflexivity.
Qed.

(** No branch taken: [criterion] stays unbound and line 105 raises. *)
Lemma select_criterion_unmatched dev w :
  criterion w = None ->
  ~ In (loss (opt w)) loss_choices ->
  select_criterion dev w = (Raise NameError 105, w).
Proof.
  intros Hc Hn. unfold select_criterion, read_criterion, bind, gets, raise, ret. simpl.
  repeat match goal with
         | |- context [String.eqb (loss (opt w)) ?s] =>
             destruct (String.eqb_spec (loss (opt w)) s) as [E|_];
             [exfalso; apply Hn; rewrite E; simpl; tauto|]
         end.
  simpl. rewrite Hc. reflexivity.
Qed.

(** A declared choice: line 105 passes and [criterion] is bound. *)
Lemma select_criterion_admitted dev w :
  In (loss (opt w)) loss_choices ->
  fst (select_criterion dev w) = Ok tt /\
  criterion (snd (select_criterion dev w)) <> None.
Proof.
  intros Hin. unfold select_criterion, construct_loss, bind_criterion, read_criterion,
    construct, bind, gets, modify, raise, ret. simpl.
  simpl in Hin.
  destruct Hin as [E|[E|[E|[E|[E|[E|[]]]]]]]; rewrite <- E; simpl;
    try destruct (loss_module_new _) as [g1 g2]; simpl;
    (split; [reflexivity|discriminate]).
Qed.

(** C4: a selector matching none of the chained conditionals leaves the
    variable unbound and the run stops at the guarding [assert] (line 90
    for the model, line 105 for the loss) with nothing else done; every
    selector the argument parser admits passes the guard with the variable
    bound. *)
Theorem C4_selection_guard :
  forall (dev : device) (w : World),
    (model w = None ->
     ~ In (model_type (opt w)) model_type_choices ->
     select_model dev w = (Raise NameError 90, w)) /\
    (criterion w = None ->
     ~ In (loss (opt w)) loss_choices ->
     select_criterion dev w = (Raise NameError 105, w)) /\
    (forall c o, parse_args c = Ok o ->
       model_type (opt w) = model_type o -> loss (opt w) = loss o ->
       fst (select_model dev w) = Ok tt /\
       model (snd (select_model dev w)) <> None /\
       fst (select_criterion dev w) = Ok tt /\
       criterion (snd (select_criterion dev w)) <> None).
Proof.
  intros dev w. split; [|split].
  - apply select_model_unmatched.
  - apply select_criterion_unmatched.
  - intros c o Hp Em El. destruct (parse_args_choices c o Hp) as [Hm Hl].
    rewrite <- Em in Hm. rewrite <- El in Hl.
    destruct (select_model_admitted dev w Hm) as (H1 & m & H2 & _).
    destruct (select_criterion_admitted dev w Hl) as (H3 & H4).
    repeat split; try assumption. rewrite H2. discriminate.
Qed.

End Selection.

(* ===================================================================== *)
(** ** The 80/20 split (lines 69-75) *)

Section Split.

Context {F : Framework}.

Local Open Scope list_scope.
Local Open Scope Z_scope.
Local Open Scope py_scope.

Lemma slice_length {A : Type} (l : list A) i j :
  0 <= i <= j -> j <= Z.of_nat (List.length l) ->
  Z.of_nat (List.length (slice l i j)) = j - i.
Proof.
  intros Hij Hj. unfold slice. rewrite length_firstn, length_skipn. lia.
Qed.

Lemma randperm_length n g : List.length (fst (torch_randperm n g)) = n.
Proof.
  rewrite (Permutation_length (randperm_perm n g)). apply length_seq.
Qed.

Lemma train_size_le len : train_size len <= Z.of_nat len.
Proof. pose proof (test_size_nonneg len). unfold test_size in *. lia. Qed.

(** [random_split] with the sizes of lines 69-70 never raises and cuts one
    permutation of the dataset at [train_size]. *)
Lemma random_split_sizes (ds : dataset Sample) line w :
  exists tr te w',
    random_split ds (train_size (ds_len ds), test_size (ds_len ds)) line w
    = (Ok (tr, te), w') /\
    sub_dataset tr = ds /\ sub_dataset te = ds /\
    Z.of_nat (subset_len tr) = train_size (ds_len ds) /\
    Z.of_nat (subset_len te) = test_size (ds_len ds) /\
    Permutation (indices tr ++ indices te) (seq 0 (ds_len ds)).
Proof.
  set (n := ds_len ds).
  pose proof (train_size_range n) as [H0 _].
  pose proof (train_size_le n) as Hle.
  assert (Hsum : train_size n + test_size n = Z.of_nat n) by (unfold test_size; lia).
  unfold random_split, torch_draw, bind, ret, raise. fold n. rewrite Hsum.
  rewrite Z.eqb_refl. simpl. rewrite Nat2Z.id.
  pose proof (randperm_length n (torch_rng w)) as Hlen.
  pose proof (randperm_perm n (torch_rng w)) as Hperm.
  destruct (torch_randperm n (torch_rng w)) as [perm g]. simpl in *.
  do 3 eexists. split; [reflexivity|]. simpl.
  split; [reflexivity|]. split; [reflexivity|].
  unfold subset_len. simpl.
  split; [|split].
  - rewrite slice_length; lia.
  - rewrite slice_length; unfold test_size; lia.
  - unfold slice. simpl. rewrite Z.sub_0_r.
    replace (Z.to_nat (Z.of_nat n - train_size n))
      with (List.length (skipn (Z.to_nat (train_size n)) perm))
      by (rewrite length_skipn; lia).
    rewrite firstn_all, firstn_skipn. exact Hperm.
Qed.

Lemma DataLoader_ok ds b line w dl w' :
  DataLoader ds b line w = (Ok dl, w') ->
  dl = mkDataLoader ds (Z.to_nat b) /\ 0 < b /\ w' = w.
Proof.
  unfold DataLoader, raise, ret.
  destruct (sampler_rejects_empty && (subset_len ds =? 0)%nat); [discriminate|].
  destruct (Z.leb_spec b 0) as [Hb|Hb]; [discriminate|].
  intros H. inversion H. auto.
Qed.

(** What lines 65-83 have bound when they complete. *)
Lemma build_data_ok w d w' :
  build_data w = (Ok d, w') ->
  let nl := ds_len (landscape_dataset (opt w)) in
  let np := ds_len (portrait_dataset (opt w)) in
  let b := Z.to_nat (batch_size (opt w)) in
  Z.of_nat (subset_len (train_landscape_dataset d)) = train_size nl /\
  Z.of_nat (subset_len (test_landscape_dataset d)) = test_size nl /\
  Z.of_nat (subset_len (train_portrait_dataset d)) = train_size np /\
  Z.of_nat (subset_len (test_portrait_dataset d)) = test_size np /\
  0 < batch_size (opt w) /\
  train_loader d = mkJoined (mkDataLoader (train_landscape_dataset d) b)
                            (mkDataLoader (train_portrait_dataset d) b) /\
  test_loader d = mkJoined (mkDataLoader (test_landscape_dataset d) b)
                           (mkDataLoader (test_portrait_dataset d) b).
Proof.
  intros H. unfold build_data in H.
  apply bind_ok in H as (o & w0 & H0 & H). inversion H0; subst o w0; clear H0.
  fold (landscape_dataset (opt w)) in H. fold (portrait_dataset (opt w)) in H.
  apply bind_ok in H as (l & w1 & Hl & H).
  destruct (random_split_sizes (landscape_dataset (opt w)) 71 w)
    as (ltr & lte & w1' & El & _ & _ & Hltr & Hlte & _).
  rewrite El in Hl. inversion Hl; subst l w1'; clear Hl.
  apply bind_ok in H as (p & w2 & Hp & H).
  destruct (random_split_sizes (portrait_dataset (opt w)) 75 w1)
    as (ptr & pte & w2' & Ep & _ & _ & Hptr & Hpte & _).
  rewrite Ep in Hp. inversion Hp; subst p w2'; clear Hp.
  apply bind_ok in H as (dl1 & w3 & H1 & H). apply DataLoader_ok in H1 as (-> & Hb & ->).
  apply bind_ok in H as (dl2 & w4 & H2 & H). apply DataLoader_ok in H2 as (-> & _ & ->).
  apply bind_ok in H as (dl3 & w5 & H3 & H). apply DataLoader_ok in H3 as (-> & _ & ->).
  apply bind_ok in H as (dl4 & w6 & H4 & H). apply DataLoader_ok in H4 as (-> & _ & ->).
  inversion H; subst; clear H. simpl. auto 10.
Qed.

(** C3: for a dataset of any length [n], the split of lines 69-71 (and
    73-75) succeeds, its train side has [floor(0.8 * n)] elements (the
    float product, floored), its test side the remaining
    [n - floor(0.8 * n)], and the two sizes add up to [n]; below [2 ^ 50] the
    float product floors to the exact [4 n / 5].  Lines 65-83 apply it to
    the landscape and to the portrait dataset separately. *)
Theorem C3_split_sizes :
  forall (ds : dataset Sample) (line : nat) (w : World),
    let n := ds_len ds in
    let floor_08_n :=
      PyFloat.floor (PyFloat.mul PyFloat.lit_0_8 (PyFloat.of_int (Z.of_nat n))) in
    (exists tr te w',
       random_split ds (train_size n, test_size n) line w = (Ok (tr, te), w') /\
       Z.of_nat (subset_len tr) = floor_08_n /\
       Z.of_nat (subset_len te) = Z.of_nat n - floor_08_n /\
       (subset_len tr + subset_len te = n)%nat) /\
    (Z.of_nat n < 2 ^ 50 -> floor_08_n = 4 * Z.of_nat n / 5) /\
    (forall d w', build_data w = (Ok d, w') ->
       (subset_len (train_landscape_dataset d) + subset_len (test_landscape_dataset d)
        = ds_len (landscape_dataset (opt w)))%nat /\
       (subset_len (train_portrait_dataset d) + subset_len (test_portrait_dataset d)
        = ds_len (portrait_dataset (opt w)))%nat /\
       Z.of_nat (subset_len (train_landscape_dataset d))
       = train_size (ds_len (landscape_dataset (opt w))) /\
       Z.of_nat (subset_len (train_portrait_dataset d))
       = train_size (ds_len (portrait_dataset (opt w)))).
Proof.
  intros ds line w n floor_08_n.
  assert (Hfl : train_size n = floor_08_n).
  { unfold train_size, floor_08_n. apply to_int_floor.
    cbn [PyFloat.mul PyFloat.fnum PyFloat.lit_0_8 PyFloat.of_int].
    apply round53_nonneg. pose proof (round53_nonneg (Z.of_nat n)). lia. }
  split; [|split].
  - destruct (random_split_sizes ds line w) as (tr & te & w' & E & _ & _ & Htr & Hte & _).
    exists tr, te, w'. fold n in E, Htr, Hte. unfold test_size in Hte.
    rewrite <- Hfl. repeat split; try assumption; lia.
  - intros Hb. rewrite <- Hfl. apply train_size_exact. exact Hb.
  - intros d w' H. apply build_data_ok in H as (H1 & H2 & H3 & H4 & _).
    unfold test_size in *. repeat split; try assumption; lia.
Qed.

End Split.

(* ===================================================================== *)
(** ** Sampling the visualization indices (line 111) *)

Section Sampling.

Context {F : Framework}.

Local Open Scope list_scope.
Local Open Scope Z_scope.
Local Open Scope py_scope.

Lemma sample_test_idxs_short sub w :
  (subset_len sub < 3)%nat -> sample_test_idxs sub w = (Raise ValueError 111, w).
Proof.
  intros H. unfold sample_test_idxs, raise.
  destruct (Nat.ltb_spec (subset_len sub) 3); [reflexivity|lia].
Qed.

Lemma sample_test_idxs_enough sub w :
  (3 <= subset_len sub)%nat ->
  exists idxs w',
    sample_test_idxs sub w = (Ok idxs, w') /\
    List.length idxs = 3%nat /\
    Forall (fun i => (i < subset_len sub)%nat) idxs.
Proof.
  intros H. unfold sample_test_idxs, random_draw.
  destruct (Nat.ltb_spec (subset_len sub) 3); [lia|].
  pose proof (sample_length (subset_len sub) 3 (py_rng w) H) as Hl.
  pose proof (fun i => sample_range (subset_len sub) 3 (py_rng w) i H) as Hr.
  destruct (random_sample (subset_len sub) 3 (py_rng w)) as [idxs g]. simpl in *.
  exists idxs. eexists. split; [reflexivity|]. split; [exact Hl|].
  apply Forall_forall. exact Hr.
Qed.

Lemma sample_test_idxs_ok sub w idxs w' :
  sample_test_idxs sub w = (Ok idxs, w') ->
  (3 <= subset_len sub)%nat /\ List.length idxs = 3%nat.
Proof.
  intros H. destruct (Nat.lt_ge_cases (subset_len sub) 3) as [Hs|Hs].
  - rewrite sample_test_idxs_short in H by exact Hs. discriminate.
  - destruct (sample_test_idxs_enough sub w Hs) as (i & w1 & E & Hl & _).
    rewrite E in H. inversion H; subst. auto.
Qed.

Lemma seed_filled_data_path w w' :
  seed_filled w w' -> data_path (opt w') = data_path (opt w).
Proof. intros [E|(_ & s & _ & E)]; rewrite E; reflexivity. Qed.

Lemma pick_device_same_opt cuda_available : preserves same_opt (pick_device cuda_available).
Proof. frame. Qed.

(** Lines 35-111 feed nothing to the model. *)
Lemma prepare_no_forward date cuda_available :
  preserves (extends no_forward) (prepare date cuda_available).
Proof. frame. Qed.

(** What a completed [prepare] went through. *)
Lemma prepare_ok date cuda_available w d idxs w' :
  prepare date cuda_available w = (Ok (d, idxs), w') ->
  exists wa wb wc,
    data_path (opt wa) = data_path (opt w) /\
    build_data wa = (Ok d, wb) /\
    sample_test_idxs (test_landscape_dataset d) wc = (Ok idxs, w').
Proof.
  intros H. unfold prepare in H.
  apply bind_ok in H as ([] & w1 & H1 & H).
  apply bind_ok in H as ([] & w2 & H2 & H).
  unfold assemble in H.
  apply bind_ok in H as (dev & w3 & H3 & H).
  apply bind_ok in H as (d' & w4 & H4 & H).
  apply bind_ok in H as ([] & w5 & H5 & H).
  apply bind_ok in H as ([] & w6 & H6 & H).
  apply bind_ok in H as ([] & w7 & H7 & H).
  apply bind_ok in H as (i & w8 & H8 & H).
  inversion H; subst d' i w8; clear H.
  exists w3, w4, w7. split; [|split; assumption].
  pose proof (open_writer_same_opt date w) as P1.
  pose proof (seeding_seed_filled w1) as P2.
  pose proof (pick_device_same_opt cuda_available w2) as P3.
  rewrite H1 in P1. rewrite H2 in P2. rewrite H3 in P3. simpl in *.
  apply seed_filled_data_path in P2. unfold same_opt in *. congruence.
Qed.

(** C9: line 111 raises exactly when the landscape test split has fewer
    than three samples, which is exactly when the landscape dataset has
    fewer than eleven; with such a dataset the run ends in an exception
    before any batch reaches the model. *)
Theorem C9_sampling_needs_three_test_samples :
  forall (date : string) (cuda_available : bool) (w : World),
    let n := ds_len (landscape_dataset (opt w)) in
    (forall sub w0, (subset_len sub < 3)%nat ->
       sample_test_idxs sub w0 = (Raise ValueError 111, w0)) /\
    (forall sub w0, (3 <= subset_len sub)%nat ->
       exists idxs w1, sample_test_idxs sub w0 = (Ok idxs, w1) /\
                       List.length idxs = 3%nat) /\
    (3 <= test_size n <-> (11 <= n)%nat) /\
    (forall d w1, build_data w = (Ok d, w1) ->
       ((subset_len (test_landscape_dataset d) < 3)%nat <-> (n < 11)%nat)) /\
    ((n < 11)%nat ->
       (exists e l, fst (main date cuda_available w) = Raise e l) /\
       extends no_forward w (snd (main date cuda_available w))).
Proof.
  intros date cuda_available w n.
  assert (Hprep : (n < 11)%nat ->
            exists e l w', prepare date cuda_available w = (Raise e l, w')).
  { intros Hs.
    destruct (prepare date cuda_available w) as [[[d idxs]|e l] w'] eqn:E; [|eauto].
    exfalso. apply prepare_ok in E as (wa & wb & wc & Hp & Hb & Hi).
    apply sample_test_idxs_ok in Hi as [Hi _].
    apply build_data_ok in Hb as (_ & Ht & _).
    unfold landscape_dataset in Ht. rewrite Hp in Ht.
    fold (landscape_dataset (opt w)) in Ht. fold n in Ht.
    pose proof (test_size_ge_3 n). lia. }
  split; [|split; [|split; [|split]]].
  - intros sub w0. apply sample_test_idxs_short.
  - intros sub w0 H. destruct (sample_test_idxs_enough sub w0 H) as (i & w1 & E & Hl & _).
    eauto.
  - apply test_size_ge_3.
  - intros d w1 H. apply build_data_ok in H as (_ & Ht & _).
    fold n in Ht. pose proof (test_size_ge_3 n). lia.
  - intros Hs. destruct (Hprep Hs) as (e & l & w' & E).
    pose proof (prepare_no_forward date cuda_available w) as P.
    unfold main. rewrite (bind_raise _ _ _ _ _ _ E). rewrite E in P.
    split; [exists e, l; reflexivity|exact P].
Qed.

End Sampling.

(* ===================================================================== *)
(** ** Two runs with one seed *)

Section TwoRuns.

Context {F : Framework}.

Local Open Scope list_scope.
Local Open Scope Z_scope.
Local Open Scope py_scope.

Ltac agree_side :=
  try solve [ unfold agree in *; intros; simpl;
              repeat match goal with H : _ /\ _ |- _ => destruct H end;
              repeat split; congruence ].

Lemma related_ret {A : Type} (a : A) : related (ret a) (ret a).
Proof. intros w1 w2 H. split; [reflexivity|exact H]. Qed.

Lemma related_raise {A : Type} e l : related (@raise F A e l) (raise e l).
Proof. intros w1 w2 H. split; [reflexivity|exact H]. Qed.

Lemma related_gets {A : Type} (f : World -> A) :
  (forall w1 w2, agree w1 w2 -> f w1 = f w2) -> related (gets f) (gets f).
Proof. intros Hf w1 w2 H. split; simpl; [f_equal; auto|exact H]. Qed.

Lemma related_modify f1 f2 :
  (forall w1 w2, agree w1 w2 -> agree (f1 w1) (f2 w2)) ->
  related (modify f1) (modify f2).
Proof. intros Hf w1 w2 H. split; [reflexivity|apply Hf, H]. Qed.

Lemma related_emit e1 e2 : related (emit e1) (emit e2).
Proof. apply related_modify. agree_side. Qed.

Lemma related_emit_skip e : related (emit e) (ret tt).
Proof. intros w1 w2 H. split; [reflexivity|]. revert H. simpl. agree_side. Qed.

Lemma related_skip_emit e : related (ret tt) (emit e).
Proof. intros w1 w2 H. split; [reflexivity|]. revert H. simpl. agree_side. Qed.

Lemma related_bind {A B : Type} (m1 m2 : M A) (k1 k2 : A -> M B) :
  related m1 m2 -> (forall a, related (k1 a) (k2 a)) ->
  related (bind m1 k1) (bind m2 k2).
Proof.
  intros Hm Hk w1 w2 H. unfold bind. destruct (Hm w1 w2 H) as [Hr Hw].
  destruct (m1 w1) as [[a1|e1 l1] w1'], (m2 w2) as [[a2|e2 l2] w2'];
    simpl in *; try discriminate.
  - inversion Hr; subst. apply Hk, Hw.
  - inversion Hr; subst. split; [reflexivity|exact Hw].
Qed.

Lemma related_torch_draw {A : Type} (f : TorchRng -> A * TorchRng) :
  related (torch_draw f) (torch_draw f).
Proof.
  intros w1 w2 H. unfold torch_draw.
  assert (E : torch_rng w1 = torch_rng w2) by (unfold agree in H; tauto).
  rewrite E. destruct (f (torch_rng w2)) as [a g]. split; [reflexivity|].
  revert H. simpl. agree_side.
Qed.

Lemma related_random_draw {A : Type} (f : PyRng -> A * PyRng) :
  related (random_draw f) (random_draw f).
Proof.
  intros w1 w2 H. unfold random_draw.
  assert (E : py_rng w1 = py_rng w2) by (unfold agree in H; tauto).
  rewrite E. destruct (f (py_rng w2)) as [a g]. split; [reflexivity|].
  revert H. simpl. agree_side.
Qed.

Lemma related_construct {A : Type} (new : PyRng * TorchRng -> A * (PyRng * TorchRng)) :
  related (construct new) (construct new).
Proof.
  intros w1 w2 H. unfold construct.
  assert (E : (py_rng w1, torch_rng w1) = (py_rng w2, torch_rng w2))
    by (unfold agree in H; f_equal; tauto).
  rewrite E. destruct (new (py_rng w2, torch_rng w2)) as [a g]. split; [reflexivity|].
  revert H. simpl. agree_side.
Qed.

Ltac relate_step :=
  first
    [ apply related_ret
    | apply related_raise
    | match goal with
      | |- related (emit _) (emit _) => apply related_emit
      | |- related (bind _ _) (bind _ _) => apply related_bind; [|intros ?]
      | |- related (gets _) (gets _) => apply related_gets; agree_side
      | |- related (modify _) (modify _) => apply related_modify; agree_side
      | |- related (torch_draw _) (torch_draw _) => apply related_torch_draw
      | |- related (random_draw _) (random_draw _) => apply related_random_draw
      | |- related (construct _) (construct _) => apply related_construct
      | |- related (match ?x with _ => _ end) (match ?x with _ => _ end) => destruct x
      | |- related ?m ?m => let h := head_of m in progress unfold h
      end ].

Ltac relate := repeat relate_step.

(** Lines 65-111 depend on the generators, the namespace and nothing else. *)
Lemma build_data_related : related build_data build_data.
Proof. relate. Qed.

Lemma select_model_related dev : related (select_model dev) (select_model dev).
Proof. relate. Qed.

Lemma select_criterion_related dev : related (select_criterion dev) (select_criterion dev).
Proof. relate. Qed.

Lemma make_optimizer_related : related make_optimizer make_optimizer.
Proof. relate. Qed.

Lemma sample_test_idxs_related sub : related (sample_test_idxs sub) (sample_test_idxs sub).
Proof. relate. Qed.

(** The CUDA hint of line 52 is printed or not; the device is the same. *)
Lemma pick_device_related c1 c2 : related (pick_device c1) (pick_device c2).
Proof.
  unfold pick_device.
  apply related_bind; [apply related_gets; agree_side|intros o].
  apply related_bind; [relate|intros _].
  apply related_bind; [|intros _; relate].
  destruct (c1 && negb (cuda o)), (c2 && negb (cuda o)).
  - apply related_emit.
  - apply related_emit_skip.
  - apply related_skip_emit.
  - apply related_ret.
Qed.

Lemma assemble_related c1 c2 : related (assemble c1) (assemble c2).
Proof.
  unfold assemble.
  apply related_bind; [apply pick_device_related|intros dev].
  apply related_bind; [apply build_data_related|intros d].
  apply related_bind; [apply select_model_related|intros _].
  apply related_bind; [apply select_criterion_related|intros _].
  apply related_bind; [apply make_optimizer_related|intros _].
  apply related_bind; [apply sample_test_idxs_related|intros idxs].
  apply related_ret.
Qed.

(** With a seed given that torch accepts, lines 35-47 complete and hand
    over to line 49. *)
Lemma prepare_seeded date cuda_available w s :
  manual_seed (opt w) = Some s ->
  torch_seed_in_range s = true ->
  prepare date cuda_available w
  = assemble cuda_available (snd (seeding (snd (open_writer date w)))).
Proof.
  intros Hs Hr. unfold prepare, open_writer, seeding, bind, gets, emit, modify, ret, raise.
  simpl. rewrite Hs. simpl. rewrite Hs, Hr. reflexivity.
Qed.

(** With a seed given that torch rejects, line 47 raises. *)
Lemma prepare_bad_seed date cuda_available w s :
  manual_seed (opt w) = Some s ->
  torch_seed_in_range s = false ->
  fst (prepare date cuda_available w) = Raise RuntimeError 47.
Proof.
  intros Hs Hr. unfold prepare, open_writer, seeding, bind, gets, emit, modify, ret, raise.
  simpl. rewrite Hs. simpl. rewrite Hs, Hr. reflexivity.
Qed.

(** After seeding, two processes agree whatever their generators held. *)
Lemma seeding_agree d1 d2 w1 w2 s :
  agree_unseeded w1 w2 ->
  manual_seed (opt w1) = Some s ->
  torch_seed_in_range s = true ->
  agree (snd (seeding (snd (open_writer d1 w1))))
        (snd (seeding (snd (open_writer d2 w2)))).
Proof.
  intros (Ho & Hg & Hm & Hc & Hp) Hs Hr.
  assert (Hs2 : manual_seed (opt w2) = Some s) by congruence.
  unfold open_writer, seeding, bind, gets, emit, modify, ret, raise.
  simpl. rewrite Hs, Hs2. simpl. rewrite Hs, Hs2, Hr. simpl.
  unfold agree. simpl. repeat split; assumption.
Qed.

(** C2: with a manual seed, two runs of one configuration, started in any
    two environments (generator states, clock, directories, CUDA
    availability), reach line 112 with the same outcome: the same exception,
    or the same four subsets (hence the same train/test membership for both
    orientations), the same loaders and the same three indices. *)
Theorem C2_seeded_runs_agree :
  forall (o : Namespace) (s : Z) (env1 env2 : environment),
    manual_seed o = Some s ->
    fst (prepare (env_date env1) (env_cuda_available env1) (boot env1 o))
    = fst (prepare (env_date env2) (env_cuda_available env2) (boot env2 o)).
Proof.
  intros o s env1 env2 Hs.
  destruct (torch_seed_in_range s) eqn:Hr.
  - rewrite (prepare_seeded _ _ (boot env1 o) s) by assumption.
    rewrite (prepare_seeded _ _ (boot env2 o) s) by assumption.
    apply assemble_related. apply (seeding_agree _ _ _ _ s).
    + unfold agree_unseeded. simpl. auto.
    + exact Hs.
    + exact Hr.
  - rewrite (prepare_bad_seed _ _ (boot env1 o) s) by assumption.
    rewrite (prepare_bad_seed _ _ (boot env2 o) s) by assumption.
    reflexivity.
Qed.

End TwoRuns.

(* ===================================================================== *)
(** ** How many batches a loader yields *)

Section Batches.

Context {F : Framework}.

Local Open Scope list_scope.
Local Open Scope Z_scope.
Local Open Scope py_scope.

#[export] Instance same_but_torch_rng_preorder : PreOrder same_but_torch_rng.
Proof.
  split; unfold same_but_torch_rng.
  - intros w. repeat split.
  - intros a b c H1 H2.
    repeat match goal with H : _ /\ _ |- _ => destruct H end.
    repeat split; congruence.
Qed.

Lemma batch_sampler_length b cur l :
  (0 < b)%nat -> (List.length cur < b)%nat ->
  Z.of_nat (List.length (batch_sampler b cur l))
  = (Z.of_nat (List.length cur) + Z.of_nat (List.length l) + Z.of_nat b - 1) / Z.of_nat b.
Proof.
  intros Hb. revert cur. induction l as [|x l IH]; intros cur Hc; simpl.
  - destruct cur as [|c cur]; simpl List.length.
    + symmetry. apply Z.div_small. lia.
    + apply Z.div_unique with (r := Z.of_nat (S (List.length cur)) - 1);
        simpl List.length in *; lia.
  - rewrite length_app. simpl List.length.
    destruct (Nat.eqb_spec (List.length cur + 1) b) as [E|E].
    + simpl List.length. rewrite Nat2Z.inj_succ, IH by (simpl; lia). simpl List.length.
      change (Z.of_nat 0) with 0. rewrite Z.add_0_l.
      apply Z.div_unique
        with (r := (Z.of_nat (List.length l) + Z.of_nat b - 1) mod Z.of_nat b).
      * left. apply Z.mod_pos_bound. lia.
      * pose proof (Z.div_mod (Z.of_nat (List.length l) + Z.of_nat b - 1) (Z.of_nat b)
                      ltac:(lia)).
        lia.
    + rewrite IH by (rewrite length_app; simpl; lia).
      rewrite length_app. simpl List.length. f_equal. lia.
Qed.

Lemma sampler_order_length n g : List.length (fst (sampler_order n g)) = n.
Proof.
  rewrite (Permutation_length (sampler_perm n g)). apply length_seq.
Qed.

(** One pass over a loader never raises, touches only torch's generator and
    yields [len(loader)] batches. *)
Lemma loader_iter_run dl w :
  exists batches w',
    loader_iter dl w = (Ok batches, w') /\
    same_but_torch_rng w w' /\
    ((0 < dl_batch_size dl)%nat -> Z.of_nat (List.length batches) = loader_len dl).
Proof.
  unfold loader_iter, torch_draw, bind, ret.
  pose proof (sampler_order_length (subset_len (dl_dataset dl)) (torch_rng w)) as Hl.
  destruct (sampler_order (subset_len (dl_dataset dl)) (torch_rng w)) as [order g].
  simpl in *. do 2 eexists. split; [reflexivity|]. split.
  - unfold same_but_torch_rng. simpl. repeat split.
  - intros Hb. rewrite length_map, batch_sampler_length by (simpl; lia).
    unfold loader_len. rewrite Hl. simpl List.length.
    change (Z.of_nat 0) with 0. rewrite Z.add_0_l. reflexivity.
Qed.

Lemma joined_iter_run j w :
  exists w',
    joined_iter j w = (Ok (yielded j w), w') /\
    same_but_torch_rng w w' /\
    ((0 < dl_batch_size (loaderA j))%nat -> (0 < dl_batch_size (loaderB j))%nat ->
     Z.of_nat (List.length (yielded j w)) = joined_len j).
Proof.
  unfold yielded, joined_iter, bind.
  destruct (loader_iter_run (loaderA j) w) as (a & w1 & Ea & Ha & La).
  rewrite Ea.
  destruct (loader_iter_run (loaderB j) w1) as (b & w2 & Eb & Hb & Lb).
  rewrite Eb. simpl. exists w2. split; [reflexivity|]. split.
  - etransitivity; eassumption.
  - intros PA PB. rewrite length_map, length_combine. unfold joined_len.
    rewrite <- La, <- Lb by assumption. lia.
Qed.

(** The batches depend on torch's generator only. *)
Lemma yielded_rng j w1 w2 : torch_rng w1 = torch_rng w2 -> yielded j w1 = yielded j w2.
Proof.
  intros E. unfold yielded, joined_iter, loader_iter, torch_draw, bind, ret.
  rewrite E.
  destruct (sampler_order (subset_len (dl_dataset (loaderA j))) (torch_rng w2)) as [o1 g1].
  simpl.
  destruct (sampler_order (subset_len (dl_dataset (loaderB j))) g1) as [o2 g2].
  reflexivity.
Qed.

End Batches.

(* ===================================================================== *)
(** ** The average test loss (lines 135-143) *)

Section TestLoss.

Context {F : Framework}.

Local Open Scope list_scope.
Local Open Scope Z_scope.
Local Open Scope py_scope.

(** One test step: the loss is appended, the gradient mode is put back. *)
Lemma test_step_run acc batch w m c :
  model w = Some m -> criterion w = Some c ->
  exists w',
    test_step acc batch w = (Ok (acc ++ [test_loss_of m c batch]), w') /\
    model w' = Some m /\ criterion w' = Some c.
Proof.
  intros Hm Hc.
  unfold test_step, with_no_grad, model_call, read_model, read_criterion,
    bind, gets, emit, modify, raise, ret. simpl. rewrite Hm. simpl. rewrite Hc. simpl.
  eexists. split; [reflexivity|]. simpl. auto.
Qed.

(** The test loop appends one loss per batch and never raises once model
    and loss are bound. *)
Lemma test_loop_run batches : forall acc w m c,
  model w = Some m -> criterion w = Some c ->
  exists w',
    for_fold batches acc (fun b a => test_step a b) w
    = (Ok (acc ++ map (test_loss_of m c) batches), w') /\
    model w' = Some m /\ criterion w' = Some c.
Proof.
  induction batches as [|b batches IH]; intros acc w m c Hm Hc; simpl.
  - exists w. rewrite app_nil_r. auto.
  - destruct (test_step_run acc b w m c Hm Hc) as (w1 & E1 & Hm1 & Hc1).
    rewrite (bind_run _ _ _ _ _ E1).
    destruct (IH (acc ++ [test_loss_of m c b]) w1 m c Hm1 Hc1) as (w' & E & Hm' & Hc').
    exists w'. rewrite E. rewrite <- app_assoc. auto.
Qed.

Lemma set_training_run b line w m :
  model w = Some m ->
  set_training b line w
  = (Ok tt, set_model (Some (mkModule (m_arch m) (m_params m) b (m_grads m) (m_device m))) w).
Proof.
  intros Hm. unfold set_training, read_model, write_model, bind, gets, modify, ret.
  simpl. rewrite Hm. reflexivity.
Qed.

(** With model and loss bound, evaluation fails exactly on an empty pass. *)
Lemma evaluate_run tl epoch w m c :
  model w = Some m -> criterion w = Some c ->
  fst (evaluate tl epoch w)
  = if (List.length (yielded tl w) =? 0)%nat then Raise ZeroDivisionError 142 else Ok tt.
Proof.
  intros Hm Hc. unfold evaluate.
  rewrite (bind_run _ _ _ _ _ (set_training_run false 134 w m Hm)). cbv beta.
  match goal with |- fst (_ ?x) = _ => set (w1 := x) end.
  destruct (joined_iter_run tl w1) as (w2 & E & Hs & _).
  rewrite (bind_run _ _ _ _ _ E). cbv beta.
  assert (Ey : yielded tl w1 = yielded tl w) by (apply yielded_rng; reflexivity).
  rewrite Ey in *.
  destruct Hs as (_ & _ & _ & Hm2 & Hc2 & _).
  destruct (test_loop_run (yielded tl w) [] w2 _ c
              ltac:(rewrite Hm2; reflexivity) ltac:(rewrite Hc2; exact Hc))
    as (w3 & El & _).
  rewrite (bind_run _ _ _ _ _ El). cbv beta. cbn [app]. rewrite length_map.
  destruct (List.length (yielded tl w) =? 0)%nat; reflexivity.
Qed.

(** A completed evaluation went over at least one batch. *)
Lemma evaluate_ok_yielded tl epoch w w' :
  evaluate tl epoch w = (Ok tt, w') -> yielded tl w <> [].
Proof.
  intros H Hy. destruct (model w) as [m|] eqn:Hm.
  - unfold evaluate in H.
    rewrite (bind_run _ _ _ _ _ (set_training_run false 134 w m Hm)) in H. cbv beta in H.
    match type of H with _ ?x = _ => set (w1 := x) in * end.
    destruct (joined_iter_run tl w1) as (w2 & E & _).
    rewrite (bind_run _ _ _ _ _ E) in H. cbv beta in H.
    assert (Ey : yielded tl w1 = yielded tl w) by (apply yielded_rng; reflexivity).
    rewrite Ey, Hy in H. simpl in H. discriminate H.
  - unfold evaluate, set_training, read_model, bind, gets, raise in H. simpl in H.
    rewrite Hm in H. discriminate H.
Qed.

(** C10: line 142 divides by the number of test losses collected, one per
    batch the test loader yielded.  With no batch the divisor is zero and the
    evaluation raises [ZeroDivisionError] there; with at least one it
    completes; so an epoch that completes went over a non-empty test pass. *)
Theorem C10_empty_test_pass_stops_epoch :
  forall (tl : JoinedDataLoader) (epoch : Z) (w : World),
    (forall m c, model w = Some m -> criterion w = Some c ->
       (yielded tl w = [] -> fst (evaluate tl epoch w) = Raise ZeroDivisionError 142) /\
       (yielded tl w <> [] -> fst (evaluate tl epoch w) = Ok tt)) /\
    (forall w', evaluate tl epoch w = (Ok tt, w') -> yielded tl w <> []) /\
    (forall d idxs w',
       epoch_body d idxs epoch w = (Ok tt, w') ->
       exists w0, yielded (test_loader d) w0 <> []).
Proof.
  intros tl epoch w. split; [|split].
  - intros m c Hm Hc. rewrite (evaluate_run tl epoch w m c Hm Hc). split.
    + intros ->. reflexivity.
    + intros Hn. destruct (yielded tl w); [contradiction|reflexivity].
  - apply evaluate_ok_yielded.
  - intros d idxs w' H. unfold epoch_body in H.
    apply bind_ok in H as (cum & w1 & H1 & H).
    apply bind_ok in H as ([] & w2 & H2 & H).
    apply bind_ok in H as ([] & w3 & H3 & H).
    apply bind_ok in H as ([] & w4 & H4 & H5).
    exists w3. eapply evaluate_ok_yielded. exact H4.
Qed.

End TestLoss.

(* ===================================================================== *)
(** ** The train error of an epoch (lines 114-128) *)

Section TrainError.

Context {F : Framework}.

Local Open Scope list_scope.
Local Open Scope Z_scope.
Local Open Scope py_scope.







End TrainError.

(* ===================================================================== *)
(** ** What a run writes: scalars, images, files *)

Section Journal.

Context {F : Framework}.

Local Open Scope list_scope.
Local Open Scope Z_scope.
Local Open Scope py_scope.

Lemma journal_app a b : journal (a ++ b) = journal a ++ journal b.
Proof. apply flat_map_app. Qed.

Lemma journal_quiet w w' : extends quiet w w' -> journal (trace w') = journal (trace w).
Proof.
  intros (t & E & H). rewrite E, journal_app.
  assert (Ht : journal t = []).
  { clear E. induction H as [|e t He _ IH]; [reflexivity|].
    simpl. rewrite IH. destruct e; simpl in *; try contradiction; reflexivity. }
  rewrite Ht. apply app_nil_r.
Qed.

Lemma train_epoch_quiet tl epoch : preserves (extends quiet) (train_epoch tl epoch).
Proof. frame. Qed.

Lemma prepare_quiet date cuda_available :
  preserves (extends quiet) (prepare date cuda_available).
Proof. frame. Qed.

Lemma test_loop_quiet batches acc :
  preserves (extends quiet) (for_fold batches acc (fun b a => test_step a b)).
Proof. frame. Qed.

Lemma joined_iter_quiet tl : preserves (extends quiet) (joined_iter tl).
Proof. frame. Qed.

Lemma set_training_quiet b line : preserves (extends quiet) (set_training b line).
Proof. frame. Qed.

Lemma train_epoch_same_opt tl epoch : preserves same_opt (train_epoch tl epoch).
Proof. frame. Qed.

Lemma log_train_error_same_opt tl cum epoch :
  preserves same_opt (log_train_error tl cum epoch).
Proof. frame. Qed.

Lemma epoch_body_same_opt d idxs epoch : preserves same_opt (epoch_body d idxs epoch).
Proof. frame. Qed.

(** Apply a frame lemma at a run whose result is known. *)
Ltac framed L H := let P := fresh "P" in pose proof L as P; rewrite H in P; simpl in P.

Lemma log_train_error_journal tl cum epoch w w' :
  log_train_error tl cum epoch w = (Ok tt, w') ->
  journal (trace w') = journal (trace w) ++ [ScalarLogged "Train Error" epoch].
Proof.
  unfold log_train_error, raise, emit, modify.
  destruct (joined_len tl =? 0); [discriminate|].
  intros H. inversion H; subst. simpl. apply journal_app.
Qed.

Lemma checkpointing_journal epoch w w' :
  checkpointing epoch w = (Ok tt, w') ->
  journal (trace w') = journal (trace w) ++ checkpoint_entry (opt w) epoch.
Proof.
  unfold checkpointing, checkpoint_entry, torch_save, read_model, bind, gets, raise, ret,
    emit, modify. simpl.
  destruct (checkpoint_every (opt w)) as [c|s]; [|discriminate].
  destruct (c =? 0); [discriminate|].
  destruct ((epoch + 1) mod c =? 0).
  - destruct (model w) as [m|]; simpl; [|discriminate].
    destruct (file_creatable _ _); [|discriminate].
    intros H. inversion H; subst. simpl. apply journal_app.
  - intros H. inversion H; subst. symmetry. apply app_nil_r.
Qed.

Lemma evaluate_journal tl epoch w w' :
  evaluate tl epoch w = (Ok tt, w') ->
  journal (trace w') = journal (trace w) ++ [ScalarLogged "Test Error" epoch].
Proof.
  intros H. unfold evaluate in H.
  apply bind_ok in H as ([] & w1 & H1 & H).
  apply bind_ok in H as (batches & w2 & H2 & H).
  apply bind_ok in H as (test_loss & w3 & H3 & H).
  framed (set_training_quiet false 134 w) H1.
  framed (joined_iter_quiet tl w1) H2.
  framed (test_loop_quiet batches [] w2) H3.
  apply journal_quiet in P, P0, P1.
  destruct (List.length test_loss =? 0)%nat; [discriminate|].
  unfold emit, modify in H. inversion H; subst. simpl.
  rewrite journal_app. simpl. congruence.
Qed.

Lemma visualize_journal sub epoch idxs : forall w w',
  visualize sub idxs epoch w = (Ok tt, w') ->
  journal (trace w')
  = journal (trace w) ++ map (fun idx => ImageLogged (image_tag idx) epoch) idxs.
Proof.
  unfold visualize.
  induction idxs as [|idx idxs IH]; intros w w' H; simpl in H.
  - inversion H; subst. symmetry. apply app_nil_r.
  - apply bind_ok in H as ([] & w1 & H1 & H).
    assert (E1 : journal (trace w1)
                 = journal (trace w) ++ [ImageLogged (image_tag idx) epoch]).
    { revert H1. unfold subset_getitem, model_call, read_model, bind, gets, emit, modify,
        raise, ret. simpl.
      destruct (nth_error (indices sub) idx); simpl; [|discriminate].
      destruct (model w); simpl; [|discriminate].
      intros H1. inversion H1; subst. simpl. rewrite !journal_app. simpl.
      rewrite app_nil_r. reflexivity. }
    apply IH in H. rewrite H, E1, <- app_assoc. reflexivity.
Qed.

(** A completed epoch writes exactly [epoch_journal], in that order. *)
Lemma epoch_body_journal d idxs epoch w w' :
  epoch_body d idxs epoch w = (Ok tt, w') ->
  journal (trace w') = journal (trace w) ++ epoch_journal (opt w) idxs epoch.
Proof.
  intros H. unfold epoch_body in H.
  apply bind_ok in H as (cum & w1 & H1 & H).
  apply bind_ok in H as ([] & w2 & H2 & H).
  apply bind_ok in H as ([] & w3 & H3 & H).
  apply bind_ok in H as ([] & w4 & H4 & H5).
  framed (train_epoch_quiet (train_loader d) epoch w) H1. apply journal_quiet in P.
  framed (train_epoch_same_opt (train_loader d) epoch w) H1.
  framed (log_train_error_same_opt (train_loader d) cum epoch w1) H2.
  apply log_train_error_journal in H2. apply checkpointing_journal in H3.
  apply evaluate_journal in H4. apply visualize_journal in H5.
  unfold same_opt in *. unfold epoch_journal.
  rewrite H5, H4, H3, H2, P, P1, P0. rewrite <- !app_assoc. reflexivity.
Qed.

(** The epoch loop writes the epochs' journals one after the other. *)
Lemma epochs_journal d idxs l : forall w w',
  for_each l (epoch_body d idxs) w = (Ok tt, w') ->
  journal (trace w') = journal (trace w) ++ flat_map (epoch_journal (opt w) idxs) l /\
  opt w' = opt w.
Proof.
  induction l as [|epoch l IH]; intros w w' H; simpl in H.
  - inversion H; subst. rewrite app_nil_r. auto.
  - apply bind_ok in H as ([] & w1 & H1 & H).
    framed (epoch_body_same_opt d idxs epoch w) H1. unfold same_opt in P.
    apply epoch_body_journal in H1. apply IH in H as [H Ho].
    rewrite H, H1, P, Ho. simpl. rewrite <- app_assoc. auto.
Qed.

Lemma finish_journal w w' :
  finish w = (Ok tt, w') ->
  journal (trace w') = journal (trace w) ++ [final_entry (opt w)].
Proof.
  unfold finish, torch_save, read_model, bind, gets, raise, ret, emit, modify. simpl.
  destruct (model w) as [m|]; simpl; [|discriminate].
  destruct (file_creatable _ _); [|discriminate].
  intros H. inversion H; subst. simpl. rewrite !journal_app. simpl.
  rewrite app_nil_r. reflexivity.
Qed.

Lemma range_In n e : In e (range n) <-> 0 <= e < n.
Proof.
  unfold range. rewrite in_map_iff. split.
  - intros (k & <- & Hk). apply in_seq in Hk. lia.
  - intros H. exists (Z.to_nat e). split; [lia|]. apply in_seq. lia.
Qed.

(** The journal of a completed run: the epochs in order, then the final
    file. *)
Lemma main_journal date cuda_available w w' :
  main date cuda_available w = (Ok tt, w') ->
  exists idxs,
    List.length idxs = 3%nat /\
    journal (trace w')
    = journal (trace w)
      ++ flat_map (epoch_journal (opt w') idxs) (range (epochs (opt w')))
      ++ [final_entry (opt w')].
Proof.
  intros H. unfold main in H.
  apply bind_ok in H as ([d idxs] & w1 & H1 & H).
  apply bind_ok in H as ([] & w2 & H2 & H3).
  unfold training in H2. apply bind_ok in H2 as (o & w1' & Ho & H2).
  inversion Ho; subst o w1'; clear Ho. simpl fst in H2. simpl snd in H2.
  framed (prepare_quiet date cuda_available w) H1. apply journal_quiet in P.
  framed (finish_same_opt w2) H3. unfold same_opt in P0.
  apply prepare_ok in H1 as (wa & wb & wc & _ & _ & Hs).
  apply sample_test_idxs_ok in Hs as [_ Hlen].
  apply epochs_journal in H2 as [H2 Hopt]. apply finish_journal in H3.
  exists idxs. split; [exact Hlen|].
  rewrite H3, H2, P, P0, Hopt. rewrite <- app_assoc. reflexivity.
Qed.

(** C5 (as amended): with [test_idxs] the three indices line 111 sampled,
    every epoch that completes, in a run that goes on to complete or in one
    that raises later, has logged at that epoch's step 'Train Error', then
    the checkpoint if one is due, then 'Test Error', then the image grid of
    each sampled index: the images are logged whether or not the epoch wrote
    a checkpoint.  Hence whenever the first [n] epochs of the loop of line
    112 have completed, both scalars and all three images of each of them
    are in the log. *)
Theorem C5_every_epoch_logs_scalars_and_images :
  forall (date : string) (cuda_available : bool) (w w0 : World)
         (d : loaders) (test_idxs : list nat),
    prepare date cuda_available w = (Ok (d, test_idxs), w0) ->
    List.length test_idxs = 3%nat /\
    (forall (epoch : Z) (w1 w2 : World),
       epoch_body d test_idxs epoch w1 = (Ok tt, w2) ->
       exists checkpoint,
         journal (trace w2)
         = journal (trace w1)
           ++ [ScalarLogged "Train Error" epoch]
           ++ checkpoint
           ++ [ScalarLogged "Test Error" epoch]
           ++ map (fun idx => ImageLogged (image_tag idx) epoch) test_idxs /\
         (checkpoint = [] \/ exists dir file, checkpoint = [FileSaved dir file])) /\
    (forall (n : Z) (w1 : World),
       for_each (range n) (epoch_body d test_idxs) w0 = (Ok tt, w1) ->
       forall epoch, 0 <= epoch < n ->
         In (ScalarLogged "Train Error" epoch) (journal (trace w1)) /\
         In (ScalarLogged "Test Error" epoch) (journal (trace w1)) /\
         forall idx, In idx test_idxs ->
           In (ImageLogged (image_tag idx) epoch) (journal (trace w1))).
Proof.
  intros date cuda_available w w0 d idxs Hp. split; [|split].
  - apply prepare_ok in Hp as (wa & wb & wc & _ & _ & Hs).
    apply sample_test_idxs_ok in Hs as [_ Hlen]. exact Hlen.
  - intros epoch w1 w2 H. apply epoch_body_journal in H.
    exists (checkpoint_entry (opt w1) epoch). split; [exact H|].
    unfold checkpoint_entry. destruct (checkpoint_every (opt w1)) as [c|s]; [|auto].
    destruct ((epoch + 1) mod c =? 0); eauto.
  - intros n w1 H epoch He. apply epochs_journal in H as [HJ _].
    assert (Hin : forall x, In x (epoch_journal (opt w0) idxs epoch) ->
                            In x (journal (trace w1))).
    { intros x Hx. rewrite HJ. apply in_or_app. right.
      apply in_flat_map. exists epoch. split; [apply range_In; exact He|exact Hx]. }
    unfold epoch_journal in Hin. split; [|split].
    + apply Hin. simpl. auto.
    + apply Hin. simpl. right. apply in_or_app. right. simpl. auto.
    + intros idx Hidx. apply Hin. simpl. right. apply in_or_app. right. simpl. right.
      apply in_map_iff. exists idx. auto.
Qed.

End Journal.

(* ===================================================================== *)
(** ** The checkpoint interval given on the command line *)

Section CheckpointInterval.

Context {F : Framework}.

Local Open Scope list_scope.
Local Open Scope Z_scope.
Local Open Scope py_scope.

Lemma quiet_no_save e : quiet e -> no_save e.
Proof. destruct e; simpl; auto. Qed.

Lemma journal_no_save w w' :
  extends no_save w w' ->
  forall d f, In (FileSaved d f) (journal (trace w')) -> In (FileSaved d f) (journal (trace w)).
Proof.
  intros (t & E & H) d f. rewrite E, journal_app. intros Hin.
  apply in_app_or in Hin as [Hin|Hin]; [exact Hin|]. exfalso.
  unfold journal in Hin. apply in_flat_map in Hin as (e & He & Hin).
  rewrite Forall_forall in H. specialize (H e He).
  destruct e; simpl in *; try contradiction;
    destruct Hin as [Hin|[]]; discriminate.
Qed.

(** Line 130 with a str on the right of [%]. *)
Lemma checkpointing_str epoch w s :
  checkpoint_every (opt w) = PyStr s ->
  checkpointing epoch w = (Raise TypeError 130, w).
Proof.
  intros H. unfold checkpointing, bind, gets, raise. simpl. rewrite H. reflexivity.
Qed.

Lemma log_train_error_no_save tl cum epoch :
  preserves (extends no_save) (log_train_error tl cum epoch).
Proof. frame. Qed.

Lemma train_epoch_no_save tl epoch : preserves (extends no_save) (train_epoch tl epoch).
Proof.
  eapply preserves_weaken; [|apply train_epoch_quiet].
  intros w w'. apply extends_weaken. exact quiet_no_save.
Qed.

Lemma prepare_no_save date cuda_available :
  preserves (extends no_save) (prepare date cuda_available).
Proof.
  eapply preserves_weaken; [|apply prepare_quiet].
  intros w w'. apply extends_weaken. exact quiet_no_save.
Qed.

(** With a str interval no epoch gets past line 130, and nothing is saved
    on the way there. *)
Lemma epoch_body_str d idxs epoch w s :
  checkpoint_every (opt w) = PyStr s ->
  (exists e l, fst (epoch_body d idxs epoch w) = Raise e l) /\
  extends no_save w (snd (epoch_body d idxs epoch w)).
Proof.
  intros Hs. unfold epoch_body.
  pose proof (train_epoch_no_save (train_loader d) epoch w) as P1.
  pose proof (train_epoch_same_opt (train_loader d) epoch w) as O1.
  destruct (train_epoch (train_loader d) epoch w) as [[cum|e l] w1] eqn:E1; simpl in *.
  - rewrite (bind_run _ _ _ _ _ E1). cbv beta.
    pose proof (log_train_error_no_save (train_loader d) cum epoch w1) as P2.
    pose proof (log_train_error_same_opt (train_loader d) cum epoch w1) as O2.
    destruct (log_train_error (train_loader d) cum epoch w1) as [[[]|e l] w2] eqn:E2;
      simpl in *.
    + rewrite (bind_run _ _ _ _ _ E2). cbv beta.
      assert (E3 : checkpointing epoch w2 = (Raise TypeError 130, w2)).
      { apply (checkpointing_str epoch w2 s). unfold same_opt in *. congruence. }
      rewrite (bind_raise _ _ _ _ _ _ E3). simpl.
      split; [eauto|]. etransitivity; eassumption.
    + rewrite (bind_raise _ _ _ _ _ _ E2). simpl.
      split; [eauto|]. etransitivity; eassumption.
  - rewrite (bind_raise _ _ _ _ _ _ E1). simpl. split; [eauto|exact P1].
Qed.

Lemma range_pos n : 0 < n -> exists rest, range n = 0 :: rest.
Proof.
  intros H. unfold range. destruct (Z.to_nat n) as [|k] eqn:E; [lia|].
  simpl. eauto.
Qed.

Lemma training_str d idxs w s :
  checkpoint_every (opt w) = PyStr s -> 0 < epochs (opt w) ->
  (exists e l, fst (training d idxs w) = Raise e l) /\
  extends no_save w (snd (training d idxs w)).
Proof.
  intros Hs He. unfold training, bind, gets. simpl.
  destruct (range_pos _ He) as (rest & ->). simpl. unfold bind.
  destruct (epoch_body_str d idxs 0 w s Hs) as ((e & l & Hr) & Hx).
  destruct (epoch_body d idxs 0 w) as [[[]|e' l'] w1]; simpl in *.
  - discriminate Hr.
  - split; [eauto|exact Hx].
Qed.

Lemma prepare_seed_filled date cuda_available :
  preserves seed_filled (prepare date cuda_available).
Proof.
  assert (W : forall A (m : M A), preserves same_opt m -> preserves seed_filled m)
    by (intros A m; apply preserves_weaken; exact same_opt_seed_filled).
  unfold prepare. use preserves_bind; [|intros _; use preserves_bind; [|intros _]].
  - apply W, open_writer_same_opt.
  - exact seeding_seed_filled.
  - apply W, assemble_same_opt.
Qed.

Lemma seed_filled_fields w w' :
  seed_filled w w' ->
  checkpoint_every (opt w') = checkpoint_every (opt w) /\ epochs (opt w') = epochs (opt w).
Proof. intros [E|(_ & s & _ & E)]; rewrite E; auto. Qed.

(** The whole script with a str interval and at least one epoch. *)
Lemma main_str date cuda_available w s :
  checkpoint_every (opt w) = PyStr s -> 0 < epochs (opt w) ->
  (exists e l, fst (main date cuda_available w) = Raise e l) /\
  extends no_save w (snd (main date cuda_available w)).
Proof.
  intros Hs He. unfold main.
  pose proof (prepare_no_save date cuda_available w) as P1.
  pose proof (prepare_seed_filled date cuda_available w) as S1.
  destruct (prepare date cuda_available w) as [[[d idxs]|e l] w1] eqn:E1; simpl in *.
  - rewrite (bind_run _ _ _ _ _ E1). cbv beta. simpl fst. simpl snd.
    apply seed_filled_fields in S1 as [Sc Se].
    destruct (training_str d idxs w1 s) as ((e & l & Hr) & Hx); [congruence|lia|].
    destruct (training d idxs w1) as [[[]|e' l'] w2] eqn:E2; simpl in *.
    + discriminate Hr.
    + rewrite (bind_raise _ _ _ _ _ _ E2). simpl.
      split; [eauto|etransitivity; eassumption].
  - rewrite (bind_raise _ _ _ _ _ _ E1). simpl. split; [eauto|exact P1].
Qed.

(** C1: a checkpoint interval given on the command line reaches line 130
    as a str (line 26 has no [type=int], unlike lines 18, 19 and 22), so
    with at least one epoch the run ends in an exception and saves no file
    at all: neither a periodic checkpoint nor the final one.  The claim has
    the files written for every run. *)
Theorem C1_interval_from_command_line_saves_nothing :
  forall (c : CommandLine) (env : environment) (s : string) (o : Namespace),
    arg_checkpoint_every c = Some s ->
    parse_args c = Ok o ->
    0 < epochs o ->
    exists e l w,
      script c env = (Raise e l, Some w) /\
      forall d f, ~ In (FileSaved d f) (journal (trace w)).
Proof.
  intros c env s o Hc Hp He. unfold script. rewrite Hp.
  assert (Hs : checkpoint_every o = PyStr s).
  { revert Hp. unfold parse_args.
    destruct (negb _); [discriminate|]. destruct (negb _); [discriminate|].
    intros H. inversion H. simpl. rewrite Hc. reflexivity. }
  destruct (main_str (env_date env) (env_cuda_available env) (boot env o) s Hs He)
    as ((e & l & Hr) & Hx).
  destruct (main (env_date env) (env_cuda_available env) (boot env o)) as [r w] eqn:E.
  simpl in *. subst r. exists e, l, w. split; [reflexivity|].
  intros d f Hin. apply (journal_no_save _ _ Hx) in Hin. simpl in Hin. exact Hin.
Qed.

End CheckpointInterval.

(* ===================================================================== *)
(** ** The namespace over a whole process *)

Section NamespaceFixed.

Context {F : Framework}.

Local Open Scope Z_scope.

(** C6 (as amended): over a whole process the namespace that
    [parse_args] returned changes in one way only: when no seed was given,
    line 44 stores a seed between 1 and 10000 in [opt.manual_seed], once;
    every other field keeps its parsed value to the end of the run (or to
    the exception that ends it), and with a seed given no field changes. *)
Theorem C6_namespace_changes_only_by_seed_fill :
  forall (c : CommandLine) (env : environment) (o : Namespace)
         (r : outcome unit) (w : World),
    parse_args c = Ok o ->
    script c env = (r, Some w) ->
    match manual_seed o with
    | Some _ => opt w = o
    | None => exists s, 1 <= s <= 10000 /\ opt w = set_manual_seed (Some s) o
    end.
Proof.
  intros c env o r w Hp Hs. unfold script in Hs. rewrite Hp in Hs.
  pose proof (main_after_seeding (env_date env) (env_cuda_available env) (boot env o)) as Ha.
  destruct (main (env_date env) (env_cuda_available env) (boot env o)) as [r' w'].
  change (snd (r', w')) with w' in Ha.
  inversion Hs; subst r' w'; clear Hs. unfold same_opt in Ha.
  pose proof (open_writer_same_opt (env_date env) (boot env o)) as Ho.
  unfold same_opt in Ho. change (opt (boot env o)) with o in Ho.
  pose proof (seeding_fills (snd (open_writer (env_date env) (boot env o)))) as Hf.
  rewrite Ho in Hf.
  destruct (manual_seed o) as [s|].
  - congruence.
  - destruct Hf as (s & Hr & E). exists s. split; [exact Hr|congruence].
Qed.

(** The final save needs a directory the script never creates: line 49
    makes [checkpoint_dir], nothing makes [final_dir]. *)
Lemma finish_missing_dir w m :
  model w = Some m ->
  file_creatable (dirs w) (path_join (final_dir (opt w)) (run_tag (opt w) ++ "_final.pt"))
  = false ->
  fst (finish w) = Raise torch_save_error 155.
Proof.
  intros Hm Hd. unfold finish, torch_save, read_model, bind, gets, raise, ret, emit, modify.
  simpl. rewrite Hm. simpl. rewrite Hd. reflexivity.
Qed.

End NamespaceFixed.

(* ===================================================================== *)
(** ** Further properties: start-up, modes, failures, files, completion *)

Section Startup.

Context {F : Framework}.

Local Open Scope list_scope.
Local Open Scope Z_scope.
Local Open Scope py_scope.

#[export] Instance same_dirs_preorder : PreOrder same_dirs.
Proof. split; unfold same_dirs; [intros w|intros a b c]; congruence. Qed.

Lemma drawn_seed_in_range r : 1 <= r <= 10000 -> torch_seed_in_range r = true.
Proof.
  intros H. unfold torch_seed_in_range. apply andb_true_iff.
  change (2 ^ 63) with 9223372036854775808.
  change (2 ^ 64) with 18446744073709551616.
  split; apply Z.leb_le; lia.
Qed.

(** Lines 43-47 complete on a seed torch takes. *)
Lemma seeding_ok w : seed_accepted (opt w) -> fst (seeding w) = Ok tt.
Proof.
  unfold seed_accepted, seeding, bind, gets, emit, modify, random_draw, raise, ret. simpl.
  destruct (manual_seed (opt w)) as [s|] eqn:E; simpl; intros Hr.
  - rewrite E. simpl. rewrite Hr. reflexivity.
  - pose proof (randint_range 1 10000 (py_rng w) ltac:(lia)) as Hd.
    destruct (random_randint 1 10000 (py_rng w)) as [r g]. simpl in *.
    rewrite (drawn_seed_in_range r Hd). reflexivity.
Qed.

(** On any other, line 46 has seeded [random] and line 47 raises. *)
Lemma seeding_bad w s :
  manual_seed (opt w) = Some s -> torch_seed_in_range s = false ->
  fst (seeding w) = Raise RuntimeError 47 /\
  opt (snd (seeding w)) = opt w /\
  py_rng (snd (seeding w)) = random_seed s /\
  torch_rng (snd (seeding w)) = torch_rng w /\
  trace (snd (seeding w)) = trace w ++ [EvPrint (PrSeed (Some s))].
Proof.
  intros E Hr. unfold seeding, bind, gets, emit, modify, random_draw, raise, ret. simpl.
  rewrite E. simpl. rewrite E. simpl. rewrite Hr. simpl. auto.
Qed.

(** Lines 36-41 always complete; line 43 takes over. *)
Lemma main_after_writer date cuda_available w :
  main date cuda_available w
  = (p <- (seeding ;;; assemble cuda_available) ;; training (fst p) (snd p) ;;; finish)
      (snd (open_writer date w)).
Proof. reflexivity. Qed.

(** On a seed torch takes lines 35-47 complete; line 49 takes over. *)
Lemma prepare_unfold date cuda_available w :
  seed_accepted (opt w) ->
  prepare date cuda_available w
  = assemble cuda_available (snd (seeding (snd (open_writer date w)))).
Proof.
  intros Ha. unfold prepare. unfold bind at 1.
  pose proof (open_writer_ok date w) as Ho.
  pose proof (open_writer_same_opt date w) as Eo. unfold same_opt in Eo.
  destruct (open_writer date w) as [[[]|e l] w1]; [|discriminate Ho].
  simpl in Eo. rewrite <- Eo in Ha.
  unfold bind at 1. pose proof (seeding_ok w1 Ha) as Hs. simpl snd.
  destruct (seeding w1) as [[[]|e l] w2]; [reflexivity|discriminate Hs].
Qed.

(** What lines 36-40 leave: the log directory and the first two events. *)
Lemma open_writer_run date w :
  opt (snd (open_writer date w)) = opt w /\
  dirs (snd (open_writer date w)) = log_dir_name (opt w) date :: dirs w /\
  trace (snd (open_writer date w))
  = trace w ++ [EvAddText "Options" (opt w) 0; EvPrint (PrOpt (opt w))].
Proof.
  unfold open_writer, bind, gets, emit, modify, ret. simpl.
  rewrite <- app_assoc. auto.
Qed.

Lemma seeding_any : preserves (extends (fun _ => True)) seeding.
Proof. frame. Qed.

Lemma assemble_any c : preserves (extends (fun _ => True)) (assemble c).
Proof. frame. Qed.

Lemma training_any d idxs : preserves (extends (fun _ => True)) (training d idxs).
Proof. frame. Qed.

Lemma finish_any : preserves (extends (fun _ => True)) finish.
Proof. frame. Qed.

(** The trace of a whole run, whatever its outcome, starts with what line
    40 and 41 wrote. *)
Lemma main_trace_head date cuda_available w :
  exists t,
    trace (snd (main date cuda_available w))
    = trace w ++ EvAddText "Options" (opt w) 0 :: EvPrint (PrOpt (opt w)) :: t.
Proof.
  assert (H : preserves (extends (fun _ => True))
                (p <- (seeding ;;; assemble cuda_available) ;;
                 training (fst p) (snd p) ;;; finish)).
  { use preserves_bind.
    - use preserves_bind; [apply seeding_any|intros _; apply assemble_any].
    - intros p. use preserves_bind; [apply training_any|intros _; apply finish_any]. }
  specialize (H (snd (open_writer date w))).
  rewrite main_after_writer.
  destruct (open_writer_run date w) as (_ & _ & Et).
  destruct H as (t & E & _). exists t. rewrite E, Et, <- app_assoc. reflexivity.
Qed.

End Startup.

Section StartupFacts.

Context {F : Framework}.

Local Open Scope list_scope.
Local Open Scope Z_scope.
Local Open Scope py_scope.

Lemma parse_args_seed c o : parse_args c = Ok o -> manual_seed o = arg_manual_seed c.
Proof.
  unfold parse_args. destruct (negb _); [discriminate|]. destruct (negb _); [discriminate|].
  intros H. inversion H. reflexivity.
Qed.

(** X1: the options text written to the log at step 0 (and printed) is the
    namespace exactly as parsed, seed field included: lines 40-41 run before
    line 44 fills in a missing seed, so without [--manual_seed] the log shows
    no seed although the run uses one. *)
Theorem X1_options_logged_as_parsed :
  forall (c : CommandLine) (env : environment) (o : Namespace)
         (r : outcome unit) (w : World),
    parse_args c = Ok o ->
    script c env = (r, Some w) ->
    manual_seed o = arg_manual_seed c /\
    exists t, trace w = EvAddText "Options" o 0 :: EvPrint (PrOpt o) :: t.
Proof.
  intros c env o r w Hp Hs. split; [apply parse_args_seed; exact Hp|].
  unfold script in Hs. rewrite Hp in Hs.
  destruct (main_trace_head (env_date env) (env_cuda_available env) (boot env o))
    as (t & E).
  destruct (main (env_date env) (env_cuda_available env) (boot env o)) as [r' w'].
  inversion Hs; subst. exists t. exact E.
Qed.

(** X2: lines 43-47 complete exactly on a seed [torch.manual_seed]
    takes: none given, or one within [-2^63, 2^64-1].  Then
    [opt.manual_seed] holds a seed (the given one, or one between 1 and
    10000), both generators are in the state that seed determines, and the
    seed printed is that seed.  On any other seed the process stops on line
    47 with [RuntimeError], the seed printed and [random] seeded, torch's
    generator untouched. *)
Theorem X2_generators_seeded_from_namespace :
  forall (w : World),
    (fst (seeding w) = Ok tt <-> seed_accepted (opt w)) /\
    (seed_accepted (opt w) ->
     exists s,
       manual_seed (opt (snd (seeding w))) = Some s /\
       (manual_seed (opt w) = Some s \/ (manual_seed (opt w) = None /\ 1 <= s <= 10000)) /\
       py_rng (snd (seeding w)) = random_seed s /\
       torch_rng (snd (seeding w)) = torch_manual_seed s /\
       trace (snd (seeding w)) = trace w ++ [EvPrint (PrSeed (Some s))]) /\
    (forall s,
       manual_seed (opt w) = Some s -> torch_seed_in_range s = false ->
       fst (seeding w) = Raise RuntimeError 47 /\
       opt (snd (seeding w)) = opt w /\
       py_rng (snd (seeding w)) = random_seed s /\
       torch_rng (snd (seeding w)) = torch_rng w /\
       trace (snd (seeding w)) = trace w ++ [EvPrint (PrSeed (Some s))]).
Proof.
  intros w. split; [|split].
  - split; [|apply seeding_ok].
    intros Hok. unfold seed_accepted.
    destruct (manual_seed (opt w)) as [s|] eqn:E; [|exact I].
    destruct (torch_seed_in_range s) eqn:Hr; [reflexivity|].
    destruct (seeding_bad w s E Hr) as [Hb _]. rewrite Hb in Hok. discriminate Hok.
  - unfold seed_accepted, seeding, bind, gets, emit, modify, random_draw, raise, ret. simpl.
    destruct (manual_seed (opt w)) as [s|] eqn:E; simpl; intros Hr.
    + rewrite E. simpl. rewrite Hr. simpl. exists s. repeat split; auto.
    + pose proof (randint_range 1 10000 (py_rng w) ltac:(lia)) as Hd.
      destruct (random_randint 1 10000 (py_rng w)) as [r g]. simpl in *.
      rewrite (drawn_seed_in_range r Hd). simpl. exists r. repeat split; auto.
  - intros s E Hr. exact (seeding_bad w s E Hr).
Qed.

(** X3: the two subsets [random_split] returns on lines 71 and 75
    partition the dataset: every index below [len(dataset)] is in exactly one
    of them, once. *)
Theorem X3_split_is_a_partition :
  forall (ds : dataset Sample) (line : nat) (w : World),
    exists tr te w',
      random_split ds (train_size (ds_len ds), test_size (ds_len ds)) line w
      = (Ok (tr, te), w') /\
      NoDup (indices tr ++ indices te) /\
      (forall i, In i (indices tr ++ indices te) <-> (i < ds_len ds)%nat) /\
      (forall i, In i (indices tr) -> ~ In i (indices te)).
Proof.
  intros ds line w.
  destruct (random_split_sizes ds line w) as (tr & te & w' & E & _ & _ & _ & _ & P).
  exists tr, te, w'. split; [exact E|].
  assert (N : NoDup (indices tr ++ indices te)).
  { apply (Permutation_NoDup (Permutation_sym P)). apply seq_NoDup. }
  split; [exact N|]. split.
  - intros i. split; intros H.
    + apply (Permutation_in _ P) in H. apply in_seq in H. lia.
    + apply (Permutation_in _ (Permutation_sym P)). apply in_seq. lia.
  - intros i Hi Hte. revert N Hi Hte. generalize (indices te). generalize (indices tr).
    induction l as [|x l IH]; intros l' N Hi Hte; [contradiction|].
    simpl in N. inversion N; subst. destruct Hi as [->|Hi].
    + apply H1. apply in_or_app. right. exact Hte.
    + eapply IH; eassumption.
Qed.

End StartupFacts.

Section Modes.

Context {F : Framework}.

Local Open Scope list_scope.
Local Open Scope Z_scope.
Local Open Scope py_scope.

Lemma extends_one P (w w' : World) e :
  trace w' = trace w ++ [e] -> P e -> extends P w w'.
Proof. intros E H. exists [e]. split; [exact E|repeat constructor; exact H]. Qed.

(** Lines 116-123 in training mode with gradient tracking on: both stay,
    and the forward pass is a training pass. *)
Lemma optimize_batch_mode batch w :
  grad_enabled w = true -> in_mode true w ->
  grad_enabled (snd (optimize_batch batch w)) = true /\
  in_mode true (snd (optimize_batch batch w)) /\
  extends training_pass w (snd (optimize_batch batch w)).
Proof.
  intros Hg Hm.
  unfold optimize_batch, read_model, write_model, model_call, read_criterion,
    read_optimizer, bind, gets, modify, emit, raise, ret. simpl.
  destruct (model w) as [m|] eqn:Em; simpl.
  - pose proof (Hm m Em) as Ht.
    assert (Hpass : training_pass (EvForward (grad_enabled w) (m_training m)))
      by (simpl; auto).
    destruct (criterion w) as [c|]; simpl.
    + rewrite Hg. simpl. destruct (optimizer w) as [s|]; simpl.
      * destruct (Adam_step _ _ _) as [p' s']. simpl.
        split; [exact Hg|]. split.
        -- intros m' E. inversion E; subst. simpl. exact Ht.
        -- eapply extends_one; [reflexivity|]. rewrite <- Hg. exact Hpass.
      * split; [exact Hg|]. split.
        -- intros m' E. inversion E; subst. simpl. exact Ht.
        -- eapply extends_one; [reflexivity|]. rewrite <- Hg. exact Hpass.
    + split; [exact Hg|]. split.
      * intros m' E. inversion E; subst. simpl. exact Ht.
      * eapply extends_one; [reflexivity|]. exact Hpass.
  - split; [exact Hg|]. split; [exact Hm|]. apply extends_quiet. reflexivity.
Qed.

Lemma train_step_mode epoch ib cum w :
  grad_enabled w = true -> in_mode true w ->
  grad_enabled (snd (train_step epoch ib cum w)) = true /\
  in_mode true (snd (train_step epoch ib cum w)) /\
  extends training_pass w (snd (train_step epoch ib cum w)).
Proof.
  intros Hg Hm. destruct ib as [i batch]. unfold train_step, bind.
  destruct (optimize_batch_mode batch w Hg Hm) as (G & I & X).
  destruct (optimize_batch batch w) as [[loss|e l] w1]; simpl in *.
  - split; [exact G|]. split; [exact I|].
    etransitivity; [exact X|]. eapply extends_one; [reflexivity|exact Logic.I].
  - auto.
Qed.

Lemma train_loop_mode epoch ibs : forall cum w,
  grad_enabled w = true -> in_mode true w ->
  grad_enabled (snd (for_fold ibs cum (train_step epoch) w)) = true /\
  in_mode true (snd (for_fold ibs cum (train_step epoch) w)) /\
  extends training_pass w (snd (for_fold ibs cum (train_step epoch) w)).
Proof.
  induction ibs as [|ib ibs IH]; intros cum w Hg Hm; simpl.
  - split; [exact Hg|]. split; [exact Hm|reflexivity].
  - unfold bind. destruct (train_step_mode epoch ib cum w Hg Hm) as (G & I & X).
    destruct (train_step epoch ib cum w) as [[c|e l] w1]; simpl in *.
    + destruct (IH c w1 G I) as (G' & I' & X').
      split; [exact G'|]. split; [exact I'|etransitivity; eassumption].
    + auto.
Qed.

Lemma set_training_mode b line w :
  in_mode b (snd (set_training b line w)) /\
  grad_enabled (snd (set_training b line w)) = grad_enabled w /\
  trace (snd (set_training b line w)) = trace w /\
  torch_rng (snd (set_training b line w)) = torch_rng w.
Proof.
  unfold set_training, read_model, write_model, bind, gets, modify, raise, ret. simpl.
  destruct (model w) as [m|] eqn:E; simpl.
  - repeat split. intros m' H. inversion H. reflexivity.
  - repeat split. intros m' H. congruence.
Qed.

(** X4: every forward pass of the training loop runs in training mode with
    gradient tracking on, whatever mode the previous epoch's evaluation left
    the model in: line 113 switches back before the first batch. *)
Theorem X4_training_passes_in_training_mode :
  forall (tl : JoinedDataLoader) (epoch : Z) (w : World),
    grad_enabled w = true ->
    extends training_pass w (snd (train_epoch tl epoch w)) /\
    grad_enabled (snd (train_epoch tl epoch w)) = true.
Proof.
  intros tl epoch w Hg.
  remember (snd (train_epoch tl epoch w)) as wf eqn:Ewf.
  unfold train_epoch in Ewf. unfold bind at 1 in Ewf.
  destruct (set_training_mode true 113 w) as (I1 & G1 & T1 & _).
  destruct (set_training true 113 w) as [[[]|e l] w1]; simpl in *.
  - unfold bind at 1 in Ewf.
    destruct (joined_iter_run tl w1) as (w2 & E & S & _). rewrite E in Ewf.
    destruct S as (_ & _ & G2 & M2 & _ & _ & _ & T2).
    assert (I2 : in_mode true w2) by (intros m H; apply I1; congruence).
    destruct (train_loop_mode epoch (enumerate (yielded tl w1)) scalar_zero w2)
      as (G & _ & X); [congruence|exact I2|].
    rewrite <- Ewf in G, X. split; [|exact G].
    destruct X as (t & Et & Ht). exists t. split; [congruence|exact Ht].
  - subst wf. split; [apply extends_quiet; exact T1|congruence].
Qed.

Lemma test_step_mode acc batch w :
  in_mode false w ->
  in_mode false (snd (test_step acc batch w)) /\
  extends eval_pass w (snd (test_step acc batch w)).
Proof.
  intros Hm.
  unfold test_step, with_no_grad, model_call, read_model, read_criterion,
    bind, gets, emit, modify, raise, ret. simpl.
  destruct (model w) as [m|] eqn:Em; simpl.
  - pose proof (Hm m Em) as Ht.
    destruct (criterion w) as [c|]; simpl.
    + split; [intros m' E; simpl in E; apply Hm; congruence|].
      eapply extends_one; [reflexivity|]. simpl. auto.
    + split; [intros m' E; simpl in E; apply Hm; congruence|].
      eapply extends_one; [reflexivity|]. simpl. auto.
  - split; [intros m' E; simpl in E; congruence|]. apply extends_quiet. reflexivity.
Qed.

Lemma test_loop_mode batches : forall acc w,
  in_mode false w ->
  extends eval_pass w (snd (for_fold batches acc (fun b a => test_step a b) w)).
Proof.
  induction batches as [|b batches IH]; intros acc w Hm; simpl.
  - reflexivity.
  - unfold bind. destruct (test_step_mode acc b w Hm) as (I & X).
    destruct (test_step acc b w) as [[a|e l] w1]; simpl in *.
    + etransitivity; [exact X|apply IH; exact I].
    + exact X.
Qed.

(** X5: every forward pass of the test loop runs in eval mode with
    gradient tracking off, whether the evaluation completes or raises. *)
Theorem X5_test_passes_in_eval_mode :
  forall (tl : JoinedDataLoader) (epoch : Z) (w : World),
    extends eval_pass w (snd (evaluate tl epoch w)).
Proof.
  intros tl epoch w. unfold evaluate. unfold bind at 1.
  destruct (set_training_mode false 134 w) as (I1 & _ & T1 & _).
  destruct (set_training false 134 w) as [[[]|e l] w1]; simpl in *.
  - unfold bind at 1.
    destruct (joined_iter_run tl w1) as (w2 & E & S & _). rewrite E.
    destruct S as (_ & _ & _ & M2 & _ & _ & _ & T2).
    assert (I2 : in_mode false w2) by (intros m H; apply I1; congruence).
    pose proof (test_loop_mode (yielded tl w1) [] w2 I2) as X.
    unfold bind.
    destruct (for_fold (yielded tl w1) [] (fun b a => test_step a b) w2)
      as [[test_loss|e l] w3]; simpl in *.
    + assert (X3 : extends eval_pass w w3).
      { destruct X as (t & Et & Ht). exists t. split; [congruence|exact Ht]. }
      destruct (List.length test_loss =? 0)%nat; simpl.
      * exact X3.
      * etransitivity; [exact X3|]. eapply extends_one; [reflexivity|exact Logic.I].
    + destruct X as (t & Et & Ht). exists t. split; [congruence|exact Ht].
  - apply extends_quiet. exact T1.
Qed.

(** X6: with model and loss bound and at least one test batch, the
    evaluation completes, leaves the model in eval mode, and its last write
    is 'Test Error' at the epoch's step: the sum of the per-batch test losses,
    taken in eval mode, divided by their number (the number of batches the
    pass yielded, not [len(test_loader)]). *)
Theorem X6_test_error_is_mean_test_loss :
  forall (tl : JoinedDataLoader) (epoch : Z) (w : World) (m : module) (c : criterion_obj),
    model w = Some m ->
    criterion w = Some c ->
    yielded tl w <> [] ->
    let m_eval := mkModule (m_arch m) (m_params m) false (m_grads m) (m_device m) in
    let losses := map (test_loss_of m_eval c) (yielded tl w) in
    exists w' t,
      evaluate tl epoch w = (Ok tt, w') /\
      model w' = Some m_eval /\
      trace w' = trace w ++ t
                 ++ [EvAddScalar "Test Error"
                       (scalar_div (scalar_sum losses)
                                   (Z.of_nat (List.length (yielded tl w)))) epoch].
Proof.
  intros tl epoch w m c Hm Hc Hy m_eval losses. unfold evaluate.
  rewrite (bind_run _ _ _ _ _ (set_training_run false 134 w m Hm)). cbv beta.
  fold m_eval.
  match goal with |- context [bind _ _ ?x] => set (w1 := x) end.
  destruct (joined_iter_run tl w1) as (w2 & E & Hs & _).
  rewrite (bind_run _ _ _ _ _ E). cbv beta.
  assert (Ey : yielded tl w1 = yielded tl w) by (apply yielded_rng; reflexivity).
  rewrite Ey in *.
  destruct Hs as (_ & _ & _ & Hm2 & Hc2 & _ & _ & Ht2).
  destruct (test_loop_run (yielded tl w) [] w2 m_eval c
              ltac:(rewrite Hm2; reflexivity) ltac:(rewrite Hc2; exact Hc))
    as (w3 & El & Hm3 & _).
  pose proof (test_loop_quiet (yielded tl w) [] w2) as Q. rewrite El in Q.
  destruct Q as (t & Et & _). simpl in Et.
  rewrite (bind_run _ _ _ _ _ El). cbv beta. cbn [app]. fold losses.
  unfold losses at 1. rewrite length_map.
  destruct (yielded tl w) as [|b bs] eqn:Eb; [contradiction|].
  cbn [List.length Nat.eqb]. unfold emit, modify.
  eexists. exists t. split; [reflexivity|]. split; [exact Hm3|].
  simpl. rewrite Et, Ht2. unfold losses. rewrite length_map.
  rewrite <- app_assoc. reflexivity.
Qed.

End Modes.

Ltac frame_side ::=
  intros;
  first [ reflexivity
        | solve [unfold_relations; simpl; auto; congruence]
        | solve [apply extends_quiet; reflexivity]
        | solve [unfold same_dirs; simpl; auto] ].

Section Failures.

Context {F : Framework}.

Local Open Scope list_scope.
Local Open Scope Z_scope.
Local Open Scope py_scope.

Lemma bind_fst {A B : Type} (m : M A) (k : A -> M B) w a :
  fst (m w) = Ok a -> bind m k w = k a (snd (m w)).
Proof. unfold bind. destruct (m w) as [r w1]. simpl. intros ->. reflexivity. Qed.

Lemma bind_fst_raise {A B : Type} (m : M A) (k : A -> M B) w e l :
  fst (m w) = Raise e l -> bind m k w = (Raise e l, snd (m w)).
Proof. unfold bind. destruct (m w) as [r w1]. simpl. intros ->. reflexivity. Qed.

(** What line 44 may change is the seed field and nothing else. *)
Lemma seed_filled_all w w' :
  seed_filled w w' ->
  batch_size (opt w') = batch_size (opt w) /\
  epochs (opt w') = epochs (opt w) /\
  checkpoint_every (opt w') = checkpoint_every (opt w) /\
  checkpoint_dir (opt w') = checkpoint_dir (opt w) /\
  final_dir (opt w') = final_dir (opt w) /\
  run_tag (opt w') = run_tag (opt w) /\
  model_type (opt w') = model_type (opt w) /\
  loss (opt w') = loss (opt w) /\
  data_path (opt w') = data_path (opt w).
Proof. intros [E|(_ & s & _ & E)]; rewrite E; repeat split. Qed.

Lemma seed_filled_device w w' :
  seed_filled w w' ->
  cuda (opt w') = cuda (opt w) /\
  cuda_idx (opt w') = cuda_idx (opt w) /\
  lr (opt w') = lr (opt w).
Proof. intros [E|(_ & s & _ & E)]; rewrite E; repeat split. Qed.

Lemma seeded_seed_filled date w : seed_filled w (seeded date w).
Proof.
  unfold seeded. etransitivity; [|apply seeding_seed_filled].
  left. apply open_writer_same_opt.
Qed.

Lemma seeding_same_dirs : preserves same_dirs seeding.
Proof. frame. Qed.

Lemma seeded_dirs date w : dirs (seeded date w) = log_dir_name (opt w) date :: dirs w.
Proof.
  unfold seeded. rewrite (seeding_same_dirs (snd (open_writer date w))).
  apply open_writer_run.
Qed.

Lemma main_unfold date cuda_available w :
  seed_accepted (opt w) ->
  main date cuda_available w
  = (p <- assemble cuda_available ;; training (fst p) (snd p) ;;; finish) (seeded date w).
Proof.
  intros Ha. unfold main. unfold bind at 1 3. rewrite prepare_unfold by exact Ha.
  reflexivity.
Qed.

(** Lines 49-53 with a directory name and a device [torch.device] takes. *)
Lemma pick_device_run cuda_available w :
  checkpoint_dir (opt w) <> ""%string ->
  device_accepted (opt w) ->
  fst (pick_device cuda_available w)
  = Ok (if cuda (opt w) then Cuda (cuda_idx (opt w)) else Cpu) /\
  dirs (snd (pick_device cuda_available w)) = checkpoint_dir (opt w) :: dirs w /\
  opt (snd (pick_device cuda_available w)) = opt w.
Proof.
  intros Hd Ha. unfold device_accepted in Ha.
  unfold pick_device, makedirs, bind, gets, emit, modify, raise, ret. simpl.
  destruct (String.eqb_spec (checkpoint_dir (opt w)) ""); [contradiction|]. simpl.
  destruct (cuda (opt w)).
  - rewrite (Ha eq_refl). destruct (cuda_available && negb true); simpl; auto.
  - destruct (cuda_available && negb false); simpl; auto.
Qed.

Lemma pick_device_empty cuda_available w :
  checkpoint_dir (opt w) = ""%string ->
  pick_device cuda_available w = (Raise FileNotFoundError 49, w).
Proof.
  intros Hd. unfold pick_device, makedirs, bind, gets, raise. simpl.
  rewrite Hd. reflexivity.
Qed.

(** Line 77 with a batch size that is not positive. *)
Lemma build_data_bad_batch w :
  batch_size (opt w) <= 0 -> fst (build_data w) = Raise ValueError 77.
Proof.
  intros Hb. unfold build_data. unfold bind at 1. unfold gets at 1. cbv beta iota.
  destruct (random_split_sizes (FivekDataset_new (data_path (opt w)) 2 landscape_transform
                                  Landscape true) 71 w) as (ltr & lte & w1 & El & _).
  rewrite (bind_run _ _ _ _ _ El). cbv beta.
  destruct (random_split_sizes (FivekDataset_new (data_path (opt w)) 2 portrait_transform
                                  Portrait true) 75 w1) as (ptr & pte & w2 & Ep & _).
  rewrite (bind_run _ _ _ _ _ Ep). cbv beta.
  unfold bind at 1. unfold DataLoader at 1. simpl fst.
  destruct (sampler_rejects_empty && (subset_len ltr =? 0)%nat); [reflexivity|].
  destruct (Z.leb_spec (batch_size (opt w)) 0); [reflexivity|lia].
Qed.

(** X7: a batch size that is not positive stops the process on line 77
    with [ValueError], whatever the data, once lines 35-75 are passed: the
    seed is one torch takes (line 47), the checkpoint directory has a name
    (line 49) and the device is one [torch.device] takes (line 53).  The log
    directory and the checkpoint directory have been created by then and no
    model has been built. *)
Theorem X7_non_positive_batch_size_stops_at_line_77 :
  forall (c : CommandLine) (env : environment) (o : Namespace),
    parse_args c = Ok o ->
    batch_size o <= 0 ->
    seed_accepted o ->
    checkpoint_dir o <> ""%string ->
    device_accepted o ->
    exists w,
      script c env = (Raise ValueError 77, Some w) /\
      model w = None /\
      dirs w = checkpoint_dir o :: log_dir_name o (env_date env) :: env_dirs env.
Proof.
  intros c env o Hp Hb Hs Hd Hdev. unfold script. rewrite Hp.
  rewrite main_unfold by exact Hs.
  set (w0 := boot env o).
  destruct (seed_filled_all _ _ (seeded_seed_filled (env_date env) w0))
    as (Eb & _ & _ & Ed & _).
  destruct (seed_filled_device _ _ (seeded_seed_filled (env_date env) w0))
    as (Ec & Ei & _).
  change (opt w0) with o in *.
  destruct (pick_device_run (env_cuda_available env) (seeded (env_date env) w0))
    as (Ok1 & D1 & O1);
    [congruence|unfold device_accepted in *; rewrite Ec, Ei; exact Hdev|].
  unfold assemble. unfold bind at 1. rewrite (bind_fst _ _ _ _ Ok1).
  set (w1 := snd (pick_device (env_cuda_available env) (seeded (env_date env) w0))) in *.
  pose proof (build_data_bad_batch w1 ltac:(rewrite O1; lia)) as Hr.
  rewrite (bind_fst_raise _ _ _ _ _ Hr). cbv beta iota.
  eexists. split; [reflexivity|]. split.
  - assert (M0 : model (seeded (env_date env) w0) = None).
    { assert (Q1 : preserves same_model (open_writer (env_date env)))
        by (unfold same_model; frame; unfold same_model; reflexivity).
      assert (Q2 : preserves same_model seeding)
        by (unfold same_model; frame; unfold same_model; reflexivity).
      specialize (Q1 w0). specialize (Q2 (snd (open_writer (env_date env) w0))).
      unfold same_model, seeded in *. rewrite Q2, Q1. reflexivity. }
    assert (P1 : preserves same_model (pick_device (env_cuda_available env)))
      by (unfold same_model; frame; unfold same_model; reflexivity).
    assert (P2 : preserves same_model build_data)
      by (unfold same_model; frame; unfold same_model; reflexivity).
    specialize (P1 (seeded (env_date env) w0)). specialize (P2 w1).
    unfold same_model in *. fold w1 in P1. congruence.
  - assert (P2 : preserves same_dirs build_data) by frame.
    specialize (P2 w1). unfold same_dirs in P2. rewrite P2, D1, Ed, seeded_dirs.
    reflexivity.
Qed.

(** X8: with a seed torch takes (so that line 47 is passed), an empty
    [--checkpoint_dir] stops the process on line 49 with
    [FileNotFoundError], after the log directory was created and before any
    dataset is read. *)
Theorem X8_empty_checkpoint_dir_stops_at_line_49 :
  forall (c : CommandLine) (env : environment) (o : Namespace),
    parse_args c = Ok o ->
    seed_accepted o ->
    checkpoint_dir o = ""%string ->
    exists w,
      script c env = (Raise FileNotFoundError 49, Some w) /\
      dirs w = log_dir_name o (env_date env) :: env_dirs env.
Proof.
  intros c env o Hp Hs Hd. unfold script. rewrite Hp. rewrite main_unfold by exact Hs.
  set (w0 := boot env o).
  destruct (seed_filled_all _ _ (seeded_seed_filled (env_date env) w0))
    as (_ & _ & _ & Ed & _).
  change (opt w0) with o in *.
  unfold assemble. unfold bind at 1.
  rewrite (bind_raise _ _ _ _ _ _
             (pick_device_empty (env_cuda_available env) (seeded (env_date env) w0)
                ltac:(congruence))).
  eexists. split; [reflexivity|]. apply seeded_dirs.
Qed.

End Failures.

Section Files.

Context {F : Framework}.

Local Open Scope list_scope.
Local Open Scope Z_scope.
Local Open Scope py_scope.

Lemma files_of_app a b : files_of (a ++ b) = files_of a ++ files_of b.
Proof. apply flat_map_app. Qed.

Lemma files_of_images epoch idxs :
  files_of (map (fun idx => ImageLogged (image_tag idx) epoch) idxs) = [].
Proof. induction idxs as [|i idxs IH]; simpl; auto. Qed.

Lemma files_of_epochs o idxs c l :
  checkpoint_every o = PyInt c ->
  files_of (flat_map (epoch_journal o idxs) l)
  = map (fun n => (checkpoint_dir o, checkpoint_name (run_tag o) n))
        (filter (fun n => n mod c =? 0) (map (fun e => e + 1) l)).
Proof.
  intros Hc. induction l as [|e l IH]; [reflexivity|].
  change (flat_map (epoch_journal o idxs) (e :: l))
    with (epoch_journal o idxs e ++ flat_map (epoch_journal o idxs) l).
  rewrite files_of_app, IH. unfold epoch_journal, checkpoint_entry.
  rewrite Hc. cbn [map filter]. rewrite !files_of_app, files_of_images.
  destruct ((e + 1) mod c =? 0); reflexivity.
Qed.

(** The files of a completed run from a fresh trace. *)
Lemma completed_run_files date cuda_available w w' c :
  trace w = [] ->
  checkpoint_every (opt w) = PyInt c ->
  main date cuda_available w = (Ok tt, w') ->
  files_of (journal (trace w'))
  = map (fun n => (checkpoint_dir (opt w), checkpoint_name (run_tag (opt w)) n))
        (due c (epochs (opt w)))
    ++ [(final_dir (opt w), (run_tag (opt w) ++ "_final.pt")%string)].
Proof.
  intros Ht Hc H.
  pose proof (main_seed_filled date cuda_available w) as S. rewrite H in S. simpl in S.
  apply seed_filled_all in S as (_ & Ee & Ec & Ed & Ef & Er & _).
  destruct (main_journal _ _ _ _ H) as (idxs & _ & HJ).
  rewrite HJ, Ht. simpl journal. cbn [app].
  rewrite files_of_app, (files_of_epochs _ _ c) by congruence.
  unfold due, final_entry. simpl. rewrite Ee, Ed, Ef, Er. reflexivity.
Qed.

(** The files of a completed process with the default interval. *)
Lemma default_run_files c env o w :
  parse_args c = Ok o ->
  arg_checkpoint_every c = None ->
  script c env = (Ok tt, Some w) ->
  files_of (journal (trace w))
  = map (fun n => (checkpoint_dir o, checkpoint_name (run_tag o) n)) (due 10 (epochs o))
    ++ [(final_dir o, (run_tag o ++ "_final.pt")%string)].
Proof.
  intros Hp Hc Hs. unfold script in Hs. rewrite Hp in Hs.
  destruct (main (env_date env) (env_cuda_available env) (boot env o)) as [r w'] eqn:E.
  inversion Hs; subst r w'; clear Hs.
  assert (Hi : checkpoint_every o = PyInt 10).
  { revert Hp. unfold parse_args.
    destruct (negb _); [discriminate|]. destruct (negb _); [discriminate|].
    intros H. inversion H. simpl. rewrite Hc. reflexivity. }
  exact (completed_run_files _ _ (boot env o) w 10 eq_refl Hi E).
Qed.

(** X9: a process that runs to completion with the checkpoint interval
    left at its default has saved, in this order, one file
    [{run_tag}_epoch{N}.pt] in the checkpoint directory for each N in 1..E
    that is a multiple of 10, then [{run_tag}_final.pt] in the final
    directory, and no other file. *)
Theorem X9_files_of_a_completed_default_run :
  forall (c : CommandLine) (env : environment) (o : Namespace) (w : World),
    parse_args c = Ok o ->
    arg_checkpoint_every c = None ->
    script c env = (Ok tt, Some w) ->
    files_of (journal (trace w))
    = map (fun n => (checkpoint_dir o, checkpoint_name (run_tag o) n))
          (filter (fun n => n mod 10 =? 0) (map (fun e => e + 1) (range (epochs o))))
      ++ [(final_dir o, (run_tag o ++ "_final.pt")%string)].
Proof. intros c env o w. exact (default_run_files c env o w). Qed.

(** X10: with [--epochs] zero or negative the loop body never runs: a
    process that completes has logged no scalar and no image, written no
    checkpoint, and saved the final file. *)
Theorem X10_no_epochs_only_final_file :
  forall (c : CommandLine) (env : environment) (o : Namespace) (w : World),
    parse_args c = Ok o ->
    epochs o <= 0 ->
    script c env = (Ok tt, Some w) ->
    journal (trace w) = [FileSaved (final_dir o) (run_tag o ++ "_final.pt")%string].
Proof.
  intros c env o w Hp He Hs. unfold script in Hs. rewrite Hp in Hs.
  destruct (main (env_date env) (env_cuda_available env) (boot env o)) as [r w'] eqn:E.
  inversion Hs; subst r w'; clear Hs.
  pose proof (main_seed_filled (env_date env) (env_cuda_available env) (boot env o)) as S.
  rewrite E in S. simpl in S.
  apply seed_filled_all in S as (_ & Ee & _ & _ & Ef & Er & _). simpl in Ee, Ef, Er.
  destruct (main_journal _ _ _ _ E) as (idxs & _ & HJ). rewrite HJ. simpl journal.
  unfold range. rewrite Ee. replace (Z.to_nat (epochs o)) with 0%nat by lia.
  simpl. unfold final_entry. rewrite Ef, Er. reflexivity.
Qed.

End Files.

Section FileNames.

Context {F : Framework}.

Local Open Scope list_scope.
Local Open Scope Z_scope.

Lemma to_int_not_nil z : Z.to_int z <> Decimal.Pos Decimal.Nil /\
                         Z.to_int z <> Decimal.Neg Decimal.Nil.
Proof.
  destruct z; simpl; split; try discriminate; intros H; inversion H as [H1];
    exact (DecimalPos.Unsigned.to_uint_nonnil _ H1).
Qed.

(** [str] never gives two integers the same text. *)
Lemma str_of_Z_inj a b : str_of_Z a = str_of_Z b -> a = b.
Proof.
  unfold str_of_Z. intros H. apply (f_equal NilZero.int_of_string) in H.
  destruct (to_int_not_nil a) as [A1 A2]. destruct (to_int_not_nil b) as [B1 B2].
  rewrite !NilZero.isi in H by assumption. inversion H as [H1].
  apply (f_equal Z.of_int) in H1. rewrite !DecimalZ.of_to in H1. exact H1.
Qed.

Lemma string_length_append (a b : string) :
  String.length (a ++ b) = (String.length a + String.length b)%nat.
Proof. induction a as [|c a IH]; simpl; [reflexivity|]. rewrite IH. reflexivity. Qed.

Lemma append_inj_l (s a b : string) : (s ++ a = s ++ b)%string -> a = b.
Proof. induction s as [|c s IH]; simpl; intros H; [exact H|]. inversion H. auto. Qed.

Lemma append_inj_r (s : string) : forall a b : string, (a ++ s = b ++ s)%string -> a = b.
Proof.
  induction a as [|c a IH]; intros [|c' b] H; simpl in H.
  - reflexivity.
  - exfalso. apply (f_equal String.length) in H. simpl in H.
    rewrite string_length_append in H. lia.
  - exfalso. apply (f_equal String.length) in H. simpl in H.
    rewrite string_length_append in H. lia.
  - inversion H. f_equal. apply IH. assumption.
Qed.

(** Two epochs never share a checkpoint name. *)
Lemma checkpoint_name_inj tag a b :
  checkpoint_name tag a = checkpoint_name tag b -> a = b.
Proof.
  unfold checkpoint_name. intros H.
  apply append_inj_l in H. apply (append_inj_l "_epoch") in H.
  apply append_inj_r in H. apply str_of_Z_inj. exact H.
Qed.

(** The final file is never named like a checkpoint. *)
Lemma final_name_not_checkpoint tag n :
  (tag ++ "_final.pt")%string <> checkpoint_name tag n.
Proof.
  unfold checkpoint_name. intros H. apply append_inj_l in H. simpl in H. discriminate H.
Qed.








Lemma range_NoDup n : NoDup (range n).
Proof.
  unfold range. apply Injective_map_NoDup; [|apply seq_NoDup].
  intros a b. apply Nat2Z.inj.
Qed.

(** X11: the files a completed default run saves all have different
    paths: no checkpoint overwrites another, and the final file overwrites no
    checkpoint even when both directories are the same. *)
Theorem X11_saved_files_are_distinct :
  forall (c : CommandLine) (env : environment) (o : Namespace) (w : World),
    parse_args c = Ok o ->
    arg_checkpoint_every c = None ->
    script c env = (Ok tt, Some w) ->
    NoDup (files_of (journal (trace w))).
Proof.
  intros c env o w Hp Hc Hs.
  rewrite (default_run_files c env o w Hp Hc Hs). unfold due.
  apply (Permutation_NoDup (Permutation_cons_append _ _)).
  constructor.
  - intros Hin. apply in_map_iff in Hin as (n & E & _).
    apply (f_equal snd) in E. simpl in E.
    symmetry in E. exact (final_name_not_checkpoint _ _ E).
  - apply Injective_map_NoDup.
    + intros a b E. apply (f_equal snd) in E. simpl in E.
      apply (checkpoint_name_inj _ _ _ E).
    + apply NoDup_filter. apply Injective_map_NoDup; [|apply range_NoDup].
      intros a b E. lia.
Qed.

End FileNames.

Section Visualization.

Context {F : Framework}.

Local Open Scope list_scope.
Local Open Scope Z_scope.
Local Open Scope py_scope.

(** One image per index, and no [IndexError], when the indices are
    positions of the test subset and the model is bound. *)
Lemma visualize_run sub epoch idxs : forall w m,
  model w = Some m ->
  Forall (fun i => (i < subset_len sub)%nat) idxs ->
  fst (visualize sub idxs epoch w) = Ok tt.
Proof.
  unfold visualize.
  induction idxs as [|idx idxs IH]; intros w m Hm Hi; simpl; [reflexivity|].
  inversion Hi as [|? ? Hlt Hrest]; subst.
  unfold bind at 1.
  unfold subset_getitem, model_call, read_model, bind, gets, emit, modify, raise,
    ret. simpl.
  destruct (nth_error (indices sub) idx) as [i|] eqn:En.
  - simpl. rewrite Hm. simpl. eapply IH; [|exact Hrest]. simpl. exact Hm.
  - apply nth_error_None in En. unfold subset_len in Hlt. lia.
Qed.

(** X12: the indices line 111 samples are positions of the landscape
    test subset, so the visualization of lines 145-152 never raises
    [IndexError]: with a model bound it completes, having written exactly one
    image per sampled index, in the order sampled, at the epoch's step. *)
Theorem X12_visualization_indices_are_valid :
  forall (sub : subset) (w w1 : World) (idxs : list nat),
    sample_test_idxs sub w = (Ok idxs, w1) ->
    forall (epoch : Z) (w2 : World) (m : module),
      model w2 = Some m ->
      Forall (fun i => (i < subset_len sub)%nat) idxs /\
      exists w3,
        visualize sub idxs epoch w2 = (Ok tt, w3) /\
        journal (trace w3)
        = journal (trace w2) ++ map (fun idx => ImageLogged (image_tag idx) epoch) idxs.
Proof.
  intros sub w w1 idxs Hs epoch w2 m Hm.
  assert (Hv : Forall (fun i => (i < subset_len sub)%nat) idxs).
  { destruct (sample_test_idxs_ok _ _ _ _ Hs) as [H3 _].
    destruct (sample_test_idxs_enough sub w H3) as (i & w' & E & _ & Hf).
    rewrite E in Hs. inversion Hs; subst. exact Hf. }
  split; [exact Hv|].
  pose proof (visualize_run sub epoch idxs w2 m Hm Hv) as Hok.
  destruct (visualize sub idxs epoch w2) as [r w3] eqn:E. simpl in Hok. subst r.
  exists w3. split; [reflexivity|]. apply (visualize_journal _ _ _ _ _ E).
Qed.

End Visualization.

Ltac frame_side ::=
  intros;
  first [ reflexivity
        | solve [unfold_relations; simpl; auto; congruence]
        | solve [apply extends_quiet; reflexivity]
        | solve [unfold same_dirs; simpl; auto]
        | solve [unfold steady; simpl; intuition (auto; congruence)] ].

Section Completion.

Context {F : Framework}.

Local Open Scope list_scope.
Local Open Scope Z_scope.
Local Open Scope py_scope.

#[export] Instance steady_preorder : PreOrder steady.
Proof.
  split.
  - intros w. unfold steady. intuition.
  - intros a b c (O1 & D1 & G1 & M1 & C1 & S1) (O2 & D2 & G2 & M2 & C2 & S2).
    unfold steady. repeat split; try congruence; auto.
Qed.


(** *** Sizes *)








(** *** Frames *)






Lemma test_step_steady acc batch : preserves steady (test_step acc batch).
Proof.
  intros w. unfold test_step, with_no_grad, model_call, read_model, read_criterion,
    bind, gets, emit, modify, raise, ret. simpl.
  destruct (model w) as [m|] eqn:Em; simpl.
  - destruct (criterion w) as [c|] eqn:Ec; simpl; unfold steady; simpl;
      rewrite ?Em, ?Ec; intuition (auto; congruence).
  - unfold steady; simpl. rewrite Em. intuition (auto; congruence).
Qed.

Ltac frame_hook ::=
  first [ apply set_training_same_params
        | apply with_no_grad_same_grad
        | apply test_step_steady ].







(** *** Each part completes *)





















End Completion.

Section SavedParameters.

Context {F : Framework}.

Local Open Scope list_scope.
Local Open Scope Z_scope.
Local Open Scope py_scope.

Lemma saved_app a b : saved (a ++ b) = saved a ++ saved b.
Proof. unfold saved. apply flat_map_app. Qed.

Lemma saved_no_save t : Forall no_save t -> saved t = [].
Proof.
  induction 1 as [|e t He _ IH]; [reflexivity|].
  destruct e; simpl in *; try exact IH. contradiction.
Qed.

Lemma evaluate_no_save tl epoch : preserves (extends no_save) (evaluate tl epoch).
Proof. frame. Qed.

Lemma visualize_no_save sub idxs epoch :
  preserves (extends no_save) (visualize sub idxs epoch).
Proof. frame. Qed.

Lemma log_train_error_same_params tl cum epoch :
  preserves same_params (log_train_error tl cum epoch).
Proof. frame. Qed.

(** Lines 130-131: the model is left alone, and what is written, if
    anything, is its state dict. *)
Lemma checkpointing_saved epoch w w' :
  checkpointing epoch w = (Ok tt, w') ->
  params_of w' = params_of w /\
  exists t, trace w' = trace w ++ t /\ forall p, In p (saved t) -> params_of w = Some p.
Proof.
  unfold checkpointing, torch_save, read_model, bind, gets, emit, modify, raise, ret.
  simpl. intros H.
  destruct (checkpoint_every (opt w)) as [c|s]; [|discriminate].
  destruct (c =? 0); [discriminate|].
  destruct ((epoch + 1) mod c =? 0).
  - unfold params_of. destruct (model w) as [m|] eqn:Em; simpl in H; [|discriminate].
    destruct (file_creatable _ _); inversion H; subst; clear H.
    simpl. rewrite Em. split; [reflexivity|].
    eexists. split; [reflexivity|]. simpl. intros p [<-|[]]. reflexivity.
  - inversion H; subst. split; [reflexivity|]. exists []. split.
    + symmetry. apply app_nil_r.
    + intros p [].
Qed.

(** X14: in an epoch that completes, the file line 131 saves, if one is
    due, holds the parameters the training loop of that epoch ended with,
    and the epoch ends with those same parameters: logging, evaluation and
    visualization (lines 128-152) change none, so the test error of the
    epoch is measured on what the checkpoint holds. *)
Theorem X14_checkpoint_holds_trained_parameters :
  forall (d : loaders) (test_idxs : list nat) (epoch : Z) (w w' : World),
    epoch_body d test_idxs epoch w = (Ok tt, w') ->
    let trained := params_of (snd (train_epoch (train_loader d) epoch w)) in
    params_of w' = trained /\
    exists t,
      trace w' = trace w ++ t /\
      forall p, In p (saved t) -> trained = Some p.
Proof.
  intros d idxs epoch w w' H. unfold epoch_body in H.
  apply bind_ok in H as (cum & w1 & E1 & H).
  apply bind_ok in H as ([] & w2 & E2 & H).
  apply bind_ok in H as ([] & w3 & E3 & H).
  apply bind_ok in H as ([] & w4 & E4 & E5).
  rewrite E1. cbn [snd]. cbv zeta.
  pose proof (train_epoch_no_save (train_loader d) epoch w) as P1. rewrite E1 in P1.
  pose proof (log_train_error_no_save (train_loader d) cum epoch w1) as P2. rewrite E2 in P2.
  pose proof (log_train_error_same_params (train_loader d) cum epoch w1) as S2.
  rewrite E2 in S2.
  destruct (checkpointing_saved _ _ _ E3) as (S3 & t3 & T3 & H3).
  pose proof (evaluate_no_save (test_loader d) epoch w3) as P4. rewrite E4 in P4.
  pose proof (evaluate_same_params (test_loader d) epoch w3) as S4. rewrite E4 in S4.
  pose proof (visualize_no_save (test_landscape_dataset d) idxs epoch w4) as P5.
  rewrite E5 in P5.
  pose proof (visualize_same_params (test_landscape_dataset d) idxs epoch w4) as S5.
  rewrite E5 in S5.
  simpl in P1, P2, S2, P4, S4, P5, S5.
  destruct P1 as (t1 & T1 & N1), P2 as (t2 & T2 & N2), P4 as (t4 & T4 & N4),
    P5 as (t5 & T5 & N5).
  destruct S2 as [S2 _], S4 as [S4 _], S5 as [S5 _].
  split; [congruence|].
  exists (t1 ++ t2 ++ t3 ++ t4 ++ t5). split.
  - rewrite T5, T4, T3, T2, T1. rewrite <- !app_assoc. reflexivity.
  - intros p. rewrite !saved_app.
    rewrite (saved_no_save _ N1), (saved_no_save _ N2), (saved_no_save _ N4),
      (saved_no_save _ N5).
    cbn [app]. rewrite app_nil_r. intros Hin. rewrite <- S2. apply H3. exact Hin.
Qed.

End SavedParameters.

(* ===================================================================== *)
(** ** The theorems at work on the small framework *)

Section Examples.

Import Toy.

Local Open Scope list_scope.
Local Open Scope Z_scope.

Example parse_no_args : parse_args no_args = Ok default_opt.
Proof. reflexivity. Qed.

(** A run is its outcome and the world it ends in. *)
Lemma run_eq {A : Type} (x : outcome A * World) (r : outcome A) :
  fst x = r -> x = (r, snd x).
Proof. destruct x. simpl. intros ->. reflexivity. Qed.

Example parse_short_run : parse_args short_run = Ok short_opt.
Proof. reflexivity. Qed.

(** C1, at [--checkpoint_every 5] with every other option at its default:
    the run raises and no file has been saved. *)
Lemma C1_witness :
  exists e l w,
    script (with_checkpoint_every "5" no_args) env = (Raise e l, Some w) /\
    forall d f, ~ In (FileSaved d f) (journal (trace w)).
Proof.
  eapply (C1_interval_from_command_line_saves_nothing
            (with_checkpoint_every "5" no_args) env "5").
  - reflexivity.
  - reflexivity.
  - reflexivity.
Defined.

(** The same run, evaluated: the exception is the [TypeError] of line 130,
    in the first epoch, after the first 'Train Error' was logged. *)
Example cli_interval_run :
  fst (script (with_checkpoint_every "5" no_args) env) = Raise TypeError 130 /\
  option_map (fun w => journal (trace w))
             (snd (script (with_checkpoint_every "5" no_args) env))
  = Some [ScalarLogged "Train Error" 0].
Proof. vm_compute. split; reflexivity. Qed.

(** With the interval left at its default, twenty epochs write the two
    checkpoints due, and then the final save fails: [final_models] does not
    exist. *)
Example default_dirs_lose_final_model :
  fst (script (with_epochs 20 short_run_default_dirs) env) = Raise RuntimeError 155 /\
  option_map (fun w => filter (fun e => match e with FileSaved _ _ => true | _ => false end)
                              (journal (trace w)))
             (snd (script (with_epochs 20 short_run_default_dirs) env))
  = Some [FileSaved "checkpoints" "_epoch10.pt"; FileSaved "checkpoints" "_epoch20.pt"].
Proof. vm_compute. split; reflexivity. Qed.

(** C2, at seed 42 on two different machines: the same subsets, loaders
    and indices. *)
Lemma C2_witness :
  fst (prepare (env_date env) (env_cuda_available env)
               (boot env (set_manual_seed (Some 42) short_opt)))
  = fst (prepare (env_date env2) (env_cuda_available env2)
                 (boot env2 (set_manual_seed (Some 42) short_opt))).
Proof.
  apply (C2_seeded_runs_agree (set_manual_seed (Some 42) short_opt) 42 env env2).
  reflexivity.
Defined.

Example seeded_preparation_completes :
  is_ok (fst (prepare (env_date env) (env_cuda_available env)
                      (boot env (set_manual_seed (Some 42) short_opt)))) = true.
Proof. vm_compute. reflexivity. Qed.

(** C3, at eleven samples: 8 and 3. *)
Lemma C3_witness :
  PyFloat.floor (PyFloat.mul PyFloat.lit_0_8 (PyFloat.of_int 11)) = 4 * 11 / 5 /\
  (subset_len (train_landscape_dataset (fst (fst (at_loop short_run))))
   + subset_len (test_landscape_dataset (fst (fst (at_loop short_run)))) = 11)%nat.
Proof.
  pose proof (C3_split_sizes (landscape_dataset short_opt) 71
                (snd (pick_device false (boot env short_opt)))) as (_ & H2 & H3).
  split.
  - apply H2. vm_compute. reflexivity.
  - refine (proj1 (H3 (fst (fst (at_loop short_run)))
                      (snd (build_data (snd (pick_device false (boot env short_opt))))) _)).
    apply run_eq. vm_compute. reflexivity.
Defined.

(** C4, at a namespace whose selectors match no branch, and at the
    defaults. *)
Lemma C4_witness :
  select_model Cpu (boot env unmatched_opt) = (Raise NameError 90, boot env unmatched_opt) /\
  select_criterion Cpu (boot env unmatched_opt)
  = (Raise NameError 105, boot env unmatched_opt) /\
  fst (select_model Cpu (boot env default_opt)) = Ok tt /\
  fst (select_criterion Cpu (boot env default_opt)) = Ok tt.
Proof.
  pose proof (C4_selection_guard Cpu (boot env unmatched_opt)) as (H1 & H2 & _).
  pose proof (C4_selection_guard Cpu (boot env default_opt)) as (_ & _ & H3).
  split; [|split].
  - apply H1; [reflexivity|]. simpl. intros [H|[H|[]]]; discriminate H.
  - apply H2; [reflexivity|]. simpl.
    intros [H|[H|[H|[H|[H|[H|[]]]]]]]; discriminate H.
  - destruct (H3 no_args default_opt) as (A & _ & B & _); try reflexivity. auto.
Defined.

(** C5 as stated fails: the first epoch at the default interval of ten
    logs the three images at step 0 and writes no checkpoint; so does the
    second; the only file of the run is the final one. *)
Lemma C5_counterexample :
  fst (script short_run env) = Ok tt /\
  option_map (fun w => journal (trace w)) (snd (script short_run env))
  = Some [ScalarLogged "Train Error" 0; ScalarLogged "Test Error" 0;
          ImageLogged "0:Original|Estimated|Actual" 0;
          ImageLogged "1:Original|Estimated|Actual" 0;
          ImageLogged "2:Original|Estimated|Actual" 0;
          ScalarLogged "Train Error" 1; ScalarLogged "Test Error" 1;
          ImageLogged "0:Original|Estimated|Actual" 1;
          ImageLogged "1:Original|Estimated|Actual" 1;
          ImageLogged "2:Original|Estimated|Actual" 1;
          FileSaved "checkpoints" "_final.pt"].
Proof. vm_compute. split; reflexivity. Qed.

(** C5 as amended, at the run with the default directories, which raises
    on line 155 after both epochs completed: the first epoch logged both
    scalars and the three images and wrote no checkpoint. *)
Lemma C5_witness :
  fst (script short_run_default_dirs env) = Raise RuntimeError 155 /\
  List.length [0; 1; 2]%nat = 3%nat /\
  exists checkpoint,
    journal (trace (snd (epoch_body (fst (fst (at_loop short_run_default_dirs)))
                                    [0; 1; 2]%nat 0
                                    (snd (at_loop short_run_default_dirs)))))
    = journal (trace (snd (at_loop short_run_default_dirs)))
      ++ [ScalarLogged "Train Error" 0]
      ++ checkpoint
      ++ [ScalarLogged "Test Error" 0]
      ++ map (fun idx => ImageLogged (image_tag idx) 0) [0; 1; 2]%nat /\
    (checkpoint = [] \/ exists dir file, checkpoint = [FileSaved dir file]).
Proof.
  split; [vm_compute; reflexivity|].
  destruct (C5_every_epoch_logs_scalars_and_images
              (env_date env) (env_cuda_available env) (start short_run_default_dirs)
              (snd (at_loop short_run_default_dirs))
              (fst (fst (at_loop short_run_default_dirs))) [0; 1; 2]%nat)
    as (Hlen & Hepoch & _).
  - vm_compute. reflexivity.
  - split; [exact Hlen|].
    apply (Hepoch 0 (snd (at_loop short_run_default_dirs))
                  (snd (epoch_body (fst (fst (at_loop short_run_default_dirs)))
                                   [0; 1; 2]%nat 0
                                   (snd (at_loop short_run_default_dirs))))).
    apply run_eq. vm_compute. reflexivity.
Defined.

(** C6 as stated fails: without [--manual_seed] the seed field is [None]
    after parsing and holds a number at the end of the run. *)
Lemma C6_counterexample :
  parse_args short_run = Ok short_opt /\
  manual_seed short_opt = None /\
  option_map (fun w => manual_seed (opt w)) (snd (script short_run env)) = Some (Some 1).
Proof. vm_compute. repeat split; reflexivity. Qed.

(** C6 as amended, at that run: the seed is filled in, everything else is
    as parsed. *)
Lemma C6_witness :
  exists s, 1 <= s <= 10000 /\
            opt (snd (main (env_date env) (env_cuda_available env) (boot env short_opt)))
            = set_manual_seed (Some s) short_opt.
Proof.
  refine (C6_namespace_changes_only_by_seed_fill short_run env short_opt
            (fst (main (env_date env) (env_cuda_available env) (boot env short_opt)))
            (snd (main (env_date env) (env_cuda_available env) (boot env short_opt)))
            eq_refl _).
  change (script short_run env)
    with (let (r, w) := main (env_date env) (env_cuda_available env) (boot env short_opt)
          in (r, Some w)).
  destruct (main (env_date env) (env_cuda_available env) (boot env short_opt)).
  reflexivity.
Defined.

(** With a seed given, nothing changes. *)
Example seeded_namespace_is_fixed :
  option_map opt (snd (script (with_seed 42 short_run) env))
  = Some (set_manual_seed (Some 42) short_opt).
Proof. vm_compute. reflexivity. Qed.


(** C8, at the first epoch of the short run: a forward pass in eval mode
    with gradient tracking on has been recorded. *)
Lemma C8_witness :
  In (EvForward true false)
     (trace (snd (epoch_body (fst (fst (at_loop short_run))) [0; 1; 2]%nat 0
                             (snd (at_loop short_run))))).
Proof.
  apply (C8_visualization_forward_tracks_gradients
           (fst (fst (at_loop short_run))) 0%nat [1; 2]%nat 0 (snd (at_loop short_run))
           (snd (epoch_body (fst (fst (at_loop short_run))) [0; 1; 2]%nat 0
                            (snd (at_loop short_run))))).
  - reflexivity.
  - apply run_eq. vm_compute. reflexivity.
Defined.

(** C9, at a landscape dataset of ten samples: eight for training, two
    for testing, and the run stops before the first batch. *)
Lemma C9_witness :
  exists e l,
    fst (main (env_date env) false (start (with_data_path "0123456789" no_args)))
    = Raise e l.
Proof.
  pose proof (C9_sampling_needs_three_test_samples (env_date env) false
                (start (with_data_path "0123456789" no_args))) as (_ & _ & _ & _ & H).
  destruct H as [H _].
  - vm_compute. lia.
  - exact H.
Defined.

Example ten_samples_stop_at_line_111 :
  fst (script (with_data_path "0123456789" no_args) env) = Raise ValueError 111.
Proof. vm_compute. reflexivity. Qed.

(** C10, at a joined test loader over two empty test sets, with model and
    loss bound as at line 112. *)
Lemma C10_witness :
  fst (evaluate empty_loader 0 (snd (at_loop short_run))) = Raise ZeroDivisionError 142.
Proof.
  pose proof (C10_empty_test_pass_stops_epoch empty_loader 0 (snd (at_loop short_run)))
    as (H & _).
  refine (proj1 (H (mkModule CAN32 0 true 0 Cpu) MSELoss _ _) _).
  - vm_compute. reflexivity.
  - vm_compute. reflexivity.
  - vm_compute. reflexivity.
Defined.

End Examples.

(* ===================================================================== *)
(** ** More worked runs *)

Section MoreExamples.

Import Toy.

Local Open Scope list_scope.
Local Open Scope Z_scope.

(** A process that got past the parser is [main] from the booted world. *)
Lemma script_run (c : CommandLine) (e : environment) (o : Namespace) (r : outcome unit) :
  parse_args c = Ok o ->
  fst (main (env_date e) (env_cuda_available e) (boot e o)) = r ->
  script c e = (r, Some (snd (main (env_date e) (env_cuda_available e) (boot e o)))).
Proof.
  intros Hp Hr. unfold script. rewrite Hp.
  destruct (main (env_date e) (env_cuda_available e) (boot e o)) as [r' w].
  simpl in *. subst. reflexivity.
Qed.

(** X1, at the short run: no seed on the command line, none in the
    options text. *)
Lemma X1_witness :
  manual_seed short_opt = arg_manual_seed short_run /\
  exists t,
    trace (snd (main (env_date env) (env_cuda_available env) (boot env short_opt)))
    = EvAddText "Options" short_opt 0 :: EvPrint (PrOpt short_opt) :: t.
Proof.
  apply (X1_options_logged_as_parsed short_run env short_opt (Ok tt)).
  - reflexivity.
  - apply script_run; [reflexivity|vm_compute; reflexivity].
Defined.

(** X2, at the short run without a seed, and at a seed of [2 ^ 64], one
    past the largest torch takes. *)
Lemma X2_witness :
  (exists s,
     manual_seed (opt (snd (seeding (start short_run)))) = Some s /\
     (manual_seed (opt (start short_run)) = Some s \/
      (manual_seed (opt (start short_run)) = None /\ 1 <= s <= 10000)) /\
     py_rng (snd (seeding (start short_run))) = random_seed s /\
     torch_rng (snd (seeding (start short_run))) = torch_manual_seed s /\
     trace (snd (seeding (start short_run)))
     = trace (start short_run) ++ [EvPrint (PrSeed (Some s))]) /\
  fst (seeding (start (with_seed (2 ^ 64) short_run))) = Raise RuntimeError 47.
Proof.
  split.
  - apply (proj1 (proj2 (X2_generators_seeded_from_namespace (start short_run)))).
    exact I.
  - apply (proj2 (proj2 (X2_generators_seeded_from_namespace
                           (start (with_seed (2 ^ 64) short_run)))) (2 ^ 64)).
    + reflexivity.
    + reflexivity.
Defined.

(** X4, at the first epoch of the short run. *)
Lemma X4_witness :
  extends training_pass (snd (at_loop short_run))
    (snd (train_epoch (train_loader (fst (fst (at_loop short_run)))) 0
                      (snd (at_loop short_run)))) /\
  grad_enabled (snd (train_epoch (train_loader (fst (fst (at_loop short_run)))) 0
                                 (snd (at_loop short_run)))) = true.
Proof.
  apply (X4_training_passes_in_training_mode
           (train_loader (fst (fst (at_loop short_run)))) 0 (snd (at_loop short_run))).
  vm_compute. reflexivity.
Defined.

(** X6, at the test loader of the short run, model and loss as bound at
    line 112. *)
Lemma X6_witness :
  exists w' t,
    evaluate (test_loader (fst (fst (at_loop short_run)))) 0 (snd (at_loop short_run))
    = (Ok tt, w') /\
    model w' = Some (@mkModule framework CAN32 0 false 0 Cpu) /\
    trace w'
    = trace (snd (at_loop short_run)) ++ t
      ++ [EvAddScalar "Test Error"
            (scalar_div
               (scalar_sum
                  (map (test_loss_of (@mkModule framework CAN32 0 false 0 Cpu) MSELoss)
                       (yielded (test_loader (fst (fst (at_loop short_run))))
                                (snd (at_loop short_run)))))
               (Z.of_nat
                  (List.length (yielded (test_loader (fst (fst (at_loop short_run))))
                                        (snd (at_loop short_run)))))) 0].
Proof.
  apply (X6_test_error_is_mean_test_loss
           (test_loader (fst (fst (at_loop short_run)))) 0 (snd (at_loop short_run))
           (@mkModule framework CAN32 0 true 0 Cpu) MSELoss).
  - vm_compute. reflexivity.
  - vm_compute. reflexivity.
  - vm_compute. discriminate.
Defined.

(** X7, at [--batch_size 0] on the short run. *)
Lemma X7_witness :
  exists w,
    script (with_batch_size 0 short_run) env = (Raise ValueError 77, Some w) /\
    model w = None /\
    dirs w = ["checkpoints"; "log/03-11-26_10:00"]%string.
Proof.
  apply (X7_non_positive_batch_size_stops_at_line_77 (with_batch_size 0 short_run) env
           (@mkNamespace framework 0 2 0 false 1 None "log" "" (PyInt 10) "checkpoints" "checkpoints"
                        "can32" "mse" 0 "0123456789A")).
  - reflexivity.
  - simpl. lia.
  - exact I.
  - discriminate.
  - discriminate.
Defined.

(** X8, at [--checkpoint_dir ''] with everything else at its default. *)
Lemma X8_witness :
  exists w,
    script (@mkCommandLine framework None None None false None None None None None
                           (Some ""%string)
                          None None None None None) env
    = (Raise FileNotFoundError 49, Some w) /\
    dirs w = ["log/03-11-26_10:00"]%string.
Proof.
  apply (X8_empty_checkpoint_dir_stops_at_line_49
           (@mkCommandLine framework None None None false None None None None None
                           (Some ""%string)
                          None None None None None) env
           (@mkNamespace framework 8 100 0 false 1 None "log" "" (PyInt 10) "" "final_models"
                        "can32" "mse" 0 "/home/iacv3_1/fivek")).
  - reflexivity.
  - exact I.
  - reflexivity.
Defined.

(** X9, at ten epochs of the short run: one checkpoint, then the final
    file. *)
Lemma X9_witness :
  files_of (journal (trace (snd (main (env_date env) (env_cuda_available env)
                                      (boot env (set_epochs 10 short_opt))))))
  = [("checkpoints", "_epoch10.pt"); ("checkpoints", "_final.pt")]%string.
Proof.
  apply (X9_files_of_a_completed_default_run (with_epochs 10 short_run) env
           (set_epochs 10 short_opt)).
  - reflexivity.
  - reflexivity.
  - apply script_run; [reflexivity|vm_compute; reflexivity].
Defined.

(** X10, at [--epochs 0] on the short run. *)
Lemma X10_witness :
  journal (trace (snd (main (env_date env) (env_cuda_available env)
                            (boot env (set_epochs 0 short_opt)))))
  = [FileSaved "checkpoints" "_final.pt"].
Proof.
  apply (X10_no_epochs_only_final_file (with_epochs 0 short_run) env
           (set_epochs 0 short_opt)).
  - reflexivity.
  - simpl. lia.
  - apply script_run; [reflexivity|vm_compute; reflexivity].
Defined.

(** X11, at ten epochs of the short run, checkpoints and final file in
    one directory. *)
Lemma X11_witness :
  NoDup (files_of (journal (trace (snd (main (env_date env) (env_cuda_available env)
                                             (boot env (set_epochs 10 short_opt))))))).
Proof.
  apply (X11_saved_files_are_distinct (with_epochs 10 short_run) env
           (set_epochs 10 short_opt)).
  - reflexivity.
  - reflexivity.
  - apply script_run; [reflexivity|vm_compute; reflexivity].
Defined.

(** X12, at the three indices sampled in the short run. *)
Lemma X12_witness :
  Forall (fun i => (i < subset_len (test_landscape_dataset (fst (fst (at_loop short_run)))))%nat)
         [0; 1; 2]%nat /\
  exists w3,
    visualize (test_landscape_dataset (fst (fst (at_loop short_run)))) [0; 1; 2]%nat 0
              (snd (at_loop short_run)) = (Ok tt, w3) /\
    journal (trace w3)
    = journal (trace (snd (at_loop short_run)))
      ++ map (fun idx => ImageLogged (image_tag idx) 0) [0; 1; 2]%nat.
Proof.
  apply (X12_visualization_indices_are_valid
           (test_landscape_dataset (fst (fst (at_loop short_run))))
           (snd (at_loop short_run))
           (snd (sample_test_idxs (test_landscape_dataset (fst (fst (at_loop short_run))))
                                  (snd (at_loop short_run))))
           [0; 1; 2]%nat)
    with (m := @mkModule framework CAN32 0 true 0 Cpu).
  - apply run_eq. vm_compute. reflexivity.
  - vm_compute. reflexivity.
Defined.


(** X14, at an epoch of the short run in which a checkpoint is due. *)
Lemma X14_witness :
  params_of (snd (epoch_body (fst (fst (at_loop short_run))) [0; 1; 2]%nat 9
                             (snd (at_loop short_run))))
  = params_of (snd (train_epoch (train_loader (fst (fst (at_loop short_run)))) 9
                                (snd (at_loop short_run)))) /\
  exists t,
    trace (snd (epoch_body (fst (fst (at_loop short_run))) [0; 1; 2]%nat 9
                           (snd (at_loop short_run))))
    = trace (snd (at_loop short_run)) ++ t /\
    forall p, In p (saved t) ->
      params_of (snd (train_epoch (train_loader (fst (fst (at_loop short_run)))) 9
                                  (snd (at_loop short_run)))) = Some p.
Proof.
  apply (X14_checkpoint_holds_trained_parameters
           (fst (fst (at_loop short_run))) [0; 1; 2]%nat 9 (snd (at_loop short_run))).
  apply run_eq. vm_compute. reflexivity.
Defined.

End MoreExamples.
